(** * Incomiq: the local persistence and credential layer

    A shallow embedding of the file-backed fallback layer of the Incomiq
    backend ([app/local_storage.py], [app/local_auth.py], [app/auth.py]) and
    of the route handlers and the administrative aggregation that sit on top
    of it ([app/routes/incomes.py], [app/routes/goals.py],
    [app/routes/admin.py]), followed by the properties of that layer.

    Modelling conventions.
    - A Python [str] is a Rocq [string]; a character stands for a code point
      below 256, which covers everything the e-mail pattern accepts.  A
      password is a [PyText.text], the list of its code points, since
      [password.encode()] raises on some of them.
    - A Python number (int or float) is an exact rational of type [Q].
    - A Python dict with string keys is a [gmap string _], and an [ODict.t]
      where the code iterates over it; a Python list is a [list].
    - The configuration is the one in which the layer is active:
      [SUPABASE_URL] is not set, so [USE_LOCAL_AUTH] and [_USE_LOCAL] are
      true and the branches that call Supabase are not reached.
    - The data directory is a record of files.  A file holds either text that
      [json.loads] rejects ([Garbage]) or the JSON value that was dumped into
      it ([Json v]): [json.loads (json.dumps v)] is [v].  Every file is one
      that [read_text] can open and decode; a file for which it raises is no
      state of this record.
    - A raised exception is the [Raise] result; the file system keeps the
      writes made before the raise.
    - Calls to [secrets] and to [datetime.now] take their outcome as an
      argument of the operation that makes them. *)

From Stdlib Require Import QArith Qminmax Lqa Ascii.
From Stdlib Require String.
From stdpp Require Import gmap strings list fin_maps numbers.

Set Warnings "-register-all".
Set Default Proof Using "Type".

(** ** Python strings *)

Module PyStr.

Definition code (c : ascii) : N := N_of_ascii c.

Definition between (lo hi : N) (c : ascii) : bool :=
  ((lo <=? code c) && (code c <=? hi))%N.

(** [str.isspace] on one character: the ASCII white space, the four
    information separators, NEL and the no-break space. *)
Definition isspace (c : ascii) : bool :=
  between 9 13 c || between 28 32 c ||
  (code c =? 133)%N || (code c =? 160)%N.

(** Characters that [str.lower] changes: A-Z and the Latin-1 capitals. *)
Definition isupper (c : ascii) : bool :=
  between 65 90 c || between 192 214 c || between 216 222 c.

Definition lower_char (c : ascii) : ascii :=
  if isupper c then ascii_of_N (code c + 32) else c.

Fixpoint lower (s : string) : string :=
  match s with
  | "" => ""
  | String c s' => String (lower_char c) (lower s')
  end.

Fixpoint lstrip (s : string) : string :=
  match s with
  | "" => ""
  | String c s' => if isspace c then lstrip s' else s
  end.

Fixpoint rstrip (s : string) : string :=
  match s with
  | "" => ""
  | String c s' =>
      match rstrip s' with
      | "" => if isspace c then "" else String c ""
      | r => String c r
      end
  end.

(** [s.strip()] *)
Definition strip (s : string) : string := rstrip (lstrip s).

(** A string that does not begin with white space. *)
Definition no_lead (s : string) : Prop :=
  match s with
  | "" => True
  | String c _ => isspace c = false
  end.

(** [len(s)] *)
Definition len (s : string) : nat := String.length s.

(** [s.startswith(p)] *)
Fixpoint startswith (s p : string) : bool :=
  match p, s with
  | "", _ => true
  | String a p', String b s' => bool_decide (a = b) && startswith s' p'
  | String _ _, "" => false
  end.

(** [p in s] *)
Fixpoint contains (s p : string) : bool :=
  startswith s p ||
  match s with
  | "" => false
  | String _ s' => contains s' p
  end.

(** [s.endswith(p)] *)
Definition endswith (s p : string) : bool :=
  startswith (String.rev s) (String.rev p).

(** [s.split(sep)] for a one-character separator. *)
Fixpoint split_go (sep : ascii) (cur : string) (s : string) : list string :=
  match s with
  | "" => [String.rev cur]
  | String c s' =>
      if bool_decide (c = sep) then String.rev cur :: split_go sep "" s'
      else split_go sep (String c cur) s'
  end.
Definition split (s : string) (sep : ascii) : list string := split_go sep "" s.

(** [s[:n]] *)
Definition take (n : nat) (s : string) : string := String.substring 0 n s.

(** [a > b], the comparison of strings by code points. *)
Definition gt (a b : string) : bool := String.ltb b a.

End PyStr.

(** ** Passwords

    A password reaches [signup] and [login] as the [str] that [json.loads]
    made of the request body, and that can hold any code point, a lone
    surrogate too.  [password.encode()] tells such a string from the others,
    so a password is kept as the list of its code points, each a number
    below 0x110000. *)

Module PyText.

Definition text := list N.

(** The password that a string of the other kind spells. *)
Definition of_str (s : string) : text :=
  map PyStr.code (String.list_ascii_of_string s).

(** [len(s)] *)
Definition len (s : text) : nat := length s.

(** U+D800 to U+DFFF *)
Definition surrogate (c : N) : bool := ((55296 <=? c) && (c <=? 57343))%N.

Definition byte (n : N) : ascii := ascii_of_N n.

(** The UTF-8 bytes of one code point.  A surrogate has none, and a number
    from 0x110000 on is no code point. *)
Definition utf8 (c : N) : option (list ascii) :=
  if (c <? 128)%N then Some [byte c]
  else if (c <? 2048)%N then
    Some [byte (192 + c / 64); byte (128 + c mod 64)]
  else if surrogate c then None
  else if (c <? 65536)%N then
    Some [byte (224 + c / 4096); byte (128 + c / 64 mod 64);
          byte (128 + c mod 64)]
  else if (c <? 1114112)%N then
    Some [byte (240 + c / 262144); byte (128 + c / 4096 mod 64);
          byte (128 + c / 64 mod 64); byte (128 + c mod 64)]
  else None.

(** [s.encode()] from the index [i] on: the bytes, or the index of the
    first code point that UTF-8 cannot carry, where Python raises
    [UnicodeEncodeError]. *)
Fixpoint encode_from (i : nat) (s : text) : nat + string :=
  match s with
  | [] => inr ""
  | c :: s' =>
      match utf8 c with
      | None => inl i
      | Some bytes =>
          match encode_from (S i) s' with
          | inl j => inl j
          | inr rest => inr (String.string_of_list_ascii bytes +:+ rest)
          end
      end
  end.

Definition encode (s : text) : nat + string := encode_from 0 s.

End PyText.

(** ** Regular expressions, as far as [re.match] is used *)

Module Re.

Inductive regex :=
  | Void
  | Eps
  | Class (p : ascii → bool)
  | Seq (r1 r2 : regex)
  | Alt (r1 r2 : regex)
  | Star (r : regex).

Definition Plus (r : regex) : regex := Seq r (Star r).

Fixpoint nullable (r : regex) : bool :=
  match r with
  | Void => false
  | Eps => true
  | Class _ => false
  | Seq r1 r2 => nullable r1 && nullable r2
  | Alt r1 r2 => nullable r1 || nullable r2
  | Star _ => true
  end.

Definition seq (r1 r2 : regex) : regex :=
  match r1, r2 with
  | Void, _ => Void
  | _, Void => Void
  | Eps, _ => r2
  | _, _ => Seq r1 r2
  end.

Definition alt (r1 r2 : regex) : regex :=
  match r1, r2 with
  | Void, _ => r2
  | _, Void => r1
  | _, _ => Alt r1 r2
  end.

(** The derivative of [r] by the character [c]. *)
Fixpoint deriv (c : ascii) (r : regex) : regex :=
  match r with
  | Void => Void
  | Eps => Void
  | Class p => if p c then Eps else Void
  | Seq r1 r2 =>
      alt (seq (deriv c r1) r2) (if nullable r1 then deriv c r2 else Void)
  | Alt r1 r2 => alt (deriv c r1) (deriv c r2)
  | Star r1 => seq (deriv c r1) (Star r1)
  end.

Fixpoint fullmatch (r : regex) (s : string) : bool :=
  match s with
  | "" => nullable r
  | String c s' => fullmatch (deriv c r) s'
  end.

Definition newline (c : ascii) : bool := (PyStr.code c =? 10)%N.

(** [re.match('^' r '$', s)]: without [re.MULTILINE], [$] matches at the
    end of the string and also just before a newline that ends it. *)
Definition match_anchored (r : regex) (s : string) : bool :=
  fullmatch (Seq r (Alt Eps (Class newline))) s.

End Re.

(** ** Values, exceptions and the persisted state *)

(** A Python dict with string keys where the order of the entries is
    observed: iteration follows insertion, and assigning to a key that is
    present keeps its place. *)
Module ODict.

Definition t (A : Type) : Type := list (string * A).

(** [d.get(k)] *)
Fixpoint get {A} (d : t A) (k : string) : option A :=
  match d with
  | [] => None
  | (k', v) :: d' => if decide (k' = k) then Some v else get d' k
  end.

(** [d[k] = v] *)
Fixpoint set {A} (d : t A) (k : string) (v : A) : t A :=
  match d with
  | [] => [(k, v)]
  | (k', v') :: d' =>
      if decide (k' = k) then (k, v) :: d' else (k', v') :: set d' k v
  end.

End ODict.

(** JSON values as Python sees them after [json.loads]. *)
Inductive value :=
  | VNone
  | VBool (b : bool)
  | VNum (q : Q)
  | VStr (s : string)
  | VList (l : list value)
  | VDict (d : gmap string value).

(** A document of a collection: a dict with string keys. *)
Abbreviation record := (gmap string value).

(** The exceptions that the layer raises.  [UnicodeEncodeError] is a
    subclass of [ValueError]: an [except ValueError] catches it too.  It
    carries the string that could not be encoded and the index of the first
    code point at fault. *)
Inductive exn :=
  | ValueError (msg : string)
  | UnicodeEncodeError (object : PyText.text) (start : nat)
  | KeyError (key : string)
  | IndexError
  | TypeError
  | AttributeError
  | HTTPException (status : Z) (detail : string).

Inductive res (A : Type) :=
  | Ok (a : A)
  | Raise (e : exn).
Arguments Ok {A} a.
Arguments Raise {A} e.

(** An entry of [users.json].  [signup] writes every key but ["is_admin"];
    the two flags are read with [dict.get], so they may be absent. *)
Record account := {
  acc_id : string;
  acc_email : string;
  acc_full_name : string;
  acc_password_hash : string;
  acc_password_salt : string;
  acc_created_at : string;
  acc_is_new_account : option bool;
  acc_is_admin : option bool;
}.

(** The content of a file that exists. *)
Inductive file (A : Type) :=
  | Garbage
  | Json (a : A).
Arguments Garbage {A}.
Arguments Json {A} a.

(** The directory [data/] together with the in-process list [_demo_goals] of
    [routes/goals.py].  A collection file is named [<user_id>_<type>.json];
    such a name contains an underscore, so it is neither [users.json] nor
    [tokens.json], and the three kinds of files are kept in three fields. *)
Record world := {
  users_json : option (file (ODict.t account));
  tokens_json : option (file (gmap string string));
  data_json : gmap string (file (list record));
  demo_goals : list record;
}.

Definition set_users_json (f : option (file (ODict.t account))) (w : world) : world :=
  {| users_json := f; tokens_json := tokens_json w;
     data_json := data_json w; demo_goals := demo_goals w |}.

Definition set_tokens_json (f : option (file (gmap string string))) (w : world) : world :=
  {| users_json := users_json w; tokens_json := f;
     data_json := data_json w; demo_goals := demo_goals w |}.

Definition set_data_json (d : gmap string (file (list record))) (w : world) : world :=
  {| users_json := users_json w; tokens_json := tokens_json w;
     data_json := d; demo_goals := demo_goals w |}.

Definition set_demo_goals (g : list record) (w : world) : world :=
  {| users_json := users_json w; tokens_json := tokens_json w;
     data_json := data_json w; demo_goals := g |}.

(** The empty data directory of a fresh installation. *)
Definition empty_world : world :=
  {| users_json := None; tokens_json := None; data_json := ∅; demo_goals := [] |}.

(** ** Computations that read and write the state and may raise *)

Definition M (A : Type) : Type := world → res A * world.

Definition ret {A} (a : A) : M A := λ w, (Ok a, w).
Definition raise {A} (e : exn) : M A := λ w, (Raise e, w).
Definition bind {A B} (m : M A) (k : A → M B) : M B :=
  λ w, match m w with
       | (Ok a, w') => k a w'
       | (Raise e, w') => (Raise e, w')
       end.
Definition get_world : M world := λ w, (Ok w, w).
Definition put_world (w' : world) : M () := λ _, (Ok (), w').
(** A step that cannot raise. *)
Definition lift {A} (f : world → A * world) : M A :=
  λ w, let '(a, w') := f w in (Ok a, w').
(** A pure step that may raise. *)
Definition lift_res {A} (r : res A) : M A := λ w, (r, w).

Notation "x <- c1 ;; c2" := (bind c1 (λ x, c2))
  (at level 100, c1 at next level, right associativity).
Notation "c1 ;;; c2" := (bind c1 (λ _, c2))
  (at level 100, right associativity).

(** [d[key]] on a document. *)
Definition getitem (d : record) (key : string) : res value :=
  match d !! key with
  | Some v => Ok v
  | None => Raise (KeyError key)
  end.

(** A value used as a number: [bool] is a subclass of [int]. *)
Definition as_num (v : value) : option Q :=
  match v with
  | VNum q => Some q
  | VBool true => Some 1%Q
  | VBool false => Some 0%Q
  | _ => None
  end.

(** [v == s] for a string [s]: only an equal string is equal to it. *)
Definition eq_str (v : value) (s : string) : bool :=
  match v with
  | VStr s' => bool_decide (s' = s)
  | _ => false
  end.

(** ** [app/local_storage.py] *)

Module LocalStorage.

(** [_get_user_file]: the name of the file inside [DATA_DIR]. *)
Definition _get_user_file (user_id data_type : string) : string :=
  user_id +:+ "_" +:+ data_type +:+ ".json".

(** [_load_data]: a missing file and a file that does not parse both give
    the empty list; these are the two errors that the function catches,
    and the only ones that a file of [world] can cause. *)
Definition _load_data (user_id data_type : string) (w : world) : list record :=
  match data_json w !! _get_user_file user_id data_type with
  | None => []
  | Some Garbage => []
  | Some (Json data) => data
  end.

(** [_save_data]: the whole collection is written again. *)
Definition _save_data (user_id data_type : string) (data : list record)
    (w : world) : world :=
  set_data_json (<[_get_user_file user_id data_type := Json data]> (data_json w)) w.

(** The two assignments that [add_income], [add_incomes_bulk],
    [add_expense] and [add_expenses_bulk] make on a record: ["user_id"] is
    always set, ["created_at"] only when the key is absent. *)
Definition stamp (user_id now : string) (r : record) : record :=
  let r := <["user_id" := VStr user_id]> r in
  match r !! "created_at" with
  | Some _ => r
  | None => <["created_at" := VStr now]> r
  end.

(** [add_income] and [add_expense] are the same code up to the name of the
    collection; [add_to] is that code and [now] is what
    [datetime.now().isoformat()] returns when it is called.  The record
    that is returned is the caller's dict after the assignments. *)
Definition add_to (data_type : string) (now : string) (user_id : string)
    (r : record) (w : world) : record * world :=
  let items := _load_data user_id data_type w in
  let r := stamp user_id now r in
  let items := items ++ [r] in
  (r, _save_data user_id data_type items w).

(** [add_incomes_bulk] and [add_expenses_bulk]; [now i] is the time at the
    [i]-th record of the list, which are distinct dicts. *)
Definition add_bulk_to (data_type : string) (now : nat → string)
    (user_id : string) (new_items : list record) (w : world) : nat * world :=
  match new_items with
  | [] => (0, w)
  | _ =>
      let items := _load_data user_id data_type w in
      let new_items := imap (λ i r, stamp user_id (now i) r) new_items in
      let items := items ++ new_items in
      (length new_items, _save_data user_id data_type items w)
  end.

(** [i.get("id") != income_id] *)
Definition id_differs (rid : string) (r : record) : bool :=
  match r !! "id" with
  | Some v => negb (eq_str v rid)
  | None => true
  end.

(** [delete_income] and [delete_expense]. *)
Definition delete_from (data_type : string) (user_id rid : string)
    (w : world) : bool * world :=
  let items := _load_data user_id data_type w in
  let original_len := length items in
  let items := List.filter (id_differs rid) items in
  if decide (length items < original_len)
  then (true, _save_data user_id data_type items w)
  else (false, w).

Definition get_incomes (user_id : string) : world → list record :=
  _load_data user_id "incomes".
Definition add_income : string → string → record → world → record * world :=
  add_to "incomes".
Definition add_incomes_bulk : (nat → string) → string → list record → world → nat * world :=
  add_bulk_to "incomes".
Definition delete_income : string → string → world → bool * world :=
  delete_from "incomes".

Definition get_expenses (user_id : string) : world → list record :=
  _load_data user_id "expenses".
Definition add_expense : string → string → record → world → record * world :=
  add_to "expenses".
Definition add_expenses_bulk : (nat → string) → string → list record → world → nat * world :=
  add_bulk_to "expenses".
Definition delete_expense : string → string → world → bool * world :=
  delete_from "expenses".

Definition get_rules (user_id : string) : world → list record :=
  _load_data user_id "rules".
Definition save_rules (user_id : string) (rules : list record) : world → world :=
  _save_data user_id "rules" rules.

Definition get_goals (user_id : string) : world → list record :=
  _load_data user_id "goals".
Definition save_goals (user_id : string) (goals : list record) : world → world :=
  _save_data user_id "goals" goals.

(** [clear_user_data]: each of the four files is removed if it exists. *)
Definition clear_user_data (user_id : string) (w : world) : world :=
  foldl (λ w data_type,
           let file_path := _get_user_file user_id data_type in
           match data_json w !! file_path with
           | Some _ => set_data_json (delete file_path (data_json w)) w
           | None => w
           end)
        w ["incomes"; "expenses"; "rules"; "goals"].

End LocalStorage.

(** ** What the Python runtime provides *)

Class Runtime := {
  (** [hashlib.pbkdf2_hmac('sha256', b, salt.encode(), 100000).hex()] for
      the bytes [b] of the password and the salt *)
  pbkdf2_hmac_sha256_hex : string → string → string;
  (** [hash(s)] of a string, fixed for the life of the process *)
  py_hash : string → Z;
  (** [float(s)] of a string, [None] where it raises [ValueError] *)
  float_of_str : string → option Q;
  (** [round(x, 2)] *)
  round2 : Q → Q;
  (** [str(e)] of an exception *)
  exn_str : exn → string;
}.

(** ** The token registry of [app/auth.py] *)

Module TokenRegistry.

(** [_load_tokens] *)
Definition _load_tokens (w : world) : gmap string string :=
  match tokens_json w with
  | Some (Json tokens) => tokens
  | Some Garbage => ∅
  | None => ∅
  end.

(** [_save_tokens] *)
Definition _save_tokens (tokens : gmap string string) (w : world) : world :=
  set_tokens_json (Some (Json tokens)) w.

(** [register_local_token] *)
Definition register_local_token (token email : string) (w : world) : world :=
  let tokens := _load_tokens w in
  let tokens := <[token := email]> tokens in
  _save_tokens tokens w.

End TokenRegistry.

(** ** [app/local_auth.py] *)

Module LocalAuth.

Definition VALID_EMAIL_DOMAINS : list string := [
  "gmail.com"; "googlemail.com";
  "yahoo.com"; "yahoo.in"; "yahoo.co.in";
  "outlook.com"; "hotmail.com"; "live.com"; "msn.com";
  "icloud.com"; "me.com"; "mac.com";
  "protonmail.com"; "proton.me";
  "aol.com";
  "zoho.com"; "zohomail.in";
  "mail.com";
  "gmx.com"; "gmx.net";
  "yandex.com"; "yandex.ru";
  "rediffmail.com"; "rediff.com";
  "in.com";
  "edu"; "ac.in"; "edu.in"
].

(** [_ensure_data_dir]: an absent [users.json] is created as [{}]. *)
Definition _ensure_data_dir (w : world) : world :=
  match users_json w with
  | None => set_users_json (Some (Json [])) w
  | Some _ => w
  end.

(** [_load_users] *)
Definition _load_users (w : world) : ODict.t account * world :=
  let w := _ensure_data_dir w in
  match users_json w with
  | Some (Json users) => (users, w)
  | _ => ([], w)
  end.

(** [_save_users] *)
Definition _save_users (users : ODict.t account) (w : world) : world :=
  let w := _ensure_data_dir w in
  set_users_json (Some (Json users)) w.

(** [_hash_password]; [fresh_salt] is what [secrets.token_hex(16)] returns
    if it is called.  [password.encode()] raises on a password that UTF-8
    cannot carry. *)
Definition _hash_password `{Runtime} (fresh_salt : string)
    (password : PyText.text) (salt : option string) : res (string * string) :=
  let salt := match salt with None => fresh_salt | Some s => s end in
  match PyText.encode password with
  | inl start => Raise (UnicodeEncodeError password start)
  | inr bytes =>
      let hashed := pbkdf2_hmac_sha256_hex bytes salt in
      Ok (hashed, salt)
  end.

Definition alnum (c : ascii) : bool :=
  PyStr.between 97 122 c || PyStr.between 65 90 c || PyStr.between 48 57 c.
Definition alpha (c : ascii) : bool :=
  PyStr.between 97 122 c || PyStr.between 65 90 c.
Definition one_of (s : string) (c : ascii) : bool :=
  bool_decide (c ∈ String.list_ascii_of_string s).

(** [r'^[a-zA-Z0-9._%+-]+@[a-zA-Z0-9.-]+\.[a-zA-Z]{2,}$'] without its two
    anchors. *)
Definition email_pattern : Re.regex :=
  Re.Seq (Re.Plus (Re.Class (λ c, alnum c || one_of "._%+-" c)))
 (Re.Seq (Re.Class (one_of "@"))
 (Re.Seq (Re.Plus (Re.Class (λ c, alnum c || one_of ".-" c)))
 (Re.Seq (Re.Class (one_of "."))
 (Re.Seq (Re.Class alpha) (Re.Seq (Re.Class alpha) (Re.Star (Re.Class alpha))))))).

(** Every element of the list is a [str], the two written as raw strings
    too, so [isinstance(pattern, str)] holds for each and each is looked
    for as a substring of the domain. *)
Definition suspicious_patterns : list string := [
  "^[a-z]{10,}\.com$";
  "^[a-z]+[0-9]+[a-z]+\.com$";
  "temp"; "fake"; "test"; "example"; "random"; "asdf"
].

(** [validate_email] *)
Definition validate_email (email : string) : res (bool * string) :=
  let email := PyStr.strip (PyStr.lower email) in
  if negb (Re.match_anchored email_pattern email)
  then Ok (false, "Invalid email format")
  else
    match PyStr.split email "@"%char !! 1%nat with
    | None => Raise IndexError
    | Some domain =>
        let domain_valid := bool_decide (domain ∈ VALID_EMAIL_DOMAINS) in
        let domain_valid :=
          if existsb (λ valid_domain,
                PyStr.endswith domain ("." +:+ valid_domain)
                || bool_decide (domain = valid_domain)) VALID_EMAIL_DOMAINS
          then true else domain_valid in
        let domain_valid :=
          if existsb (λ pattern, PyStr.contains domain pattern) suspicious_patterns
          then false else domain_valid in
        if negb domain_valid
        then Ok (false, "Please use a valid email provider (gmail.com, yahoo.com, outlook.com, etc.)")
        else Ok (true, "")
    end.

(** The ["user"] entry of what [signup] and [login] return; [signup] does
    not include ["isAdmin"]. *)
Record user_info := {
  ui_id : string;
  ui_email : string;
  ui_full_name : string;
  ui_isNewAccount : bool;
  ui_isAdmin : option bool;
}.

Record session := {
  access_token : string;
  user : user_info;
  message : option string;
}.

(** What [signup] obtains from [secrets] and from the clock, in the order
    of the calls. *)
Record signup_draws := {
  draw_user_id : string;   (* _generate_user_id() *)
  draw_salt : string;      (* secrets.token_hex(16) in _hash_password *)
  draw_token : string;     (* _generate_token() *)
  draw_now : string;       (* datetime.utcnow().isoformat() *)
}.

(** [signup] *)
Definition signup `{Runtime} (d : signup_draws) (email : string)
    (password : PyText.text) (full_name : string) : M session :=
  let email := PyStr.strip (PyStr.lower email) in
  v <- lift_res (validate_email email) ;;
  let '(is_valid, error) := v in
  if negb is_valid then raise (ValueError error) else
  if decide (PyText.len password < 6)
  then raise (ValueError "Password must be at least 6 characters") else
  if bool_decide (full_name = "") || bool_decide (PyStr.len (PyStr.strip full_name) < 2)
  then raise (ValueError "Please enter your full name") else
  users <- lift _load_users ;;
  if decide (is_Some (ODict.get users email))
  then raise (ValueError "An account with this email already exists") else
  let user_id := draw_user_id d in
  hashed <- lift_res (_hash_password (draw_salt d) password None) ;;
  let '(hashed_password, salt) := hashed in
  let token := draw_token d in
  lift (λ w, ((), TokenRegistry.register_local_token token email w)) ;;;
  let users := ODict.set users email {|
    acc_id := user_id;
    acc_email := email;
    acc_full_name := PyStr.strip full_name;
    acc_password_hash := hashed_password;
    acc_password_salt := salt;
    acc_created_at := draw_now d;
    acc_is_new_account := Some true;
    acc_is_admin := None |} in
  lift (λ w, ((), _save_users users w)) ;;;
  ret {| access_token := token;
         user := {| ui_id := user_id;
                    ui_email := email;
                    ui_full_name := PyStr.strip full_name;
                    ui_isNewAccount := true;
                    ui_isAdmin := None |};
         message := Some "Account created successfully" |}.

(** [login]; [fresh_token] is what [_generate_token()] returns if it is
    called. *)
Definition login `{Runtime} (fresh_token : string) (email : string)
    (password : PyText.text) : M session :=
  let email := PyStr.strip (PyStr.lower email) in
  users <- lift _load_users ;;
  match ODict.get users email with
  | None => raise (ValueError "Invalid email or password")
  | Some user =>
      hashed <- lift_res (_hash_password "" password
                            (Some (acc_password_salt user))) ;;
      let '(hashed_password, _) := hashed in
      if negb (bool_decide (hashed_password = acc_password_hash user))
      then raise (ValueError "Invalid email or password") else
      let token := fresh_token in
      lift (λ w, ((), TokenRegistry.register_local_token token email w)) ;;;
      let is_new := default false (acc_is_new_account user) in
      let is_admin := default false (acc_is_admin user) in
      ret {| access_token := token;
             user := {| ui_id := acc_id user;
                        ui_email := acc_email user;
                        ui_full_name := acc_full_name user;
                        ui_isNewAccount := is_new;
                        ui_isAdmin := Some is_admin |};
             message := None |}
  end.

Definition set_is_new_account (b : bool) (a : account) : account :=
  {| acc_id := acc_id a; acc_email := acc_email a;
     acc_full_name := acc_full_name a;
     acc_password_hash := acc_password_hash a;
     acc_password_salt := acc_password_salt a;
     acc_created_at := acc_created_at a;
     acc_is_new_account := Some b; acc_is_admin := acc_is_admin a |}.

Definition set_is_admin (b : bool) (a : account) : account :=
  {| acc_id := acc_id a; acc_email := acc_email a;
     acc_full_name := acc_full_name a;
     acc_password_hash := acc_password_hash a;
     acc_password_salt := acc_password_salt a;
     acc_created_at := acc_created_at a;
     acc_is_new_account := acc_is_new_account a; acc_is_admin := Some b |}.

(** [mark_account_active] *)
Definition mark_account_active (email : string) (w : world) : world :=
  let email := PyStr.strip (PyStr.lower email) in
  let '(users, w) := _load_users w in
  match ODict.get users email with
  | Some a => _save_users (ODict.set users email (set_is_new_account false a)) w
  | None => w
  end.

(** [get_user_by_email] *)
Definition get_user_by_email (email : string) (w : world)
    : option user_info * world :=
  let email := PyStr.strip (PyStr.lower email) in
  let '(users, w) := _load_users w in
  match ODict.get users email with
  | Some user =>
      (Some {| ui_id := acc_id user;
               ui_email := acc_email user;
               ui_full_name := acc_full_name user;
               ui_isNewAccount := default false (acc_is_new_account user);
               ui_isAdmin := None |}, w)
  | None => (None, w)
  end.

(** [ensure_admin_user]; the three arguments are the draws of the branch
    that creates the account. *)
Definition ensure_admin_user `{Runtime} (fresh_id fresh_salt now : string)
    (w : world) : res (option account) * world :=
  let w := _ensure_data_dir w in
  let '(users, w) := _load_users w in
  let admin_email := "admin@incomiq.com" in
  let admin_password := "123456789" in
  match ODict.get users admin_email with
  | None =>
      let user_id := fresh_id in
      match _hash_password fresh_salt (PyText.of_str admin_password) None with
      | Raise e => (Raise e, w)
      | Ok (hashed_password, salt) =>
          let users := ODict.set users admin_email {|
            acc_id := user_id;
            acc_email := admin_email;
            acc_full_name := "Admin User";
            acc_password_hash := hashed_password;
            acc_password_salt := salt;
            acc_created_at := now;
            acc_is_new_account := Some false;
            acc_is_admin := Some true |} in
          (Ok (ODict.get users admin_email), _save_users users w)
      end
  | Some a =>
      if negb (default false (acc_is_admin a))
      then
        let users := ODict.set users admin_email (set_is_admin true a) in
        (Ok (ODict.get users admin_email), _save_users users w)
      else (Ok (ODict.get users admin_email), w)
  end.

End LocalAuth.

(** ** [app/auth.py]: the resolver *)

Module Auth.

(** The dict that [get_current_user] returns.  [DEMO_USER] has neither
    ["is_new_account"] nor ["is_admin"]. *)
Record identity := {
  id : string;
  email : string;
  full_name : string;
  is_demo : bool;
  is_new_account : option bool;
  is_admin : option bool;
}.

Definition DEMO_USER : identity := {|
  id := "demo-user-001";
  email := "rahul@demo.com";
  full_name := "Rahul Kumar";
  is_demo := true;
  is_new_account := None;
  is_admin := None |}.

(** [get_current_user] with [USE_LOCAL_AUTH] true.  [credentials] is
    [None] when the request carries no bearer credential.  [if email:]
    and [if user_data:] test truthiness: an empty string is false, and an
    account, a dict that is not empty, is true. *)
Definition get_current_user (credentials : option string) : M identity :=
  match credentials with
  | None => raise (HTTPException 401 "Not authenticated")
  | Some token =>
      if bool_decide (token = "demo-token") then ret DEMO_USER else
      if decide (20 < PyStr.len token) then
        tokens <- lift (λ w, (TokenRegistry._load_tokens w, w)) ;;
        match tokens !! token with
        | Some email =>
            if bool_decide (email = "")
            then raise (HTTPException 401 "Invalid or expired token")
            else
              users <- lift LocalAuth._load_users ;;
              match ODict.get users email with
              | Some user_data =>
                  ret {| id := acc_id user_data;
                         email := email;
                         full_name := acc_full_name user_data;
                         is_demo := false;
                         is_new_account :=
                           Some (default false (acc_is_new_account user_data));
                         is_admin :=
                           Some (default false (acc_is_admin user_data)) |}
              | None => raise (HTTPException 401 "Invalid or expired token")
              end
        | None => raise (HTTPException 401 "Invalid or expired token")
        end
      else raise (HTTPException 401 "Invalid token format")
  end.

End Auth.

(** ** [app/models.py]: the request bodies that are used *)

Module Models.

Inductive IncomeCategory :=
  | freelance | delivery | content | rideshare | tutoring | ecommerce | other.

Definition IncomeCategory_value (c : IncomeCategory) : string :=
  match c with
  | freelance => "freelance"
  | delivery => "delivery"
  | content => "content"
  | rideshare => "rideshare"
  | tutoring => "tutoring"
  | ecommerce => "ecommerce"
  | other => "other"
  end.

Record IncomeCreate := {
  ic_amount : Q;
  ic_source_name : string;
  ic_category : IncomeCategory;
  ic_date : string;
  ic_description : option string;
}.

(** [body.model_dump(mode="json")] *)
Definition IncomeCreate_dump (body : IncomeCreate) : record :=
  <["amount" := VNum (ic_amount body)]>
  (<["source_name" := VStr (ic_source_name body)]>
  (<["category" := VStr (IncomeCategory_value (ic_category body))]>
  (<["date" := VStr (ic_date body)]>
  (<["description" := from_option VStr VNone (ic_description body)]> ∅)))).

Record GoalCreate := {
  gc_name : string;
  gc_target_amount : Q;
  gc_target_date : string;
  gc_icon : string;
  gc_monthly_contribution : Q;
}.

Record AddMoneyRequest := {
  amount : Q;
}.

(** [amount: float = Field(gt=0)]: a request that violates it does not
    reach the handler. *)
Definition AddMoneyRequest_valid (body : AddMoneyRequest) : Prop :=
  (0 < amount body)%Q.

Inductive ExpenseCategory :=
  | rent | food | transport | utilities | entertainment | healthcare
  | education | shopping | bills | other_expense.

Definition ExpenseCategory_value (c : ExpenseCategory) : string :=
  match c with
  | rent => "rent"
  | food => "food"
  | transport => "transport"
  | utilities => "utilities"
  | entertainment => "entertainment"
  | healthcare => "healthcare"
  | education => "education"
  | shopping => "shopping"
  | bills => "bills"
  | other_expense => "other"
  end.

(** [[c.value for c in IncomeCategory]] and
    [[c.value for c in ExpenseCategory]] *)
Definition IncomeCategory_values : list string :=
  map IncomeCategory_value
    [freelance; delivery; content; rideshare; tutoring; ecommerce; other].
Definition ExpenseCategory_values : list string :=
  map ExpenseCategory_value
    [rent; food; transport; utilities; entertainment; healthcare;
     education; shopping; bills; other_expense].

Record RuleConditionModel := {
  rc_field : string;
  rc_operator : string;
  rc_value : Q;
}.

Record RuleActionModel := {
  ra_type : string;
  ra_value : Q;
  ra_destination : string;
}.

Record RuleSafetyModel := {
  rs_min_balance : Q;
  rs_min_income : Q;
}.

Record SavingsRuleCreate := {
  sr_name : string;
  sr_condition : RuleConditionModel;
  sr_action : RuleActionModel;
  sr_safety : RuleSafetyModel;
}.

(** [model_dump(mode="json")] of the three parts of a rule. *)
Definition RuleConditionModel_dump (c : RuleConditionModel) : record :=
  <["field" := VStr (rc_field c)]>
  (<["operator" := VStr (rc_operator c)]>
  (<["value" := VNum (rc_value c)]> ∅)).
Definition RuleActionModel_dump (a : RuleActionModel) : record :=
  <["type" := VStr (ra_type a)]>
  (<["value" := VNum (ra_value a)]>
  (<["destination" := VStr (ra_destination a)]> ∅)).
Definition RuleSafetyModel_dump (s : RuleSafetyModel) : record :=
  <["min_balance" := VNum (rs_min_balance s)]>
  (<["min_income" := VNum (rs_min_income s)]> ∅).

End Models.

(** ** [app/routes/incomes.py] *)

Module Incomes.

(** [create_income]; [uuid] is [str(uuid4())], [now] is
    [datetime.now().isoformat()].  [add_income] assigns to the dict
    [record], which is then returned. *)
Definition create_income (uuid now : string) (body : Models.IncomeCreate)
    (user : Auth.identity) : M record :=
  let record : record :=
    <["created_at" := VStr now]>
    (<["date" := VStr (Models.ic_date body)]>
    (Models.IncomeCreate_dump body ∪
     <["id" := VStr uuid]> (<["user_id" := VStr (Auth.id user)]> ∅))) in
  record <- lift (LocalStorage.add_income now (Auth.id user) record) ;;
  ret record.

(** [delete_income] of the route. *)
Definition delete_income (income_id : string) (user : Auth.identity) : M () :=
  deleted <- lift (LocalStorage.delete_income (Auth.id user) income_id) ;;
  if negb deleted then raise (HTTPException 404 "Income not found")
  else ret ().

End Incomes.

(** ** [app/routes/goals.py], with [_USE_LOCAL] true *)

Module Goals.

(** [min(a, b)] on two numbers is [b] when [b < a] and [a] otherwise. *)
Definition py_min_is_second (a b : Q) : bool :=
  if Qlt_le_dec b a then true else false.

(** [g["current_amount"] = min(g["current_amount"] + body.amount,
    g["target_amount"])] *)
Definition contribute (amount : Q) (g : record) : res record :=
  match getitem g "current_amount" with
  | Raise e => Raise e
  | Ok cur =>
      match as_num cur with
      | None => Raise TypeError
      | Some cur =>
          let sum := (cur + amount)%Q in
          match getitem g "target_amount" with
          | Raise e => Raise e
          | Ok target =>
              match as_num target with
              | None => Raise TypeError
              | Some t =>
                  let new := if py_min_is_second sum t then target else VNum sum in
                  Ok (<["current_amount" := new]> g)
              end
          end
      end
  end.

(** The loop [for g in goals: if test(g): update g in place; return g].
    The result is the goal that was updated and the list after the
    update, or [None] when the loop ends without a match. *)
Fixpoint update_first (test : record → res bool) (upd : record → res record)
    (goals : list record) : res (option (record * list record)) :=
  match goals with
  | [] => Ok None
  | g :: rest =>
      match test g with
      | Raise e => Raise e
      | Ok true =>
          match upd g with
          | Raise e => Raise e
          | Ok g' => Ok (Some (g', g' :: rest))
          end
      | Ok false =>
          match update_first test upd rest with
          | Raise e => Raise e
          | Ok None => Ok None
          | Ok (Some (g', rest')) => Ok (Some (g', g :: rest'))
          end
      end
  end.

(** [g["id"] == goal_id] *)
Definition id_is (goal_id : string) (g : record) : res bool :=
  match getitem g "id" with
  | Raise e => Raise e
  | Ok v => Ok (eq_str v goal_id)
  end.

(** [g["id"] == goal_id and g["user_id"] == user["id"]] *)
Definition id_and_owner_are (goal_id user_id : string) (g : record) : res bool :=
  match id_is goal_id g with
  | Raise e => Raise e
  | Ok false => Ok false
  | Ok true =>
      match getitem g "user_id" with
      | Raise e => Raise e
      | Ok v => Ok (eq_str v user_id)
      end
  end.

Definition seeds : list (string * Q * string * string * Q * Q) := [
  ("Emergency Fund", 100000, "2025-12-31", "shield", 45000, 8000);
  ("New Laptop", 75000, "2025-09-30", "laptop", 32000, 10000);
  ("Goa Vacation", 50000, "2025-08-15", "palmtree", 18000, 6000)
]%Q.

(** [_seed_demo_goals]; [uuid i] and [now i] are the draws for the
    [i]-th seed. *)
Definition _seed_demo_goals (uuid now : nat → string) (w : world) : world :=
  match demo_goals w with
  | _ :: _ => w
  | [] =>
      set_demo_goals
        (imap (λ i '(name, target, td, icon, current, contrib),
           <["id" := VStr (uuid i)]>
           (<["user_id" := VStr "demo-user-001"]>
           (<["name" := VStr name]>
           (<["target_amount" := VNum target]>
           (<["current_amount" := VNum current]>
           (<["target_date" := VStr td]>
           (<["icon" := VStr icon]>
           (<["monthly_contribution" := VNum contrib]>
           (<["created_at" := VStr (now i)]> (∅ : record)))))))))) seeds) w
  end.

(** [create_goal]; [uuid] and [now] are the draws for the record,
    [seed_uuid] and [seed_now] those of [_seed_demo_goals]. *)
Definition create_goal (uuid now : string) (seed_uuid seed_now : nat → string)
    (body : Models.GoalCreate) (user : Auth.identity) : M record :=
  let record : record :=
    <["id" := VStr uuid]>
    (<["user_id" := VStr (Auth.id user)]>
    (<["name" := VStr (Models.gc_name body)]>
    (<["target_amount" := VNum (Models.gc_target_amount body)]>
    (<["current_amount" := VNum 0]>
    (<["target_date" := VStr (Models.gc_target_date body)]>
    (<["icon" := VStr (Models.gc_icon body)]>
    (<["monthly_contribution" := VNum (Models.gc_monthly_contribution body)]>
    (<["created_at" := VStr now]> ∅)))))))) in
  if Auth.is_demo user then
    lift (λ w, ((), _seed_demo_goals seed_uuid seed_now w)) ;;;
    lift (λ w, ((), set_demo_goals (demo_goals w ++ [record]) w)) ;;;
    ret record
  else
    goals <- lift (λ w, (LocalStorage.get_goals (Auth.id user) w, w)) ;;
    let goals := goals ++ [record] in
    lift (λ w, ((), LocalStorage.save_goals (Auth.id user) goals w)) ;;;
    ret record.

(** [add_money] *)
Definition add_money (uuid now : nat → string) (goal_id : string)
    (body : Models.AddMoneyRequest) (user : Auth.identity) : M record :=
  if Auth.is_demo user then
    lift (λ w, ((), _seed_demo_goals uuid now w)) ;;;
    w <- get_world ;;
    r <- lift_res (update_first (id_and_owner_are goal_id (Auth.id user))
                     (contribute (Models.amount body)) (demo_goals w)) ;;
    match r with
    | Some (g, goals) =>
        lift (λ w, ((), set_demo_goals goals w)) ;;;
        ret g
    | None => raise (HTTPException 404 "Goal not found")
    end
  else
    goals <- lift (λ w, (LocalStorage.get_goals (Auth.id user) w, w)) ;;
    r <- lift_res (update_first (id_is goal_id)
                     (contribute (Models.amount body)) goals) ;;
    match r with
    | Some (g, goals) =>
        lift (λ w, ((), LocalStorage.save_goals (Auth.id user) goals w)) ;;;
        ret g
    | None => raise (HTTPException 404 "Goal not found")
    end.

End Goals.

(** ** [app/routes/admin.py], with [_USE_LOCAL] true *)

Module Admin.

Definition ADMIN_EMAILS : list string := ["admin@incomiq.com"; "rahul@demo.com"].

(** [get_admin_user] *)
Definition get_admin_user (user : Auth.identity) : res Auth.identity :=
  let is_admin :=
    default false (Auth.is_admin user) || Auth.is_demo user
    || bool_decide (Auth.email user ∈ ADMIN_EMAILS) in
  if negb is_admin then Raise (HTTPException 403 "Admin access required")
  else Ok user.

Definition digit (n : Z) : ascii := ascii_of_N (48 + Z.to_N n).

(** [f"USER_{hash(user_id) % 10000:04d}"] *)
Definition anonymize_user_id `{Runtime} (user_id : string) : string :=
  let n := (py_hash user_id mod 10000)%Z in
  "USER_" +:+
  String (digit (n / 1000)) (String (digit (n / 100 mod 10))
    (String (digit (n / 10 mod 10)) (String (digit (n mod 10)) ""))).

(** A row of [get_all_users_data]. *)
Record user_row := {
  row_id : string;
  row_email : string;
  row_created_at : string;
}.

(** [get_all_users_data]: the accounts in the order of [users.json]. *)
Definition get_all_users_data (w : world) : list user_row * world :=
  let '(users_dict, w) := LocalAuth._load_users w in
  (map (λ '(email, user_data),
     {| row_id := acc_id user_data;
        row_email := email;
        row_created_at := acc_created_at user_data |}) users_dict, w).

Definition get_user_incomes (user_id : string) (w : world) : list record :=
  LocalStorage.get_incomes user_id w.
Definition get_user_expenses (user_id : string) (w : world) : list record :=
  LocalStorage.get_expenses user_id w.
Definition get_user_rules (user_id : string) (w : world) : list record :=
  LocalStorage.get_rules user_id w.

(** [float(v)] *)
Definition py_float `{Runtime} (v : value) : res Q :=
  match v with
  | VNum q => Ok q
  | VBool true => Ok 1%Q
  | VBool false => Ok 0%Q
  | VStr s =>
      match float_of_str s with
      | Some q => Ok q
      | None => Raise (ValueError ("could not convert string to float: '" +:+ s +:+ "'"))
      end
  | VNone | VList _ | VDict _ => Raise TypeError
  end.

(** [v > s] for a string [s]: defined between strings only. *)
Definition gt_str (v : value) (s : string) : res bool :=
  match v with
  | VStr a => Ok (PyStr.gt a s)
  | _ => Raise TypeError
  end.

(** [v[:n]] *)
Definition slice_to (n : nat) (v : value) : res value :=
  match v with
  | VStr s => Ok (VStr (PyStr.take n s))
  | VList l => Ok (VList (take n l))
  | _ => Raise TypeError
  end.

(** [sum(float(r.get("amount", 0)) for r in items)] *)
Fixpoint sum_amounts `{Runtime} (items : list record) : res Q :=
  match items with
  | [] => Ok 0%Q
  | r :: rest =>
      match py_float (default (VNum 0) (r !! "amount")) with
      | Raise e => Raise e
      | Ok a =>
          match sum_amounts rest with
          | Raise e => Raise e
          | Ok s => Ok (a + s)%Q
          end
      end
  end.

(** [any(test(r) for r in items)]: stops at the first true. *)
Fixpoint any_res (test : record → res bool) (items : list record) : res bool :=
  match items with
  | [] => Ok false
  | r :: rest =>
      match test r with
      | Raise e => Raise e
      | Ok true => Ok true
      | Ok false => any_res test rest
      end
  end.

(** [[r for r in items if test(r)]] *)
Fixpoint filter_res (test : record → res bool) (items : list record)
    : res (list record) :=
  match items with
  | [] => Ok []
  | r :: rest =>
      match test r with
      | Raise e => Raise e
      | Ok b =>
          match filter_res test rest with
          | Raise e => Raise e
          | Ok l => Ok (if b then r :: l else l)
          end
      end
  end.

(** A loop [for x in xs: acc = f(i, acc, x)] whose body may raise; [i] is
    the number of the iteration. *)
Fixpoint fold_res {A B} (f : nat → A → B → res A) (i : nat) (acc : A)
    (xs : list B) : res A :=
  match xs with
  | [] => Ok acc
  | x :: rest =>
      match f i acc x with
      | Raise e => Raise e
      | Ok acc' => fold_res f (S i) acc' rest
      end
  end.

Definition hashable (v : value) : bool :=
  match v with
  | VList _ | VDict _ => false
  | _ => true
  end.

(** Equality of two hashable values as dict keys. *)
Definition key_eqb (a b : value) : bool :=
  match a, b with
  | VNone, VNone => true
  | VStr x, VStr y => bool_decide (x = y)
  | (VNum _ | VBool _), (VNum _ | VBool _) =>
      match as_num a, as_num b with
      | Some p, Some q => Qeq_bool p q
      | _, _ => false
      end
  | _, _ => false
  end.

(** [counts[key] += 1] on a [defaultdict(int)]. *)
Fixpoint bump (counts : list (value * nat)) (key : value) : list (value * nat) :=
  match counts with
  | [] => [(key, 1)]
  | (k, n) :: rest =>
      if key_eqb k key then (k, S n) :: rest else (k, n) :: bump rest key
  end.

(** [totals[key] += amount] on a [defaultdict(float)] whose keys are
    strings, kept in the order of [sorted(totals.items())]. *)
Fixpoint add_sorted (totals : list (string * Q)) (key : string) (amount : Q)
    : list (string * Q) :=
  match totals with
  | [] => [(key, (0 + amount)%Q)]
  | (k, a) :: rest =>
      if bool_decide (k = key) then (k, (a + amount)%Q) :: rest
      else if String.ltb key k then (key, (0 + amount)%Q) :: totals
      else (k, a) :: add_sorted rest key amount
  end.

Record low_income_alert := {
  lia_user_id : string;
  lia_avg_monthly_income : Q;
  lia_period : string;
  lia_severity : string;
}.

Record large_transaction := {
  lt_user_id : string;
  lt_amount : Q;
  lt_category : value;
  lt_date : value;
  lt_description : value;
}.

(** The variables that the loop over the accounts updates. *)
Record totals := {
  total_income : Q;
  total_expenses : Q;
  active_users_30d : nat;
  low_income_alerts : list low_income_alert;
  large_transactions : list large_transaction;
  rule_usage : list (value * nat);
}.

Definition totals0 : totals := {|
  total_income := 0; total_expenses := 0; active_users_30d := 0;
  low_income_alerts := []; large_transactions := []; rule_usage := [] |}.

(** The times that [get_admin_dashboard] reads from the clock:
    [thirty_days_ago] once, [ninety_days_ago] in each iteration of the
    loop over the accounts, [timestamp] at the end. *)
Record clock := {
  thirty_days_ago : string;
  ninety_days_ago : nat → string;
  timestamp : string;
}.

(** [inc.get("created_at", "") > ninety_days_ago or
     inc.get("date", "") > ninety_days_ago[:10]] *)
Definition is_recent (ninety : string) (inc : record) : res bool :=
  match gt_str (default (VStr "") (inc !! "created_at")) ninety with
  | Raise e => Raise e
  | Ok true => Ok true
  | Ok false => gt_str (default (VStr "") (inc !! "date")) (PyStr.take 10 ninety)
  end.

(** The [for exp in expenses] loop that collects the large transactions. *)
Fixpoint scan_large `{Runtime} (anon_id : string) (expenses : list record)
    (found : list large_transaction) : res (list large_transaction) :=
  match expenses with
  | [] => Ok found
  | exp :: rest =>
      match py_float (default (VNum 0) (exp !! "amount")) with
      | Raise e => Raise e
      | Ok amount =>
          if Qlt_le_dec 50000 amount then
            match slice_to 50 (default (VStr "") (exp !! "description")) with
            | Raise e => Raise e
            | Ok description =>
                scan_large anon_id rest
                  (found ++ [{| lt_user_id := anon_id;
                                lt_amount := amount;
                                lt_category := default (VStr "unknown") (exp !! "category");
                                lt_date := default (VStr "unknown") (exp !! "date");
                                lt_description := description |}])
            end
          else scan_large anon_id rest found
      end
  end.

(** [rule.get("condition", {}).get("field", "unknown")] *)
Definition rule_type (rule : record) : res value :=
  match default (VDict ∅) (rule !! "condition") with
  | VDict condition => Ok (default (VStr "unknown") (condition !! "field"))
  | _ => Raise AttributeError
  end.

(** The [for rule in rules] loop. *)
Fixpoint scan_rules (rules : list record) (usage : list (value * nat))
    : res (list (value * nat)) :=
  match rules with
  | [] => Ok usage
  | rule :: rest =>
      match rule_type rule with
      | Raise e => Raise e
      | Ok ty =>
          if hashable ty then scan_rules rest (bump usage ty)
          else Raise TypeError
      end
  end.

(** The body of [for user in users] in [get_admin_dashboard], on the
    three collections of the account. *)
Definition dashboard_account `{Runtime} (clk : clock) (i : nat) (acc : totals)
    (user_id : string) (incomes expenses rules : list record) : res totals :=
  let anon_id := anonymize_user_id user_id in
  match sum_amounts incomes with Raise e => Raise e | Ok user_income_total =>
  match sum_amounts expenses with Raise e => Raise e | Ok user_expense_total =>
  let total_income := (total_income acc + user_income_total)%Q in
  let total_expenses := (total_expenses acc + user_expense_total)%Q in
  let recent (r : record) :=
    gt_str (default (VStr "") (r !! "created_at")) (thirty_days_ago clk) in
  match
    match any_res recent incomes with
    | Raise e => Raise e
    | Ok true => Ok true
    | Ok false => any_res recent expenses
    end
  with Raise e => Raise e | Ok recent_activity =>
  let active_users_30d :=
    if recent_activity then S (active_users_30d acc) else active_users_30d acc in
  let ninety := ninety_days_ago clk i in
  match filter_res (is_recent ninety) incomes with
  | Raise e => Raise e | Ok recent_incomes =>
  match
    match recent_incomes with
    | [] => Ok (low_income_alerts acc)
    | _ =>
        match sum_amounts recent_incomes with
        | Raise e => Raise e
        | Ok s =>
            let avg_monthly_income := (s / 3)%Q in
            if Qlt_le_dec avg_monthly_income 15000 then
              Ok (low_income_alerts acc ++
                  [{| lia_user_id := anon_id;
                      lia_avg_monthly_income := round2 avg_monthly_income;
                      lia_period := "Last 3 months";
                      lia_severity :=
                        if Qlt_le_dec avg_monthly_income 10000
                        then "high" else "medium" |}])
            else Ok (low_income_alerts acc)
        end
    end
  with Raise e => Raise e | Ok low_income_alerts =>
  match scan_large anon_id expenses (large_transactions acc) with
  | Raise e => Raise e | Ok large_transactions =>
  match scan_rules rules (rule_usage acc) with
  | Raise e => Raise e | Ok rule_usage =>
  Ok {| total_income := total_income;
        total_expenses := total_expenses;
        active_users_30d := active_users_30d;
        low_income_alerts := low_income_alerts;
        large_transactions := large_transactions;
        rule_usage := rule_usage |}
  end end end end end end end.

(** One iteration of [for user in users]: the three reads, then the
    body. *)
Definition dashboard_user `{Runtime} (clk : clock) (w : world) (i : nat)
    (acc : totals) (user : user_row) : res totals :=
  let user_id := row_id user in
  let incomes := get_user_incomes user_id w in
  let expenses := get_user_expenses user_id w in
  let rules := get_user_rules user_id w in
  dashboard_account clk i acc user_id incomes expenses rules.

(** The inner loop of the income trends: the month of each income, taken
    from ["date"], else from ["created_at"], else empty. *)
Fixpoint monthly `{Runtime} (incomes : list record) (monthly_income : list (string * Q))
    : res (list (string * Q)) :=
  match incomes with
  | [] => Ok monthly_income
  | inc :: rest =>
      match slice_to 7 (default (default (VStr "") (inc !! "created_at")) (inc !! "date")) with
      | Raise e => Raise e
      | Ok date_str =>
          match py_float (default (VNum 0) (inc !! "amount")) with
          | Raise e => Raise e
          | Ok amount =>
              match date_str with
              | VStr date_str => monthly rest (add_sorted monthly_income date_str amount)
              | _ => Raise TypeError   (* a slice of a list is not hashable *)
              end
          end
      end
  end.

Record income_trend := {
  it_user_id : string;
  it_monthly_data : list (string * Q);
}.

(** One iteration of [for user in users[:10]]. *)
Definition trend_user `{Runtime} (w : world) (_ : nat)
    (income_trends : list income_trend) (user : user_row)
    : res (list income_trend) :=
  let user_id := row_id user in
  let incomes := get_user_incomes user_id w in
  match monthly incomes [] with
  | Raise e => Raise e
  | Ok [] => Ok income_trends
  | Ok monthly_income =>
      Ok (income_trends ++
          [{| it_user_id := anonymize_user_id user_id;
              it_monthly_data := drop (length monthly_income - 6) monthly_income |}])
  end.

Record summary := {
  s_total_users : nat;
  s_active_users_30d : nat;
  s_total_income : Q;
  s_total_expenses : Q;
  s_total_savings : Q;
}.

Record dashboard := {
  d_summary : summary;
  d_income_trends : list income_trend;
  d_low_income_alerts : list low_income_alert;
  d_large_transactions : list large_transaction;
  d_rule_usage : list (value * nat);
  d_timestamp : string;
}.

(** What is inside the [try] of [get_admin_dashboard], after the accounts
    have been listed; it only reads the collections. *)
Definition dashboard_of `{Runtime} (clk : clock) (users : list user_row)
    (w : world) : res dashboard :=
  match fold_res (dashboard_user clk w) 0 totals0 users with
  | Raise e => Raise e
  | Ok t =>
      match fold_res (trend_user w) 0 [] (take 10 users) with
      | Raise e => Raise e
      | Ok income_trends =>
          Ok {| d_summary := {|
                  s_total_users := length users;
                  s_active_users_30d := active_users_30d t;
                  s_total_income := round2 (total_income t);
                  s_total_expenses := round2 (total_expenses t);
                  s_total_savings := round2 (total_income t - total_expenses t) |};
                d_income_trends := income_trends;
                d_low_income_alerts := take 10 (low_income_alerts t);
                d_large_transactions := take 20 (large_transactions t);
                d_rule_usage := rule_usage t;
                d_timestamp := timestamp clk |}
      end
  end.

(** [get_admin_dashboard], behind its dependency [get_admin_user]: any
    exception of the body becomes the response 500. *)
Definition get_admin_dashboard `{Runtime} (clk : clock) (user : Auth.identity)
    : M dashboard :=
  _ <- lift_res (get_admin_user user) ;;
  users <- lift get_all_users_data ;;
  w <- get_world ;;
  match dashboard_of clk users w with
  | Ok d => ret d
  | Raise e => raise (HTTPException 500 ("Dashboard error: " +:+ exn_str e))
  end.

End Admin.

(** ** [app/routes/auth.py], with [USE_LOCAL_AUTH] true *)

Module AuthRoutes.

(** [except ValueError as e: raise HTTPException(status_code, str(e))]:
    the handler catches [ValueError] and its subclass
    [UnicodeEncodeError]; [str(e)] of a [ValueError] made from a message
    is the message.  Any other exception passes through. *)
Definition value_error_to (status : Z) `{Runtime} {A} (result : res A * world)
    : res A * world :=
  match result with
  | (Raise (ValueError msg), w') => (Raise (HTTPException status msg), w')
  | (Raise (UnicodeEncodeError object start), w') =>
      (Raise (HTTPException status
                (exn_str (UnicodeEncodeError object start))), w')
  | result => result
  end.

(** [login]: a [ValueError] of the local login becomes the response
    401. *)
Definition login `{Runtime} (fresh_token : string) (email : string)
    (password : PyText.text) : M LocalAuth.session :=
  λ w, value_error_to 401 (LocalAuth.login fresh_token email password w).

(** [signup]: a [ValueError] of the local signup becomes the response
    400. *)
Definition signup `{Runtime} (d : LocalAuth.signup_draws) (email : string)
    (password : PyText.text) (full_name : string) : M LocalAuth.session :=
  λ w, value_error_to 400 (LocalAuth.signup d email password full_name w).

Record demo_session := {
  demo_access_token : string;
  demo_user : Auth.identity;
}.

(** [demo_login] *)
Definition demo_login : demo_session :=
  {| demo_access_token := "demo-token"; demo_user := Auth.DEMO_USER |}.

End AuthRoutes.

(** ** [app/routes/rules.py] *)

Module Rules.

(** [bool(v)], the truth value of a JSON value. *)
Definition truthy (v : value) : bool :=
  match v with
  | VNone => false
  | VBool b => b
  | VNum q => negb (Qeq_bool q 0)
  | VStr s => negb (bool_decide (s = ""))
  | VList l => match l with [] => false | _ => true end
  | VDict d => match map_to_list d with [] => false | _ => true end
  end.

(** [create_rule]; [body.safety] is a model instance, which is true, so
    its dump is stored. *)
Definition create_rule (uuid now : string) (body : Models.SavingsRuleCreate)
    (user : Auth.identity) : M record :=
  let record : record :=
    <["id" := VStr uuid]>
    (<["user_id" := VStr (Auth.id user)]>
    (<["name" := VStr (Models.sr_name body)]>
    (<["conditions" :=
         VList [VDict (Models.RuleConditionModel_dump (Models.sr_condition body))]]>
    (<["action" := VDict (Models.RuleActionModel_dump (Models.sr_action body))]>
    (<["safety" := VDict (Models.RuleSafetyModel_dump (Models.sr_safety body))]>
    (<["is_active" := VBool true]>
    (<["priority" := VNum 1]>
    (<["total_saved" := VNum 0]>
    (<["times_triggered" := VNum 0]>
    (<["last_triggered" := VNone]>
    (<["created_at" := VStr now]> ∅))))))))))) in
  rules <- lift (λ w, (LocalStorage.get_rules (Auth.id user) w, w)) ;;
  let rules := rules ++ [record] in
  lift (λ w, ((), LocalStorage.save_rules (Auth.id user) rules w)) ;;;
  ret record.

(** [r["is_active"] = not r.get("is_active", True)] *)
Definition toggle (r : record) : res record :=
  Ok (<["is_active" := VBool (negb (truthy (default (VBool true) (r !! "is_active"))))]> r).

(** [toggle_rule] *)
Definition toggle_rule (rule_id : string) (user : Auth.identity) : M record :=
  rules <- lift (λ w, (LocalStorage.get_rules (Auth.id user) w, w)) ;;
  r <- lift_res (Goals.update_first (Goals.id_is rule_id) toggle rules) ;;
  match r with
  | Some (r, rules) =>
      lift (λ w, ((), LocalStorage.save_rules (Auth.id user) rules w)) ;;;
      ret r
  | None => raise (HTTPException 404 "Rule not found")
  end.

(** [r["id"] != rule_id] *)
Definition id_is_not (rule_id : string) (r : record) : res bool :=
  match getitem r "id" with
  | Raise e => Raise e
  | Ok v => Ok (negb (eq_str v rule_id))
  end.

(** [delete_rule] *)
Definition delete_rule (rule_id : string) (user : Auth.identity) : M () :=
  rules <- lift (λ w, (LocalStorage.get_rules (Auth.id user) w, w)) ;;
  new_rules <- lift_res (Admin.filter_res (id_is_not rule_id) rules) ;;
  if decide (length new_rules = length rules)
  then raise (HTTPException 404 "Rule not found")
  else
    lift (λ w, ((), LocalStorage.save_rules (Auth.id user) new_rules w)) ;;;
    ret ().

End Rules.

(** ** [app/routes/goals.py]: deleting a goal *)

Module GoalsDelete.

(** [not (g["id"] == goal_id and g["user_id"] == user["id"])] *)
Definition not_id_and_owner (goal_id user_id : string) (g : record) : res bool :=
  match Goals.id_and_owner_are goal_id user_id g with
  | Raise e => Raise e
  | Ok b => Ok (negb b)
  end.

(** [delete_goal]; [uuid] and [now] are the draws of [_seed_demo_goals].
    For the demo account the list is replaced before the lengths are
    compared. *)
Definition delete_goal (uuid now : nat → string) (goal_id : string)
    (user : Auth.identity) : M () :=
  if Auth.is_demo user then
    lift (λ w, ((), Goals._seed_demo_goals uuid now w)) ;;;
    w <- get_world ;;
    let before := length (demo_goals w) in
    goals <- lift_res (Admin.filter_res
                         (not_id_and_owner goal_id (Auth.id user))
                         (demo_goals w)) ;;
    lift (λ w, ((), set_demo_goals goals w)) ;;;
    if decide (length goals = before)
    then raise (HTTPException 404 "Goal not found")
    else ret ()
  else
    goals <- lift (λ w, (LocalStorage.get_goals (Auth.id user) w, w)) ;;
    new_goals <- lift_res (Admin.filter_res (Rules.id_is_not goal_id) goals) ;;
    if decide (length new_goals = length goals)
    then raise (HTTPException 404 "Goal not found")
    else
      lift (λ w, ((), LocalStorage.save_goals (Auth.id user) new_goals w)) ;;;
      ret ().

End GoalsDelete.

(** ** [app/routes/transactions.py]: the categories of uploaded rows *)

Module Transactions.

(** The loop [for key, val in mapping.items(): if key in raw: return val]. *)
Fixpoint first_key_in (mapping : list (string * string)) (raw : string)
    : option string :=
  match mapping with
  | [] => None
  | (key, val) :: rest =>
      if PyStr.contains raw key then Some val else first_key_in rest raw
  end.

Definition income_mapping : list (string * string) := [
  ("gig", "delivery");
  ("ride", "delivery");
  ("rideshare", "delivery");
  ("food delivery", "delivery");
  ("freelancing", "freelance");
  ("contract", "freelance");
  ("youtube", "content");
  ("instagram", "content");
  ("tiktok", "content");
  ("teaching", "tutoring");
  ("course", "tutoring");
  ("selling", "ecommerce");
  ("shop", "ecommerce")
].

(** [normalize_income_category] *)
Definition normalize_income_category (raw : string) : string :=
  let raw := PyStr.strip (PyStr.lower raw) in
  match first_key_in income_mapping raw with
  | Some val => val
  | None =>
      if bool_decide (raw ∈ Models.IncomeCategory_values) then raw else "other"
  end.

Definition expense_mapping : list (string * string) := [
  ("grocery", "food");
  ("restaurant", "food");
  ("dining", "food");
  ("petrol", "transport");
  ("fuel", "transport");
  ("uber", "transport");
  ("ola", "transport");
  ("auto", "transport");
  ("movie", "entertainment");
  ("netflix", "entertainment");
  ("gaming", "entertainment");
  ("pub", "entertainment");
  ("clothes", "shopping");
  ("electronics", "shopping");
  ("amazon", "shopping");
  ("flipkart", "shopping");
  ("electricity", "bills");
  ("mobile", "bills");
  ("internet", "bills");
  ("rent", "bills")
].

(** [normalize_expense_category] *)
Definition normalize_expense_category (raw : string) : string :=
  let raw := PyStr.strip (PyStr.lower raw) in
  match first_key_in expense_mapping raw with
  | Some val => val
  | None =>
      if bool_decide (raw ∈ Models.ExpenseCategory_values) then raw else "other"
  end.

End Transactions.

(** ** The layer as a transition system *)

(** The collections that the store appends to and deletes from. *)
Inductive appendable := incomes | expenses.

Definition data_type_of (c : appendable) : string :=
  match c with
  | incomes => "incomes"
  | expenses => "expenses"
  end.

(** The four collections of an account, as [clear_user_data] lists them. *)
Definition collections : list string := ["incomes"; "expenses"; "rules"; "goals"].

(** A call into the layer, with the draws it makes. *)
Inductive call :=
  | Signup (d : LocalAuth.signup_draws) (email : string)
      (password : PyText.text) (full_name : string)
  | Login (fresh_token email : string) (password : PyText.text)
  | MarkAccountActive (email : string)
  | EnsureAdminUser (fresh_id fresh_salt now : string)
  | GetCurrentUser (credentials : option string)
  | Add (c : appendable) (now user_id : string) (r : record)
  | AddBulk (c : appendable) (now : nat → string) (user_id : string)
      (new_items : list record)
  | Delete (c : appendable) (user_id rid : string)
  | SaveRules (user_id : string) (rules : list record)
  | SaveGoals (user_id : string) (goals : list record)
  | CreateIncome (uuid now : string) (body : Models.IncomeCreate)
      (user : Auth.identity)
  | CreateGoal (uuid now : string) (seed_uuid seed_now : nat → string)
      (body : Models.GoalCreate) (user : Auth.identity)
  | AddMoney (uuid now : nat → string) (goal_id : string)
      (body : Models.AddMoneyRequest) (user : Auth.identity).

(** The state after a call, whether it returned or raised. *)
Definition run_call `{Runtime} (c : call) (w : world) : world :=
  match c with
  | Signup d email password full_name =>
      (LocalAuth.signup d email password full_name w).2
  | Login fresh_token email password =>
      (LocalAuth.login fresh_token email password w).2
  | MarkAccountActive email => LocalAuth.mark_account_active email w
  | EnsureAdminUser fresh_id fresh_salt now =>
      (LocalAuth.ensure_admin_user fresh_id fresh_salt now w).2
  | GetCurrentUser credentials => (Auth.get_current_user credentials w).2
  | Add c now user_id r =>
      (LocalStorage.add_to (data_type_of c) now user_id r w).2
  | AddBulk c now user_id new_items =>
      (LocalStorage.add_bulk_to (data_type_of c) now user_id new_items w).2
  | Delete c user_id rid =>
      (LocalStorage.delete_from (data_type_of c) user_id rid w).2
  | SaveRules user_id rules => LocalStorage.save_rules user_id rules w
  | SaveGoals user_id goals => LocalStorage.save_goals user_id goals w
  | CreateIncome uuid now body user =>
      (Incomes.create_income uuid now body user w).2
  | CreateGoal uuid now seed_uuid seed_now body user =>
      (Goals.create_goal uuid now seed_uuid seed_now body user w).2
  | AddMoney uuid now goal_id body user =>
      (Goals.add_money uuid now goal_id body user w).2
  end.

(** The state after a sequence of calls. *)
Definition run `{Runtime} (cs : list call) (w : world) : world :=
  foldl (λ w c, run_call c w) w cs.

(** The token that a call draws, if it draws one. *)
Definition token_of (c : call) : option string :=
  match c with
  | Signup d _ _ _ => Some (LocalAuth.draw_token d)
  | Login fresh_token _ _ => Some fresh_token
  | _ => None
  end.

(** [email.lower().strip()], the key under which an account is stored. *)
Definition normalize (email : string) : string :=
  PyStr.strip (PyStr.lower email).

(** The accounts and the tokens that a state holds. *)
Definition accounts (w : world) : ODict.t account := (LocalAuth._load_users w).1.
Definition tokens (w : world) : gmap string string := TokenRegistry._load_tokens w.

(** Every record of the collection carries the key of its partition. *)
Definition owned_by (user_id : string) (items : list record) : Prop :=
  Forall (λ r : record, r !! "user_id" = Some (VStr user_id)) items.

(** Every partition of incomes and of expenses is owned by its key. *)
Definition store_owned (w : world) : Prop :=
  ∀ u c, owned_by u (LocalStorage._load_data u (data_type_of c) w).

(** Two entries of [users.json] with the same id and the same password
    hash and salt. *)
Definition same_credentials (a a' : account) : Prop :=
  acc_id a' = acc_id a
  ∧ acc_password_hash a' = acc_password_hash a
  ∧ acc_password_salt a' = acc_password_salt a.

(** [not full_name or len(full_name.strip()) < 2] does not hold. *)
Definition name_accepted (full_name : string) : Prop :=
  full_name ≠ "" ∧ 2 ≤ PyStr.len (PyStr.strip full_name).

(** No two records of the collection have the same ["id"]. *)
Definition ids_unique (items : list record) : Prop :=
  NoDup (omap (λ r : record, r !! "id") items).

(** The collection file of an account cannot be read: it is missing or
    its text does not parse. *)
Definition unreadable (user_id data_type : string) (w : world) : Prop :=
  data_json w !! LocalStorage._get_user_file user_id data_type = None
  ∨ data_json w !! LocalStorage._get_user_file user_id data_type = Some Garbage.

(** The same state with that file holding the empty list. *)
Definition emptied (user_id data_type : string) (w : world) : world :=
  LocalStorage._save_data user_id data_type [] w.

(** ** Notions used in the properties of the e-mail pattern *)

(** Every character. *)
Definition all_ascii : list ascii := map ascii_of_nat (seq 0 256).

(** The class accepts no character but [@]. *)
Definition only_at (p : ascii → bool) : bool :=
  forallb (λ c, implb (p c) (bool_decide (c = "@"%char))) all_ascii.

(** A condition on the shape of [r] under which every string that [r]
    matches contains [@]. *)
Fixpoint needs_at (r : Re.regex) : bool :=
  match r with
  | Re.Void => true
  | Re.Eps => false
  | Re.Class p => only_at p
  | Re.Seq r1 r2 => needs_at r1 || needs_at r2
  | Re.Alt r1 r2 => needs_at r1 && needs_at r2
  | Re.Star _ => false
  end.

(** The characters of a string. *)
Definition chars (s : string) : list ascii := String.list_ascii_of_string s.

(** The messages with which [signup] raises [ValueError]. *)
Definition signup_messages : list string := [
  "Invalid email format";
  "Please use a valid email provider (gmail.com, yahoo.com, outlook.com, etc.)";
  "Password must be at least 6 characters";
  "Please enter your full name";
  "An account with this email already exists"
].

(** ** A runtime and inputs to evaluate the model on *)

Definition sample_runtime : Runtime := {|
  pbkdf2_hmac_sha256_hex := λ password salt, String.rev password +:+ ":" +:+ salt;
  py_hash := λ s, (Z.of_nat (String.length s) * 7919)%Z;
  float_of_str := λ _, None;
  round2 := λ q, Qred q;
  exn_str := λ _, "error";
|}.

Definition sample_draws (n : string) : LocalAuth.signup_draws := {|
  LocalAuth.draw_user_id := "3f2a" +:+ n +:+ "9c0d1e2f3a4b5c6d7e8f9a0b1c2d";
  LocalAuth.draw_salt := "a1b2" +:+ n +:+ "c3d4e5f6a7b8c9d0e1f2a3b4c5d6";
  LocalAuth.draw_token := "tok" +:+ n +:+ "_Zk3vQ9xL2mN8pR4sT6uW0yB1cD5eF7gH9jK";
  LocalAuth.draw_now := "2025-03-01T10:00:00.000000";
|}.

Definition sample_income : Models.IncomeCreate := {|
  Models.ic_amount := 45000;
  Models.ic_source_name := "Upwork";
  Models.ic_category := Models.freelance;
  Models.ic_date := "2025-03-02";
  Models.ic_description := Some "React dashboard project";
|}.

Definition sample_goal (gid : string) (current target : Q) : record :=
  <["id" := VStr gid]>
  (<["user_id" := VStr "u1"]>
  (<["name" := VStr "Emergency Fund"]>
  (<["target_amount" := VNum target]>
  (<["current_amount" := VNum current]> ∅)))).

Definition sample_user (uid : string) : Auth.identity := {|
  Auth.id := uid;
  Auth.email := "new.user@gmail.com";
  Auth.full_name := "New User";
  Auth.is_demo := false;
  Auth.is_new_account := Some true;
  Auth.is_admin := Some false |}.

Definition sample_clock : Admin.clock := {|
  Admin.thirty_days_ago := "2025-02-01T10:00:00.000000";
  Admin.ninety_days_ago := λ _, "2024-12-03T10:00:00.000000";
  Admin.timestamp := "2025-03-03T10:00:00.000000";
|}.

(** * Properties *)

Arguments LocalAuth._save_users : simpl never.
Arguments LocalAuth._ensure_data_dir : simpl never.
Arguments LocalAuth._load_users : simpl never.
Arguments TokenRegistry.register_local_token : simpl never.
Arguments TokenRegistry._load_tokens : simpl never.
Arguments LocalStorage._save_data : simpl never.
Arguments LocalStorage._load_data : simpl never.
Arguments LocalStorage.stamp : simpl never.
Arguments normalize : simpl never.
Arguments accounts : simpl never.
Arguments tokens : simpl never.

(** ** The document store: reading back what was written *)

Section storage_facts.
Import LocalStorage.

Lemma load_save (u t : string) (l : list record) (w : world) :
  _load_data u t (_save_data u t l w) = l.
Proof. unfold _load_data, _save_data. simpl. by rewrite lookup_insert_eq. Qed.

Lemma load_save_other (u t u' t' : string) (l : list record) (w : world) :
  _get_user_file u t ≠ _get_user_file u' t' →
  _load_data u' t' (_save_data u t l w) = _load_data u' t' w.
Proof.
  intros Hne. unfold _load_data, _save_data. simpl.
  by rewrite lookup_insert_ne.
Qed.

Lemma stamp_user_id (u now : string) (r : record) :
  stamp u now r !! "user_id" = Some (VStr u).
Proof.
  unfold stamp. destruct (_ !! "created_at") eqn:E.
  - by rewrite lookup_insert_eq.
  - rewrite lookup_insert_ne; [|done]. by rewrite lookup_insert_eq.
Qed.

Lemma stamp_created_at (u now : string) (r : record) :
  stamp u now r !! "created_at" = Some (default (VStr now) (r !! "created_at")).
Proof.
  unfold stamp. rewrite lookup_insert_ne; [|done].
  destruct (r !! "created_at") eqn:E; simpl.
  - rewrite lookup_insert_ne; [|done]. done.
  - by rewrite lookup_insert_eq.
Qed.

Lemma stamp_other (u now k : string) (r : record) :
  k ≠ "user_id" → k ≠ "created_at" → stamp u now r !! k = r !! k.
Proof.
  intros H1 H2. unfold stamp. rewrite lookup_insert_ne; [|done].
  destruct (r !! "created_at").
  - by rewrite lookup_insert_ne.
  - by rewrite !lookup_insert_ne.
Qed.

Lemma add_to_result (t now u : string) (r : record) (w : world) :
  (add_to t now u r w).1 = stamp u now r.
Proof. done. Qed.

Lemma add_to_list (t now u : string) (r : record) (w : world) :
  _load_data u t (add_to t now u r w).2
  = _load_data u t w ++ [stamp u now r].
Proof. unfold add_to. simpl. by rewrite load_save. Qed.

Lemma add_bulk_to_list (t : string) (now : nat → string) (u : string)
    (l : list record) (w : world) :
  _load_data u t (add_bulk_to t now u l w).2
  = _load_data u t w ++ imap (λ i r, stamp u (now i) r) l.
Proof.
  unfold add_bulk_to. destruct l as [|r l]; simpl.
  - by rewrite app_nil_r.
  - by rewrite load_save.
Qed.

Lemma filter_all_kept {A} (f : A → bool) (l : list A) :
  ¬ length (List.filter f l) < length l → List.filter f l = l.
Proof.
  induction l as [|x l IH]; simpl; [done|].
  pose proof (List.filter_length_le f l) as Hle.
  destruct (f x); simpl; intros Hn.
  - f_equal. apply IH. lia.
  - lia.
Qed.

Lemma delete_from_list (t u rid : string) (w : world) :
  _load_data u t (delete_from t u rid w).2
  = List.filter (id_differs rid) (_load_data u t w).
Proof.
  unfold delete_from. case_decide as Hlt; simpl.
  - by rewrite load_save.
  - symmetry. by apply filter_all_kept.
Qed.

Lemma id_differs_false (rid : string) (r : record) :
  id_differs rid r = false ↔ r !! "id" = Some (VStr rid).
Proof.
  unfold id_differs, eq_str. destruct (r !! "id") as [[]|]; simpl;
    try (split; [done|by inversion 1]).
  rewrite negb_false_iff, bool_decide_eq_true. split; [by intros ->|by inversion 1].
Qed.

Lemma filter_shorter {A} (f : A → bool) (l : list A) :
  length (List.filter f l) < length l ↔ ∃ x, x ∈ l ∧ f x = false.
Proof.
  induction l as [|x l IH]; simpl.
  - split; [lia|]. intros (x & Hx & _). by apply elem_of_nil in Hx.
  - pose proof (List.filter_length_le f l) as Hle.
    destruct (f x) eqn:Hfx; simpl.
    + rewrite <- Nat.succ_lt_mono, IH. split.
      * intros (y & Hy & Hf). exists y. split; [by right|done].
      * intros (y & Hy & Hf). apply elem_of_cons in Hy as [->|Hy]; [congruence|].
        by exists y.
    + split; [|lia]. intros _. exists x. split; [by left|done].
Qed.

(** With unique ids, the filter of [delete_from] takes out one record. *)
Lemma filter_unique (rid : string) (l : list record) :
  ids_unique l → ∀ r, r ∈ l → r !! "id" = Some (VStr rid) →
  ∃ l1 l2, l = l1 ++ r :: l2 ∧ List.filter (id_differs rid) l = l1 ++ l2.
Proof.
  unfold ids_unique. induction l as [|x l IH]; intros Hnd r Hr Hid.
  - by apply elem_of_nil in Hr.
  - assert (Hrest : ∀ y, y ∈ l → x !! "id" = Some (VStr rid) → id_differs rid y = true).
    { intros y Hy Hx. destruct (id_differs rid y) eqn:E; [done|].
      apply id_differs_false in E. simpl in Hnd. rewrite Hx in Hnd. simpl in Hnd.
      apply NoDup_cons_1_1 in Hnd. exfalso. apply Hnd.
      apply list_elem_of_omap. by exists y. }
    apply elem_of_cons in Hr as [->|Hr].
    + exists [], l. split; [done|]. simpl.
      rewrite (proj2 (id_differs_false rid x) Hid). simpl.
      apply List.forallb_filter_id, List.forallb_forall.
      intros y Hy%list_elem_of_In. by apply Hrest.
    + assert (Hx : id_differs rid x = true).
      { destruct (id_differs rid x) eqn:E; [done|].
        apply id_differs_false in E. pose proof (Hrest r Hr E) as Hd.
        apply id_differs_false in Hid. congruence. }
      destruct (IH) with (r := r) as (l1 & l2 & -> & Hf); [|done|done|].
      { simpl in Hnd. destruct (x !! "id"); simpl in Hnd; [|done].
        by apply NoDup_cons_1_2 in Hnd. }
      exists (x :: l1), l2. split; [done|]. simpl. rewrite Hx. simpl.
      by rewrite Hf.
Qed.

Lemma delete_from_filtered (t u rid : string) (l : list record) (w : world) :
  _load_data u t w = List.filter (id_differs rid) l →
  delete_from t u rid w = (false, w).
Proof.
  intros Hl. unfold delete_from. rewrite Hl.
  case_decide as Hlt; [|done]. exfalso.
  apply filter_shorter in Hlt as (r & Hr & Hf).
  apply list_elem_of_In, List.filter_In in Hr as [_ Hr]. congruence.
Qed.

End storage_facts.

(** ** C2: a list after an append *)

(** C2.  For every user, collection and record, listing the collection
    right after an append gives the list from before the append followed
    by the one record that the append returned; that record agrees with the
    input on every key other than ["id"], ["created_at"] and ["user_id"]
    (and, as the store never assigns it, on ["id"] as well).  [add_to] is
    the code of [add_income] and of [add_expense]; for goals the append is
    made by [create_goal] through [get_goals] and [save_goals], with the
    same outcome. *)
Theorem append_then_list (data_type now user_id : string) (r : record) (w : world) :
  let before := LocalStorage._load_data user_id data_type w in
  let out := LocalStorage.add_to data_type now user_id r w in
  LocalStorage._load_data user_id data_type out.2 = before ++ [out.1]
  ∧ (∀ k, k ≠ "id" → k ≠ "created_at" → k ≠ "user_id" → out.1 !! k = r !! k)
  ∧ out.1 !! "id" = r !! "id"
  ∧ LocalStorage.add_income = LocalStorage.add_to "incomes"
  ∧ LocalStorage.add_expense = LocalStorage.add_to "expenses"
  ∧ ∀ uuid seed_uuid seed_now body user,
      Auth.is_demo user = false →
      let out := Goals.create_goal uuid now seed_uuid seed_now body user w in
      ∃ g, out.1 = Ok g
        ∧ LocalStorage.get_goals (Auth.id user) out.2
          = LocalStorage.get_goals (Auth.id user) w ++ [g]
        ∧ g !! "name" = Some (VStr (Models.gc_name body))
        ∧ g !! "target_amount" = Some (VNum (Models.gc_target_amount body)).
Proof.
  cbv zeta. rewrite add_to_list, add_to_result.
  split; [done|]. split; [intros k _ Hc Hu; by apply stamp_other|].
  split; [by apply stamp_other|]. split; [done|]. split; [done|].
  intros uuid seed_uuid seed_now body user Hdemo.
  unfold Goals.create_goal. rewrite Hdemo.
  unfold bind, lift, ret. simpl. eexists. split; [done|].
  unfold LocalStorage.get_goals, LocalStorage.save_goals.
  rewrite load_save. split; [done|]. split; by simplify_map_eq.
Qed.

Lemma append_then_list_witness :
  Auth.is_demo (sample_user "u1") = false
  ∧ ∃ g,
      (Goals.create_goal "g-1" "2025-03-01T10:00:00" (λ _, "s") (λ _, "t")
         {| Models.gc_name := "Laptop"; Models.gc_target_amount := 75000;
            Models.gc_target_date := "2025-09-30"; Models.gc_icon := "laptop";
            Models.gc_monthly_contribution := 10000 |}
         (sample_user "u1") empty_world).1 = Ok g
      ∧ g !! "name" = Some (VStr "Laptop").
Proof.
  split; [reflexivity|].
  destruct (append_then_list "incomes" "2025-03-01T10:00:00" "u1" ∅ empty_world)
    as (_ & _ & _ & _ & _ & Hgoal).
  destruct (Hgoal "g-1" (λ _, "s") (λ _, "t")
    {| Models.gc_name := "Laptop"; Models.gc_target_amount := 75000;
       Models.gc_target_date := "2025-09-30"; Models.gc_icon := "laptop";
       Models.gc_monthly_contribution := 10000 |}
    (sample_user "u1") eq_refl) as (g & Hg & _ & Hname & _).
  exists g. split; [exact Hg|exact Hname].
Defined.

(** ** C5: deleting by id *)

(** C5.  [delete_from] (the code of [delete_income] and [delete_expense])
    answers true exactly when some record of the collection has that id;
    when it answers false the state is unchanged; a second call with the
    same id answers false and changes nothing; and when the ids of the
    collection are unique, a call that answers true removes exactly one
    record and keeps the others in their order. *)
Theorem delete_once (data_type user_id rid : string) (w : world) :
  let items := LocalStorage._load_data user_id data_type w in
  let first := LocalStorage.delete_from data_type user_id rid w in
  let second := LocalStorage.delete_from data_type user_id rid first.2 in
  (first.1 = true ↔ ∃ r, r ∈ items ∧ r !! "id" = Some (VStr rid))
  ∧ (first.1 = false → first.2 = w)
  ∧ second.1 = false
  ∧ second.2 = first.2
  ∧ (ids_unique items → first.1 = true →
       ∃ l1 r l2, items = l1 ++ r :: l2
         ∧ r !! "id" = Some (VStr rid)
         ∧ LocalStorage._load_data user_id data_type first.2 = l1 ++ l2
         ∧ length (LocalStorage._load_data user_id data_type first.2) + 1
           = length items).
Proof.
  intros items first second.
  assert (Hfirst : first.1 = true ↔ ∃ r, r ∈ items ∧ r !! "id" = Some (VStr rid)).
  { subst first. unfold LocalStorage.delete_from. fold items.
    case_decide as Hlt; simpl.
    - split; [intros _|done]. apply filter_shorter in Hlt as (r & Hr & Hf).
      exists r. by rewrite <- id_differs_false.
    - split; [done|]. intros (r & Hr & Hid). exfalso. apply Hlt.
      apply filter_shorter. exists r. by rewrite id_differs_false. }
  assert (Hsecond : second.1 = false ∧ second.2 = first.2).
  { subst second.
    rewrite (delete_from_filtered data_type user_id rid items first.2); [done|].
    apply delete_from_list. }
  split; [done|]. split.
  { subst first. unfold LocalStorage.delete_from. by case_decide. }
  split; [apply Hsecond|]. split; [apply Hsecond|].
  intros Huniq Htrue. apply Hfirst in Htrue as (r & Hr & Hid).
  destruct (filter_unique rid items Huniq r Hr Hid) as (l1 & l2 & Hitems & Hf).
  exists l1, r, l2. split; [done|]. split; [done|].
  subst first. rewrite delete_from_list. fold items. rewrite Hf.
  split; [done|]. rewrite Hitems, !length_app. simpl. lia.
Qed.

Lemma delete_once_witness :
  let w := (LocalStorage.add_income "2025-03-01T10:00:00" "u1"
              (<["id" := VStr "i-1"]> ∅) empty_world).2 in
  ids_unique (LocalStorage.get_incomes "u1" w)
  ∧ (LocalStorage.delete_income "u1" "i-1" w).1 = true
  ∧ ∃ l1 r l2, LocalStorage.get_incomes "u1" w = l1 ++ r :: l2
      ∧ LocalStorage.get_incomes "u1" (LocalStorage.delete_income "u1" "i-1" w).2
        = l1 ++ l2.
Proof.
  intros w.
  assert (Hu : ids_unique (LocalStorage.get_incomes "u1" w)).
  { unfold ids_unique. vm_compute. apply NoDup_singleton. }
  assert (Ht : (LocalStorage.delete_income "u1" "i-1" w).1 = true)
    by (vm_compute; reflexivity).
  split; [exact Hu|]. split; [exact Ht|].
  destruct (delete_once "incomes" "u1" "i-1" w) as (_ & _ & _ & _ & Hone).
  destruct (Hone Hu Ht) as (l1 & r & l2 & H1 & _ & H2 & _).
  exists l1, r, l2. split; [exact H1|exact H2].
Defined.

(** ** C6: what the store assigns *)

(** The store does not assign an id: a record appended without one is
    returned, and stored, without one. *)
Lemma add_income_assigns_no_id :
  let out := LocalStorage.add_income "2025-03-01T10:00:00" "u1"
               (<["amount" := VNum 100]> ∅) empty_world in
  out.1 !! "id" = None
  ∧ ∃ r, LocalStorage.get_incomes "u1" out.2 = [r] ∧ r !! "id" = None.
Proof.
  simpl. split; [by vm_compute|]. eexists. split; [by vm_compute|by vm_compute].
Qed.

(** C6, amended.  An append sets ["user_id"] to the key of the partition
    and sets ["created_at"] when the record has none, keeping it
    otherwise; it leaves ["id"] as the caller gave it, present or absent.
    The same holds for every record of a bulk append.  So a record that
    the store returns or lists has ["created_at"] and ["user_id"], and has
    ["id"] exactly when the caller supplied it, as [create_income] does. *)
Theorem append_defaults (data_type now user_id : string) (r : record) (w : world) :
  let out := LocalStorage.add_to data_type now user_id r w in
  out.1 !! "created_at" = Some (default (VStr now) (r !! "created_at"))
  ∧ out.1 !! "user_id" = Some (VStr user_id)
  ∧ out.1 !! "id" = r !! "id"
  ∧ LocalStorage._load_data user_id data_type out.2
      !! length (LocalStorage._load_data user_id data_type w) = Some out.1
  ∧ (∀ (nows : nat → string) (new_items : list record) (i : nat) (x : record),
       new_items !! i = Some x →
       let bulk := LocalStorage.add_bulk_to data_type nows user_id new_items w in
       ∃ y, LocalStorage._load_data user_id data_type bulk.2
              !! (length (LocalStorage._load_data user_id data_type w) + i)%nat = Some y
         ∧ y !! "created_at" = Some (default (VStr (nows i)) (x !! "created_at"))
         ∧ y !! "user_id" = Some (VStr user_id)
         ∧ y !! "id" = x !! "id")
  ∧ (∀ uuid body user,
       let made := Incomes.create_income uuid now body user w in
       ∃ g, made.1 = Ok g ∧ g !! "id" = Some (VStr uuid)
         ∧ g !! "created_at" = Some (VStr now)).
Proof.
  cbv zeta. rewrite add_to_list, add_to_result.
  split; [apply stamp_created_at|]. split; [apply stamp_user_id|].
  split; [by apply stamp_other|]. split; [by rewrite list_lookup_middle|].
  split.
  - intros nows new_items i x Hx. rewrite add_bulk_to_list.
    exists (LocalStorage.stamp user_id (nows i) x). split.
    + rewrite lookup_app_r by lia.
      replace (_ + i - _)%nat with i by lia.
      rewrite list_lookup_imap, Hx. done.
    + split; [apply stamp_created_at|]. split; [apply stamp_user_id|].
      by apply stamp_other.
  - intros uuid body user. unfold Incomes.create_income, bind, lift, ret. simpl.
    eexists. split; [done|]. split.
    + rewrite stamp_other by done. rewrite !lookup_insert_ne by done.
      rewrite lookup_union_r.
      * by simplify_map_eq.
      * unfold Models.IncomeCreate_dump. by simplify_map_eq.
    + rewrite stamp_created_at. by simplify_map_eq.
Qed.

Lemma append_defaults_witness :
  [(∅ : record)] !! 0%nat = Some ∅
  ∧ ∃ y, LocalStorage.get_incomes "u1"
           (LocalStorage.add_incomes_bulk (λ _, "2025-03-01T10:00:00") "u1"
              [∅] empty_world).2 !! 0%nat = Some y
      ∧ y !! "user_id" = Some (VStr "u1").
Proof.
  split; [reflexivity|].
  destruct (append_defaults "incomes" "2025-03-01T10:00:00" "u1" ∅ empty_world)
    as (_ & _ & _ & _ & Hbulk & _).
  destruct (Hbulk (λ _, "2025-03-01T10:00:00") [∅] 0%nat ∅ eq_refl)
    as (y & Hy & _ & Hu & _).
  exists y. split; [exact Hy|exact Hu].
Defined.

(** ** The names of the collection files *)

Lemma list_ascii_app (a b : string) :
  String.list_ascii_of_string (a +:+ b)
  = String.list_ascii_of_string a ++ String.list_ascii_of_string b.
Proof. induction a as [|c a IH]; simpl; [done|]. by rewrite <- IH. Qed.

Lemma list_ascii_inj (a b : string) :
  String.list_ascii_of_string a = String.list_ascii_of_string b → a = b.
Proof.
  intros Hab.
  rewrite <- (String.string_of_list_ascii_of_string a),
          <- (String.string_of_list_ascii_of_string b).
  by rewrite Hab.
Qed.

(** Two partitions of the four collections never share a file. *)
Lemma user_file_inj (u t u' t' : string) :
  t ∈ collections → t' ∈ collections →
  LocalStorage._get_user_file u t = LocalStorage._get_user_file u' t' →
  u = u' ∧ t = t'.
Proof.
  unfold collections, LocalStorage._get_user_file.
  intros Ht Ht' Heq.
  apply (f_equal String.list_ascii_of_string) in Heq.
  rewrite !list_ascii_app in Heq.
  apply (f_equal (@rev ascii)) in Heq.
  rewrite !rev_app_distr in Heq.
  repeat (apply elem_of_cons in Ht as [->|Ht]);
    try (by apply elem_of_nil in Ht);
    repeat (apply elem_of_cons in Ht' as [->|Ht']);
    try (by apply elem_of_nil in Ht');
    simpl in Heq; try discriminate Heq;
    (split; [|done]); apply list_ascii_inj, rev_inj; by simplify_eq.
Qed.

(** ** The credential store: what each operation does to the state *)

Section odict_facts.
Context {A : Type}.
Implicit Types (d : ODict.t A) (k : string) (v : A).

Lemma odict_get_set_eq d k v : ODict.get (ODict.set d k v) k = Some v.
Proof.
  induction d as [|[k' v'] d IH]; simpl.
  - by rewrite decide_True.
  - destruct (decide (k' = k)) as [->|Hne]; simpl.
    + by rewrite decide_True.
    + by rewrite decide_False.
Qed.

Lemma odict_get_set_ne d k k' v :
  k ≠ k' → ODict.get (ODict.set d k v) k' = ODict.get d k'.
Proof.
  intros Hne. induction d as [|[k0 v0] d IH]; simpl.
  - by rewrite decide_False.
  - destruct (decide (k0 = k)) as [->|Hne0]; simpl.
    + by rewrite !decide_False.
    + destruct (decide (k0 = k')); [done|apply IH].
Qed.

Lemma odict_get_set d k k' v :
  ODict.get (ODict.set d k v) k'
  = if decide (k = k') then Some v else ODict.get d k'.
Proof.
  case_decide as Hk; [subst; apply odict_get_set_eq|by apply odict_get_set_ne].
Qed.
End odict_facts.

Section auth_facts.
Context `{Runtime}.
Import LocalAuth.

Ltac case_users_json w :=
  let E := fresh "E" in
  destruct (users_json w) as [[]|] eqn:E; simpl; rewrite ?E; simpl; try done.

Lemma ensure_data_dir_accounts (w : world) :
  accounts (_ensure_data_dir w) = accounts w.
Proof.
  unfold accounts, _load_users, _ensure_data_dir. case_users_json w.
Qed.

Lemma ensure_data_dir_idem (w : world) :
  _ensure_data_dir (_ensure_data_dir w) = _ensure_data_dir w.
Proof. unfold _ensure_data_dir. case_users_json w. Qed.

Lemma load_users_eq (w : world) :
  _load_users w = (accounts w, _ensure_data_dir w).
Proof.
  unfold accounts, _load_users, _ensure_data_dir. case_users_json w.
Qed.

Lemma save_users_accounts (users : ODict.t account) (w : world) :
  accounts (_save_users users w) = users.
Proof.
  unfold accounts, _load_users, _save_users, _ensure_data_dir.
  case_users_json w.
Qed.

Lemma ensure_data_dir_present (w : world) :
  is_Some (users_json w) → _ensure_data_dir w = w.
Proof. unfold _ensure_data_dir. by intros [? ->]. Qed.

(** [signup], step by step. *)
Lemma signup_eq (d : signup_draws) (email : string) (password : PyText.text)
    (full_name : string) (w : world) :
  signup d email password full_name w =
  match validate_email (normalize email) with
  | Raise e => (Raise e, w)
  | Ok (false, error) => (Raise (ValueError error), w)
  | Ok (true, _) =>
      if decide (PyText.len password < 6)
      then (Raise (ValueError "Password must be at least 6 characters"), w)
      else if bool_decide (full_name = "")
              || bool_decide (PyStr.len (PyStr.strip full_name) < 2)
      then (Raise (ValueError "Please enter your full name"), w)
      else if decide (is_Some (ODict.get (accounts w) (normalize email)))
      then (Raise (ValueError "An account with this email already exists"),
            _ensure_data_dir w)
      else
        match PyText.encode password with
        | inl start =>
            (Raise (UnicodeEncodeError password start), _ensure_data_dir w)
        | inr bytes =>
            (Ok {| access_token := draw_token d;
                   user := {| ui_id := draw_user_id d;
                              ui_email := normalize email;
                              ui_full_name := PyStr.strip full_name;
                              ui_isNewAccount := true;
                              ui_isAdmin := None |};
                   message := Some "Account created successfully" |},
             _save_users
               (ODict.set (accounts w) (normalize email)
                  {| acc_id := draw_user_id d;
                     acc_email := normalize email;
                     acc_full_name := PyStr.strip full_name;
                     acc_password_hash :=
                       pbkdf2_hmac_sha256_hex bytes (draw_salt d);
                     acc_password_salt := draw_salt d;
                     acc_created_at := draw_now d;
                     acc_is_new_account := Some true;
                     acc_is_admin := None |})
               (TokenRegistry.register_local_token (draw_token d)
                  (normalize email) (_ensure_data_dir w)))
        end
  end.
Proof.
  unfold signup, normalize, bind, lift_res, lift, raise, ret.
  destruct (validate_email _) as [[[] error]|e]; simpl; [|done|done].
  case_decide; [done|].
  destruct (_ || _); [done|].
  rewrite load_users_eq. unfold normalize.
  case_decide; [done|].
  unfold _hash_password. by destruct (PyText.encode password).
Qed.

(** [login], step by step. *)
Lemma login_eq (fresh_token email : string) (password : PyText.text)
    (w : world) :
  login fresh_token email password w =
  match ODict.get (accounts w) (normalize email) with
  | None => (Raise (ValueError "Invalid email or password"), _ensure_data_dir w)
  | Some a =>
      match PyText.encode password with
      | inl start =>
          (Raise (UnicodeEncodeError password start), _ensure_data_dir w)
      | inr bytes =>
          if bool_decide (pbkdf2_hmac_sha256_hex bytes (acc_password_salt a)
                          = acc_password_hash a)
          then
            (Ok {| access_token := fresh_token;
                   user := {| ui_id := acc_id a;
                              ui_email := acc_email a;
                              ui_full_name := acc_full_name a;
                              ui_isNewAccount :=
                                default false (acc_is_new_account a);
                              ui_isAdmin :=
                                Some (default false (acc_is_admin a)) |};
                   message := None |},
             TokenRegistry.register_local_token fresh_token (normalize email)
               (_ensure_data_dir w))
          else (Raise (ValueError "Invalid email or password"),
                _ensure_data_dir w)
      end
  end.
Proof.
  unfold login, normalize, bind, lift, lift_res, raise, ret.
  rewrite load_users_eq. unfold normalize.
  destruct (ODict.get _ _) as [a|]; [|done]. simpl.
  unfold _hash_password. destruct (PyText.encode password); [done|]. simpl.
  by destruct (bool_decide _).
Qed.

(** [get_current_user], step by step. *)
Lemma get_current_user_eq (token : string) (w : world) :
  token ≠ "demo-token" → 20 < PyStr.len token →
  Auth.get_current_user (Some token) w =
  match tokens w !! token with
  | None => (Raise (HTTPException 401 "Invalid or expired token"), w)
  | Some email =>
      if bool_decide (email = "")
      then (Raise (HTTPException 401 "Invalid or expired token"), w)
      else
        match ODict.get (accounts w) email with
        | None => (Raise (HTTPException 401 "Invalid or expired token"),
                   _ensure_data_dir w)
        | Some a =>
            (Ok {| Auth.id := acc_id a;
                   Auth.email := email;
                   Auth.full_name := acc_full_name a;
                   Auth.is_demo := false;
                   Auth.is_new_account := Some (default false (acc_is_new_account a));
                   Auth.is_admin := Some (default false (acc_is_admin a)) |},
             _ensure_data_dir w)
        end
  end.
Proof.
  intros Hdemo Hlen. unfold Auth.get_current_user.
  rewrite bool_decide_eq_false_2 by done. rewrite decide_True by done.
  unfold bind, lift, raise, ret, tokens.
  destruct (TokenRegistry._load_tokens w !! token) as [email|]; [|done].
  destruct (bool_decide (email = "")); [done|].
  rewrite load_users_eq. by destruct (ODict.get _ _).
Qed.

End auth_facts.

(** ** Calls that do not touch a part of the state *)

Section frames.
Context `{Runtime}.

Lemma accounts_ext (w w' : world) :
  users_json w' = users_json w → accounts w' = accounts w.
Proof.
  intros Hu. unfold accounts, LocalAuth._load_users, LocalAuth._ensure_data_dir.
  destruct (users_json w) as [[]|] eqn:E; rewrite Hu; simpl; by rewrite ?Hu, ?E.
Qed.

Lemma tokens_ext (w w' : world) :
  tokens_json w' = tokens_json w → tokens w' = tokens w.
Proof. intros Ht. unfold tokens, TokenRegistry._load_tokens. by rewrite Ht. Qed.

Lemma load_data_ext (u t : string) (w w' : world) :
  data_json w' = data_json w →
  LocalStorage._load_data u t w' = LocalStorage._load_data u t w.
Proof. intros Hd. unfold LocalStorage._load_data. by rewrite Hd. Qed.

Lemma ensure_data_dir_tokens (w : world) :
  tokens_json (LocalAuth._ensure_data_dir w) = tokens_json w.
Proof. unfold LocalAuth._ensure_data_dir. by destruct (users_json w). Qed.

Lemma ensure_data_dir_data (w : world) :
  data_json (LocalAuth._ensure_data_dir w) = data_json w.
Proof. unfold LocalAuth._ensure_data_dir. by destruct (users_json w). Qed.

Lemma ensure_data_dir_demo (w : world) :
  demo_goals (LocalAuth._ensure_data_dir w) = demo_goals w.
Proof. unfold LocalAuth._ensure_data_dir. by destruct (users_json w). Qed.

Lemma ensure_data_dir_users (w : world) :
  is_Some (users_json (LocalAuth._ensure_data_dir w)).
Proof.
  unfold LocalAuth._ensure_data_dir.
  destruct (users_json w) eqn:E; simpl; rewrite ?E; eauto.
Qed.

Lemma save_users_users (users : ODict.t account) (w : world) :
  users_json (LocalAuth._save_users users w) = Some (Json users).
Proof. done. Qed.

Lemma save_users_tokens (users : ODict.t account) (w : world) :
  tokens_json (LocalAuth._save_users users w) = tokens_json w.
Proof. unfold LocalAuth._save_users. simpl. apply ensure_data_dir_tokens. Qed.

Lemma save_users_data (users : ODict.t account) (w : world) :
  data_json (LocalAuth._save_users users w) = data_json w.
Proof. unfold LocalAuth._save_users. simpl. apply ensure_data_dir_data. Qed.

Lemma save_users_demo (users : ODict.t account) (w : world) :
  demo_goals (LocalAuth._save_users users w) = demo_goals w.
Proof. unfold LocalAuth._save_users. simpl. apply ensure_data_dir_demo. Qed.

Lemma register_token_users (t e : string) (w : world) :
  users_json (TokenRegistry.register_local_token t e w) = users_json w.
Proof. done. Qed.

Lemma register_token_data (t e : string) (w : world) :
  data_json (TokenRegistry.register_local_token t e w) = data_json w.
Proof. done. Qed.

Lemma register_token_tokens (t e : string) (w : world) :
  tokens (TokenRegistry.register_local_token t e w) = <[t := e]> (tokens w).
Proof. done. Qed.

Lemma save_data_users (u t : string) (l : list record) (w : world) :
  users_json (LocalStorage._save_data u t l w) = users_json w.
Proof. done. Qed.

Lemma save_data_tokens (u t : string) (l : list record) (w : world) :
  tokens_json (LocalStorage._save_data u t l w) = tokens_json w.
Proof. done. Qed.

End frames.

Ltac frame :=
  repeat first
    [ rewrite ensure_data_dir_tokens | rewrite ensure_data_dir_data
    | rewrite ensure_data_dir_demo | rewrite save_users_users
    | rewrite save_users_tokens | rewrite save_users_data
    | rewrite save_users_demo | rewrite register_token_users
    | rewrite register_token_data | rewrite save_data_users
    | rewrite save_data_tokens ].

Ltac unfold_m :=
  unfold bind, lift, lift_res, raise, ret, get_world, put_world in *.

Section frames_of_calls.
Context `{Runtime}.

(** The calls of the credential store and of the resolver leave the
    collections alone. *)
Lemma auth_call_data (c : call) (w : world) :
  match c with
  | Signup _ _ _ _ | Login _ _ _ | MarkAccountActive _
  | EnsureAdminUser _ _ _ | GetCurrentUser _ => True
  | _ => False
  end →
  data_json (run_call c w) = data_json w.
Proof.
  destruct c; try done; intros _; simpl.
  - rewrite signup_eq. repeat case_match; simpl; by frame.
  - rewrite login_eq. repeat case_match; simpl; by frame.
  - unfold LocalAuth.mark_account_active. rewrite load_users_eq.
    case_match; by frame.
  - unfold LocalAuth.ensure_admin_user. rewrite load_users_eq.
    repeat case_match; simpl; by frame.
  - unfold Auth.get_current_user. unfold_m.
    repeat case_match; simplify_eq/=; try done;
      rewrite load_users_eq in *; simplify_eq/=; by frame.
Qed.

(** The calls of the store and of the routes leave the accounts and the
    tokens alone. *)
Lemma store_call_auth (c : call) (w : world) :
  match c with
  | Signup _ _ _ _ | Login _ _ _ | MarkAccountActive _
  | EnsureAdminUser _ _ _ | GetCurrentUser _ => False
  | _ => True
  end →
  users_json (run_call c w) = users_json w
  ∧ tokens_json (run_call c w) = tokens_json w.
Proof.
  destruct c; try done; intros _; simpl;
    unfold LocalStorage.add_to, LocalStorage.add_bulk_to,
      LocalStorage.delete_from, LocalStorage.save_rules,
      LocalStorage.save_goals, Incomes.create_income,
      LocalStorage.add_income, LocalStorage.add_to, Goals.create_goal,
      Goals.add_money;
    unfold_m; simpl; repeat case_match; simplify_eq/=; frame; try done;
    unfold Goals._seed_demo_goals; by destruct (demo_goals w).
Qed.

End frames_of_calls.

(** ** C10: the key of the partition on every stored record *)

Section ownership.
Context `{Runtime}.
Import LocalStorage.

Lemma data_type_of_collection (c : appendable) : data_type_of c ∈ collections.
Proof. destruct c; unfold collections; set_solver. Qed.

Lemma load_after_save (u t u' t' : string) (l : list record) (w : world) :
  t ∈ collections → t' ∈ collections →
  _load_data u' t' (_save_data u t l w)
  = if decide (u = u' ∧ t = t') then l else _load_data u' t' w.
Proof.
  intros Ht Ht'. case_decide as Hk.
  - destruct Hk as [-> ->]. apply load_save.
  - apply load_save_other. intros Heq. apply Hk.
    by apply user_file_inj.
Qed.

Lemma owned_by_stamp (u : string) (now : nat → string) (l : list record) :
  owned_by u (imap (λ i r, stamp u (now i) r) l).
Proof.
  apply Forall_lookup. intros i r Hr.
  rewrite list_lookup_imap in Hr.
  destruct (l !! i); simplify_eq/=. apply stamp_user_id.
Qed.

Lemma owned_by_filter (u : string) (f : record → bool) (l : list record) :
  owned_by u l → owned_by u (List.filter f l).
Proof.
  unfold owned_by. induction 1 as [|r l Hr Hl IH]; simpl; [constructor|].
  destruct (f r); [by constructor|done].
Qed.

Lemma store_owned_save (u t : string) (l : list record) (w : world) :
  t ∈ collections →
  (∀ c, t = data_type_of c → owned_by u l) →
  store_owned w → store_owned (_save_data u t l w).
Proof.
  intros Ht Hl Hw u' c.
  rewrite load_after_save by (done || apply data_type_of_collection).
  case_decide as Hk; [|apply Hw]. destruct Hk as [-> ->]. by eapply Hl.
Qed.

Lemma store_owned_ext (w w' : world) :
  data_json w' = data_json w → store_owned w → store_owned w'.
Proof. intros Hd Hw u c. rewrite (load_data_ext _ _ w w') by done. apply Hw. Qed.

Lemma store_owned_step (c : call) (w : world) :
  store_owned w → store_owned (run_call c w).
Proof.
  intros Hw.
  destruct c as [d e p n|t e p|e|i s n|cr|c now u r|c now u l|c u rid
                |u rules|u goals|uuid now body user
                |uuid now su sn body user|uuid now gid body user].
  1-5: by (eapply store_owned_ext; [apply auth_call_data|]).
  - simpl. unfold add_to. simpl.
    apply store_owned_save; [apply data_type_of_collection| |done].
    intros c' _. apply Forall_app. split; [apply Hw|].
    apply Forall_singleton, stamp_user_id.
  - simpl. unfold add_bulk_to. destruct l as [|r l]; [done|]. simpl.
    apply store_owned_save; [apply data_type_of_collection| |done].
    intros c' _. apply Forall_app. split; [apply Hw|].
    apply (owned_by_stamp u now (r :: l)).
  - simpl. unfold delete_from. case_decide; [|done]. simpl.
    apply store_owned_save; [apply data_type_of_collection| |done].
    intros c' _. apply owned_by_filter, Hw.
  - simpl. apply store_owned_save; [unfold collections; set_solver| |done].
    by intros [].
  - simpl. apply store_owned_save; [unfold collections; set_solver| |done].
    by intros [].
  - simpl. unfold Incomes.create_income, add_income, add_to. unfold_m. simpl.
    apply store_owned_save; [unfold collections; set_solver| |done].
    intros c' _. apply Forall_app. split; [apply (Hw _ incomes)|].
    apply Forall_singleton, stamp_user_id.
  - simpl. unfold Goals.create_goal, save_goals. unfold_m.
    destruct (Auth.is_demo user); simpl.
    + eapply store_owned_ext; [|done]. simpl.
      unfold Goals._seed_demo_goals. by destruct (demo_goals w).
    + apply store_owned_save; [unfold collections; set_solver| |done].
      by intros [].
  - simpl. unfold Goals.add_money, save_goals. unfold_m.
    destruct (Auth.is_demo user); simpl.
    + repeat case_match; simplify_eq/=;
        (eapply store_owned_ext; [|done]); simpl;
        unfold Goals._seed_demo_goals; by destruct (demo_goals w).
    + repeat case_match; simplify_eq/=; try done.
      apply store_owned_save; [unfold collections; set_solver| |done].
      by intros [].
Qed.

Lemma store_owned_run (cs : list call) (w : world) :
  store_owned w → store_owned (run cs w).
Proof.
  revert w. induction cs as [|c cs IH]; intros w Hw; [done|].
  simpl. apply IH. by apply store_owned_step.
Qed.

Lemma store_owned_empty : store_owned empty_world.
Proof. intros u c. unfold _load_data. simpl. rewrite lookup_empty. constructor. Qed.

End ownership.

(** C10.  [add_to] and [add_bulk_to], the code of [add_income],
    [add_expense], [add_incomes_bulk] and [add_expenses_bulk], set
    ["user_id"] to the key of the partition on every record they store,
    whatever the record carried; and in every state that is reached from
    the empty data directory by calls into the layer, each record listed
    for a user from incomes or from expenses carries that user's id. *)
Theorem partition_key_overwritten `{Runtime} (data_type now user_id : string)
    (r : record) (w : world) :
  (LocalStorage.add_to data_type now user_id r w).1 !! "user_id"
    = Some (VStr user_id)
  ∧ (∃ before,
       LocalStorage._load_data user_id data_type
         (LocalStorage.add_to data_type now user_id r w).2 = before ++ [LocalStorage.stamp user_id now r]
       ∧ LocalStorage.stamp user_id now r !! "user_id" = Some (VStr user_id))
  ∧ (∀ (nows : nat → string) (new_items : list record),
       ∃ stored,
         LocalStorage._load_data user_id data_type
           (LocalStorage.add_bulk_to data_type nows user_id new_items w).2
         = LocalStorage._load_data user_id data_type w ++ stored
         ∧ length stored = length new_items
         ∧ owned_by user_id stored)
  ∧ (∀ (cs : list call) (u : string),
       owned_by u (LocalStorage.get_incomes u (run cs empty_world))
       ∧ owned_by u (LocalStorage.get_expenses u (run cs empty_world))).
Proof.
  split; [apply stamp_user_id|]. split.
  { eexists. split; [apply add_to_list|apply stamp_user_id]. }
  split.
  - intros nows new_items. eexists. split; [apply add_bulk_to_list|].
    split; [by rewrite length_imap|apply owned_by_stamp].
  - intros cs u.
    pose proof (store_owned_run cs empty_world store_owned_empty) as Hrun.
    split; [apply (Hrun u incomes)|apply (Hrun u expenses)].
Qed.

(** ** Normalising an e-mail address *)

Section normalize_facts.
Import PyStr.

Lemma isspace_lower_char (c : ascii) : isspace (lower_char c) = isspace c.
Proof. by destruct c as [[] [] [] [] [] [] [] []]. Qed.

Lemma lower_char_idem (c : ascii) : lower_char (lower_char c) = lower_char c.
Proof. by destruct c as [[] [] [] [] [] [] [] []]. Qed.

Lemma lower_idem (s : string) : lower (lower s) = lower s.
Proof. induction s as [|c s IH]; simpl; [done|]. by rewrite lower_char_idem, IH. Qed.

Lemma lower_lstrip (s : string) : lower (lstrip s) = lstrip (lower s).
Proof.
  induction s as [|c s IH]; simpl; [done|].
  rewrite isspace_lower_char. by destruct (isspace c).
Qed.

Lemma lower_rstrip (s : string) : lower (rstrip s) = rstrip (lower s).
Proof.
  induction s as [|c s IH]; simpl; [done|].
  rewrite <- IH, isspace_lower_char.
  destruct (rstrip s); simpl; [by destruct (isspace c)|done].
Qed.

Lemma lower_strip (s : string) : lower (strip s) = strip (lower s).
Proof. unfold strip. by rewrite lower_rstrip, lower_lstrip. Qed.

Lemma lstrip_no_lead (s : string) : no_lead (lstrip s).
Proof.
  induction s as [|c s IH]; simpl; [done|].
  by destruct (isspace c) eqn:E.
Qed.

Lemma no_lead_lstrip (s : string) : no_lead s → lstrip s = s.
Proof. destruct s as [|c s]; simpl; [done|]. by intros ->. Qed.

Lemma rstrip_no_lead (s : string) : no_lead s → no_lead (rstrip s).
Proof.
  destruct s as [|c s]; simpl; [done|]. intros Hc.
  destruct (rstrip s); simpl; [by rewrite Hc|done].
Qed.

Lemma rstrip_idem (s : string) : rstrip (rstrip s) = rstrip s.
Proof.
  induction s as [|c s IH]; simpl; [done|].
  destruct (rstrip s) as [|c' r] eqn:E.
  - destruct (isspace c) eqn:Ec; simpl; [done|by rewrite Ec].
  - simpl in *. by rewrite IH.
Qed.

Lemma strip_idem (s : string) : strip (strip s) = strip s.
Proof.
  unfold strip.
  rewrite (no_lead_lstrip (rstrip (lstrip s))).
  - apply rstrip_idem.
  - apply rstrip_no_lead, lstrip_no_lead.
Qed.

Lemma normalize_idem (email : string) :
  normalize (normalize email) = normalize email.
Proof.
  unfold normalize. by rewrite lower_strip, lower_idem, strip_idem.
Qed.

Lemma validate_email_normalize (email : string) :
  LocalAuth.validate_email (normalize email) = LocalAuth.validate_email email.
Proof.
  unfold LocalAuth.validate_email. fold (normalize (normalize email)).
  fold (normalize email). by rewrite normalize_idem.
Qed.

Lemma validate_email_nonempty (email : string) (msg : string) :
  LocalAuth.validate_email email = Ok (true, msg) → normalize email ≠ "".
Proof.
  intros Hv Hn. rewrite <- validate_email_normalize, Hn in Hv.
  by vm_compute in Hv.
Qed.

End normalize_facts.

(** ** What a call keeps: accounts and tokens *)

Section kept.
Context `{Runtime}.

Lemma same_credentials_refl (a : account) : same_credentials a a.
Proof. done. Qed.

Lemma same_credentials_trans (a b c : account) :
  same_credentials a b → same_credentials b c → same_credentials a c.
Proof. unfold same_credentials. intros (?&?&?) (?&?&?). split_and!; congruence. Qed.

Lemma accounts_register_token (t e : string) (w : world) :
  accounts (TokenRegistry.register_local_token t e w) = accounts w.
Proof. by apply accounts_ext. Qed.

Lemma tokens_ensure_data_dir (w : world) :
  tokens (LocalAuth._ensure_data_dir w) = tokens w.
Proof. apply tokens_ext, ensure_data_dir_tokens. Qed.

Lemma tokens_save_users (users : ODict.t account) (w : world) :
  tokens (LocalAuth._save_users users w) = tokens w.
Proof. apply tokens_ext, save_users_tokens. Qed.

(** The accounts after each call of the credential store. *)
Lemma accounts_mark_account_active (email : string) (w : world) :
  accounts (LocalAuth.mark_account_active email w)
  = match ODict.get (accounts w) (normalize email) with
    | Some a => ODict.set (accounts w) (normalize email)
                  (LocalAuth.set_is_new_account false a)
    | None => accounts w
    end.
Proof.
  unfold LocalAuth.mark_account_active. rewrite load_users_eq.
  fold (normalize email). destruct (ODict.get _ _).
  - apply save_users_accounts.
  - apply ensure_data_dir_accounts.
Qed.

(** An account, once stored, stays stored with its id, hash and salt. *)
Lemma account_kept (c : call) (w : world) (e : string) (a : account) :
  ODict.get (accounts w) e = Some a →
  ∃ a', ODict.get (accounts (run_call c w)) e = Some a' ∧ same_credentials a a'.
Proof.
  intros Ha.
  assert (Hsame : ∀ w', accounts w' = accounts w →
    ∃ a', ODict.get (accounts w') e = Some a' ∧ same_credentials a a').
  { intros w' ->. by exists a. }
  destruct c as [d e' p n|t e' p|e'|i s n|cr|c now u r|c now u l|c u rid
                |u rules|u goals|uuid now body user
                |uuid now su sn body user|uuid now gid body user].
  - simpl. rewrite signup_eq.
    repeat case_match; simpl; try (by apply Hsame);
      try (apply Hsame, ensure_data_dir_accounts).
    rewrite save_users_accounts.
    destruct (decide (normalize e' = e)) as [<-|Hk];
      [|rewrite odict_get_set_ne by done; by apply Hsame].
    exfalso.
    match goal with Hn : ¬ is_Some _ |- _ => apply Hn; rewrite Ha; eauto end.
  - simpl. rewrite login_eq.
    repeat case_match; simpl; apply Hsame;
      rewrite ?accounts_register_token; apply ensure_data_dir_accounts.
  - simpl. rewrite accounts_mark_account_active.
    destruct (ODict.get (accounts w) (normalize e')) as [a0|] eqn:E; [|by apply Hsame].
    destruct (decide (normalize e' = e)) as [<-|Hk];
      [|rewrite odict_get_set_ne by done; by apply Hsame].
    rewrite odict_get_set_eq. rewrite Ha in E. simplify_eq. by eexists.
  - simpl. unfold LocalAuth.ensure_admin_user. rewrite load_users_eq.
    rewrite ensure_data_dir_accounts.
    destruct (ODict.get (accounts w) "admin@incomiq.com") as [a0|] eqn:E.
    + destruct (negb _); simpl.
      * rewrite save_users_accounts.
        destruct (decide ("admin@incomiq.com" = e)) as [<-|Hk];
          [|rewrite odict_get_set_ne by done; by apply Hsame].
        rewrite odict_get_set_eq. rewrite Ha in E. simplify_eq. by eexists.
      * apply Hsame. by rewrite !ensure_data_dir_accounts.
    + simpl. rewrite save_users_accounts.
      destruct (decide ("admin@incomiq.com" = e)) as [<-|Hk];
        [congruence|rewrite odict_get_set_ne by done; by apply Hsame].
  - simpl. unfold Auth.get_current_user. unfold_m.
    repeat case_match; simplify_eq/=; try (by apply Hsame);
      rewrite load_users_eq in *; simplify_eq/=;
      apply Hsame, ensure_data_dir_accounts.
  - apply Hsame, accounts_ext. by apply (store_call_auth (Add c now u r)).
  - apply Hsame, accounts_ext. by apply (store_call_auth (AddBulk c now u l)).
  - apply Hsame, accounts_ext. by apply (store_call_auth (Delete c u rid)).
  - apply Hsame, accounts_ext. by apply (store_call_auth (SaveRules u rules)).
  - apply Hsame, accounts_ext. by apply (store_call_auth (SaveGoals u goals)).
  - apply Hsame, accounts_ext.
    by apply (store_call_auth (CreateIncome uuid now body user)).
  - apply Hsame, accounts_ext.
    by apply (store_call_auth (CreateGoal uuid now su sn body user)).
  - apply Hsame, accounts_ext.
    by apply (store_call_auth (AddMoney uuid now gid body user)).
Qed.

Lemma account_kept_run (cs : list call) (w : world) (e : string) (a : account) :
  ODict.get (accounts w) e = Some a →
  ∃ a', ODict.get (accounts (run cs w)) e = Some a' ∧ same_credentials a a'.
Proof.
  revert w a. induction cs as [|c cs IH]; intros w a Ha; [by exists a|].
  simpl. destruct (account_kept c w e a Ha) as (a1 & Ha1 & Hs1).
  destruct (IH _ _ Ha1) as (a2 & Ha2 & Hs2).
  exists a2. split; [done|]. by eapply same_credentials_trans.
Qed.

(** [users.json], once written, stays in place. *)
Lemma users_file_kept (c : call) (w : world) :
  is_Some (users_json w) → is_Some (users_json (run_call c w)).
Proof.
  intros Hw.
  assert (He : LocalAuth._ensure_data_dir w = w)
    by by apply ensure_data_dir_present.
  destruct c as [d e' p n|t e' p|e'|i s n|cr|c now u r|c now u l|c u rid
                |u rules|u goals|uuid now body user
                |uuid now su sn body user|uuid now gid body user].
  - simpl. rewrite signup_eq. rewrite He. repeat case_match; simpl; eauto.
  - simpl. rewrite login_eq. rewrite He. repeat case_match; simpl; eauto.
  - simpl. unfold LocalAuth.mark_account_active. rewrite load_users_eq, He.
    case_match; simpl; eauto.
  - simpl. unfold LocalAuth.ensure_admin_user. rewrite load_users_eq, !He.
    repeat case_match; simpl; eauto.
  - simpl. unfold Auth.get_current_user. unfold_m.
    repeat case_match; simplify_eq/=; try done;
      rewrite load_users_eq, He in *; by simplify_eq/=.
  - by rewrite (proj1 (store_call_auth (Add c now u r) w I)).
  - by rewrite (proj1 (store_call_auth (AddBulk c now u l) w I)).
  - by rewrite (proj1 (store_call_auth (Delete c u rid) w I)).
  - by rewrite (proj1 (store_call_auth (SaveRules u rules) w I)).
  - by rewrite (proj1 (store_call_auth (SaveGoals u goals) w I)).
  - by rewrite (proj1 (store_call_auth (CreateIncome uuid now body user) w I)).
  - by rewrite (proj1 (store_call_auth (CreateGoal uuid now su sn body user) w I)).
  - by rewrite (proj1 (store_call_auth (AddMoney uuid now gid body user) w I)).
Qed.

Lemma users_file_kept_run (cs : list call) (w : world) :
  is_Some (users_json w) → is_Some (users_json (run cs w)).
Proof.
  revert w. induction cs as [|c cs IH]; intros w Hw; [done|].
  simpl. by apply IH, users_file_kept.
Qed.

(** A token stays mapped to its e-mail unless a later call draws it
    again. *)
Lemma token_kept (c : call) (w : world) (t e : string) :
  tokens w !! t = Some e → token_of c ≠ Some t →
  tokens (run_call c w) !! t = Some e.
Proof.
  intros Ht Hc.
  assert (Hsame : ∀ w', tokens w' = tokens w → tokens w' !! t = Some e)
    by by intros w' ->.
  destruct c as [d e' p n|t' e' p|e'|i s n|cr|c now u r|c now u l|c u rid
                |u rules|u goals|uuid now body user
                |uuid now su sn body user|uuid now gid body user].
  - simpl in *. rewrite signup_eq.
    repeat case_match; simpl; try (by apply Hsame);
      try (apply Hsame, tokens_ensure_data_dir).
    rewrite tokens_save_users, register_token_tokens, tokens_ensure_data_dir.
    rewrite lookup_insert_ne; [done|congruence].
  - simpl in *. rewrite login_eq.
    repeat case_match; simpl; try (apply Hsame, tokens_ensure_data_dir).
    rewrite register_token_tokens, tokens_ensure_data_dir.
    rewrite lookup_insert_ne; [done|congruence].
  - simpl. unfold LocalAuth.mark_account_active. rewrite load_users_eq.
    case_match; apply Hsame;
      rewrite ?tokens_save_users; apply tokens_ensure_data_dir.
  - simpl. unfold LocalAuth.ensure_admin_user. rewrite load_users_eq.
    repeat case_match; simpl; apply Hsame;
      rewrite ?tokens_save_users, ?tokens_ensure_data_dir; done.
  - simpl. unfold Auth.get_current_user. unfold_m.
    repeat case_match; simplify_eq/=; try (by apply Hsame);
      rewrite load_users_eq in *; simplify_eq/=;
      apply Hsame, tokens_ensure_data_dir.
  - apply Hsame, tokens_ext. by apply (store_call_auth (Add c now u r)).
  - apply Hsame, tokens_ext. by apply (store_call_auth (AddBulk c now u l)).
  - apply Hsame, tokens_ext. by apply (store_call_auth (Delete c u rid)).
  - apply Hsame, tokens_ext. by apply (store_call_auth (SaveRules u rules)).
  - apply Hsame, tokens_ext. by apply (store_call_auth (SaveGoals u goals)).
  - apply Hsame, tokens_ext.
    by apply (store_call_auth (CreateIncome uuid now body user)).
  - apply Hsame, tokens_ext.
    by apply (store_call_auth (CreateGoal uuid now su sn body user)).
  - apply Hsame, tokens_ext.
    by apply (store_call_auth (AddMoney uuid now gid body user)).
Qed.

Lemma token_kept_run (cs : list call) (w : world) (t e : string) :
  tokens w !! t = Some e → Forall (λ c, token_of c ≠ Some t) cs →
  tokens (run cs w) !! t = Some e.
Proof.
  revert w. induction cs as [|c cs IH]; intros w Ht Hcs; [done|].
  apply Forall_cons_1 in Hcs as [Hc Hcs]. simpl.
  apply IH; [|done]. by apply token_kept.
Qed.

End kept.

(** ** C1: one account per e-mail address *)

(** C1 as it is stated fails on the code.  A password of six code points
    that begins with the lone surrogate U+D800 passes the check of the
    length, as the e-mail and the name pass theirs, and the first [signup]
    still fails: [password.encode()] raises [UnicodeEncodeError] and no
    account is stored.  A second [signup] for the same e-mail then succeeds
    instead of meeting a duplicate. *)
Lemma signup_refuses_unencodable_password :
  let p : PyText.text := [55296; 97; 98; 99; 100; 101]%N in
  let first := LocalAuth.signup (H := sample_runtime) (sample_draws "1")
                 "new.user@gmail.com" p "New User" empty_world in
  let second := LocalAuth.signup (H := sample_runtime) (sample_draws "2")
                  "New.User@gmail.com" (PyText.of_str "secret2") "New User"
                  first.2 in
  LocalAuth.validate_email "new.user@gmail.com" = Ok (true, "")
  ∧ 6 ≤ PyText.len p
  ∧ name_accepted "New User"
  ∧ ODict.get (accounts empty_world) (normalize "new.user@gmail.com") = None
  ∧ first.1 = Raise (UnicodeEncodeError p 0)
  ∧ accounts first.2 = []
  ∧ ∃ s2, second.1 = Ok s2.
Proof.
  cbv zeta. split; [vm_compute; reflexivity|].
  split; [vm_compute; lia|].
  split; [split; [discriminate|vm_compute; lia]|].
  split; [vm_compute; reflexivity|].
  split; [vm_compute; reflexivity|].
  split; [vm_compute; reflexivity|].
  eexists. vm_compute. reflexivity.
Qed.

(** C1, amended.  Take two calls of [signup] whose e-mails are equal after
    lower-casing and trimming, with an accepted e-mail, passwords of at
    least six code points, the first of which UTF-8 can encode, and
    accepted names, the first call made in a state that has no account for
    the e-mail.  The first call succeeds and stores the account with
    [is_new_account] true and the hash of the encoded password.  The second
    call, made right after or after any further calls into the layer,
    raises the error of a duplicate account and leaves the state as it
    was. *)
Theorem signup_once `{Runtime} (d1 d2 : LocalAuth.signup_draws)
    (e1 e2 : string) (p1 p2 : PyText.text) (b1 : string) (n1 n2 : string)
    (cs : list call) (w : world) :
  normalize e1 = normalize e2 →
  LocalAuth.validate_email e1 = Ok (true, "") →
  6 ≤ PyText.len p1 → 6 ≤ PyText.len p2 →
  PyText.encode p1 = inr b1 →
  name_accepted n1 → name_accepted n2 →
  ODict.get (accounts w) (normalize e1) = None →
  ∃ s1 w1 a,
    LocalAuth.signup d1 e1 p1 n1 w = (Ok s1, w1)
    ∧ LocalAuth.access_token s1 = LocalAuth.draw_token d1
    ∧ LocalAuth.ui_id (LocalAuth.user s1) = LocalAuth.draw_user_id d1
    ∧ LocalAuth.ui_isNewAccount (LocalAuth.user s1) = true
    ∧ ODict.get (accounts w1) (normalize e1) = Some a
    ∧ acc_id a = LocalAuth.draw_user_id d1
    ∧ acc_is_new_account a = Some true
    ∧ acc_password_hash a
      = pbkdf2_hmac_sha256_hex b1 (LocalAuth.draw_salt d1)
    ∧ LocalAuth.signup d2 e2 p2 n2 (run cs w1)
      = (Raise (ValueError "An account with this email already exists"),
         run cs w1).
Proof.
  intros Hnorm Hvalid Hp1 Hp2 Hb1 [Hn1 Hl1] [Hn2 Hl2] Hfree.
  assert (Hname : ∀ n, n ≠ "" → 2 ≤ PyStr.len (PyStr.strip n) →
    bool_decide (n = "") || bool_decide (PyStr.len (PyStr.strip n) < 2) = false).
  { intros n Hn Hl. rewrite bool_decide_eq_false_2 by done.
    rewrite bool_decide_eq_false_2 by lia. done. }
  rewrite signup_eq, validate_email_normalize, Hvalid.
  rewrite decide_False by lia. rewrite Hname by done.
  rewrite Hfree. rewrite decide_False by (by intros [? ?]). rewrite Hb1.
  eexists _, _, _. split; [reflexivity|].
  split; [done|]. split; [done|]. split; [done|].
  split; [by rewrite save_users_accounts, odict_get_set_eq|].
  split; [done|]. split; [done|]. split; [done|].
  match goal with |- context [run cs ?w1] => set (w1' := w1) end.
  assert (Hstored : ∃ a, ODict.get (accounts w1') (normalize e1) = Some a).
  { eexists. subst w1'. by rewrite save_users_accounts, odict_get_set_eq. }
  destruct Hstored as (a & Ha).
  destruct (account_kept_run cs w1' _ a Ha) as (a' & Ha' & _).
  assert (Hfile : is_Some (users_json (run cs w1'))).
  { apply users_file_kept_run. subst w1'. rewrite save_users_users. eauto. }
  rewrite signup_eq, <- Hnorm, validate_email_normalize, Hvalid.
  rewrite decide_False by lia. rewrite Hname by done.
  rewrite Ha'. rewrite decide_True by eauto.
  by rewrite ensure_data_dir_present.
Qed.

Lemma signup_once_witness :
  ∃ s1 w1,
    LocalAuth.signup (H := sample_runtime) (sample_draws "1")
      " New.User@Gmail.com" (PyText.of_str "secret1") "New User" empty_world
    = (Ok s1, w1)
    ∧ LocalAuth.ui_isNewAccount (LocalAuth.user s1) = true
    ∧ LocalAuth.signup (H := sample_runtime) (sample_draws "2")
        "new.user@gmail.com" (PyText.of_str "secret2") "N U"
        (run (H := sample_runtime)
           [Login "tokL_Zk3vQ9xL2mN8pR4sT6uW0yB1cD5eF7gH9jK"
              "new.user@gmail.com" (PyText.of_str "secret1")] w1)
      = (Raise (ValueError "An account with this email already exists"),
         run (H := sample_runtime)
           [Login "tokL_Zk3vQ9xL2mN8pR4sT6uW0yB1cD5eF7gH9jK"
              "new.user@gmail.com" (PyText.of_str "secret1")] w1).
Proof.
  destruct (@signup_once sample_runtime (sample_draws "1") (sample_draws "2")
    " New.User@Gmail.com" "new.user@gmail.com"
    (PyText.of_str "secret1") (PyText.of_str "secret2") "secret1"
    "New User" "N U"
    [Login "tokL_Zk3vQ9xL2mN8pR4sT6uW0yB1cD5eF7gH9jK"
       "new.user@gmail.com" (PyText.of_str "secret1")]
    empty_world)
    as (s1 & w1 & a & Hs & _ & _ & Hnew & _ & _ & _ & _ & Hdup).
  - vm_compute. reflexivity.
  - vm_compute. reflexivity.
  - vm_compute. lia.
  - vm_compute. lia.
  - vm_compute. reflexivity.
  - split; [discriminate|vm_compute; lia].
  - split; [discriminate|vm_compute; lia].
  - vm_compute. reflexivity.
  - exists s1, w1. split; [exact Hs|]. split; [exact Hnew|exact Hdup].
Defined.

(** ** C3: the errors of a failed login *)

(** C3 fails on the code.  [login] hashes the password only when the e-mail
    has an account, and [password.encode()] raises on a password that holds
    a lone surrogate.  With such a password the error for the e-mail of an
    account is the [UnicodeEncodeError], and the error for an e-mail without
    an account is the [ValueError] "Invalid email or password"; the route
    answers 401 to both, with the text of the one and of the other. *)
Theorem login_error_tells_accounts_apart `{Runtime} :
  let p : PyText.text := [55296; 97; 98; 99; 100; 101]%N in
  let w := (LocalAuth.signup (sample_draws "1") "new.user@gmail.com"
              (PyText.of_str "secret1") "New User" empty_world).2 in
  is_Some (ODict.get (accounts w) "new.user@gmail.com")
  ∧ ODict.get (accounts w) "nobody@gmail.com" = None
  ∧ (LocalAuth.login "t" "new.user@gmail.com" p w).1
    = Raise (UnicodeEncodeError p 0)
  ∧ (LocalAuth.login "t" "nobody@gmail.com" p w).1
    = Raise (ValueError "Invalid email or password")
  ∧ (AuthRoutes.login "t" "new.user@gmail.com" p w).1
    = Raise (HTTPException 401 (exn_str (UnicodeEncodeError p 0)))
  ∧ (AuthRoutes.login "t" "nobody@gmail.com" p w).1
    = Raise (HTTPException 401 "Invalid email or password").
Proof.
  cbv zeta.
  assert (Hv : LocalAuth.validate_email (normalize "new.user@gmail.com")
               = Ok (true, "")) by (vm_compute; reflexivity).
  assert (He : PyText.encode (PyText.of_str "secret1") = inr "secret1")
    by (vm_compute; reflexivity).
  assert (Hp : PyText.encode [55296; 97; 98; 99; 100; 101]%N = inl 0)
    by (vm_compute; reflexivity).
  assert (Hn1 : normalize "new.user@gmail.com" = "new.user@gmail.com")
    by (vm_compute; reflexivity).
  assert (Hn2 : normalize "nobody@gmail.com" = "nobody@gmail.com")
    by (vm_compute; reflexivity).
  rewrite signup_eq, Hv, He, Hn1.
  rewrite decide_False by (vm_compute; lia).
  replace (bool_decide ("New User" = "")
           || bool_decide (PyStr.len (PyStr.strip "New User") < 2))
    with false by (vm_compute; reflexivity).
  replace (accounts empty_world) with ([] : ODict.t account)
    by (vm_compute; reflexivity).
  rewrite decide_False by (by intros [? ?]). cbn [snd].
  set (w := LocalAuth._save_users _ _).
  assert (Ha : ∃ a, ODict.get (accounts w) "new.user@gmail.com" = Some a).
  { eexists. subst w. rewrite save_users_accounts. by rewrite odict_get_set_eq. }
  assert (Hb : ODict.get (accounts w) "nobody@gmail.com" = None).
  { subst w. rewrite save_users_accounts. by rewrite odict_get_set_ne. }
  destruct Ha as (a & Ha).
  split; [eauto|]. split; [done|].
  unfold AuthRoutes.login.
  rewrite !login_eq, Hn1, Hn2, Ha, Hb, Hp. done.
Qed.

(** What holds of the two errors: [login] with an e-mail that has no
    account and [login] with a password that UTF-8 can encode and that does
    not hash to the stored hash of an account both raise, with the same
    error value; neither registers a token nor changes an account. *)
Lemma login_failure_uniform `{Runtime} (t1 t2 e1 e2 : string)
    (p1 p2 : PyText.text) (b2 : string) (w1 w2 : world) (a : account) :
  ODict.get (accounts w1) (normalize e1) = None →
  ODict.get (accounts w2) (normalize e2) = Some a →
  PyText.encode p2 = inr b2 →
  pbkdf2_hmac_sha256_hex b2 (acc_password_salt a) ≠ acc_password_hash a →
  let unknown := LocalAuth.login t1 e1 p1 w1 in
  let wrong := LocalAuth.login t2 e2 p2 w2 in
  unknown.1 = Raise (ValueError "Invalid email or password")
  ∧ wrong.1 = unknown.1
  ∧ tokens unknown.2 = tokens w1 ∧ accounts unknown.2 = accounts w1
  ∧ tokens wrong.2 = tokens w2 ∧ accounts wrong.2 = accounts w2.
Proof.
  intros Hnone Hsome Hb2 Hbad. cbv zeta.
  rewrite !login_eq, Hnone, Hsome, Hb2.
  rewrite bool_decide_eq_false_2 by done. simpl.
  rewrite !tokens_ensure_data_dir, !ensure_data_dir_accounts. done.
Qed.

(** ** C4: logging in after signing up *)

(** What a successful [signup] leaves behind. *)
Lemma signup_ok_inv `{Runtime} (d : LocalAuth.signup_draws) (e : string)
    (p : PyText.text) (n : string) (w : world) (s1 : LocalAuth.session)
    (w1 : world) :
  LocalAuth.signup d e p n w = (Ok s1, w1) →
  normalize e ≠ ""
  ∧ LocalAuth.access_token s1 = LocalAuth.draw_token d
  ∧ LocalAuth.ui_id (LocalAuth.user s1) = LocalAuth.draw_user_id d
  ∧ tokens w1 !! LocalAuth.draw_token d = Some (normalize e)
  ∧ ∃ a b, ODict.get (accounts w1) (normalize e) = Some a
      ∧ acc_id a = LocalAuth.draw_user_id d
      ∧ PyText.encode p = inr b
      ∧ acc_password_hash a = pbkdf2_hmac_sha256_hex b (LocalAuth.draw_salt d)
      ∧ acc_password_salt a = LocalAuth.draw_salt d
      ∧ acc_is_new_account a = Some true.
Proof.
  intros Hsignup. rewrite signup_eq in Hsignup.
  destruct (LocalAuth.validate_email (normalize e)) as [[[] msg]|] eqn:Hvalid;
    [|done|done].
  assert (Hne : normalize e ≠ "").
  { rewrite validate_email_normalize in Hvalid.
    by eapply validate_email_nonempty. }
  repeat case_match; simplify_eq.
  split; [done|]. split; [done|]. split; [done|]. split.
  - rewrite tokens_save_users, register_token_tokens. apply lookup_insert_eq.
  - eexists _, _. by rewrite save_users_accounts, odict_get_set_eq.
Qed.

(** C4 as it is stated fails on the code.  [login] returns whatever
    [_generate_token] draws and [register_local_token] writes it over the
    entry that the registry holds: nothing in the code compares the new
    token with the old ones.  When the login of the account draws the token
    of its signup again, the token returned is not distinct from it; and
    when the login of an other account draws it, the token of the signup
    resolves to that other account from then on. *)
Lemma token_drawn_again :
  let d1 := sample_draws "1" in
  let d2 := sample_draws "2" in
  let T1 := LocalAuth.draw_token d1 in
  let w1 := (LocalAuth.signup (H := sample_runtime) d1 "new.user@gmail.com"
               (PyText.of_str "secret1") "New User" empty_world).2 in
  let again := LocalAuth.login (H := sample_runtime) T1 "new.user@gmail.com"
                 (PyText.of_str "secret1") w1 in
  let w2 := (LocalAuth.signup (H := sample_runtime) d2 "other.user@gmail.com"
               (PyText.of_str "secret2") "Other User" w1).2 in
  let taken := LocalAuth.login (H := sample_runtime) T1 "other.user@gmail.com"
                 (PyText.of_str "secret2") w2 in
  (∃ i, (Auth.get_current_user (Some T1) w1).1 = Ok i
        ∧ Auth.id i = LocalAuth.draw_user_id d1)
  ∧ (∃ s, again.1 = Ok s ∧ LocalAuth.access_token s = T1)
  ∧ (∃ s i, taken.1 = Ok s
            ∧ (Auth.get_current_user (Some T1) taken.2).1 = Ok i
            ∧ Auth.id i = LocalAuth.draw_user_id d2
            ∧ Auth.id i ≠ LocalAuth.draw_user_id d1).
Proof.
  cbv zeta. split; [|split].
  - eexists. split; vm_compute; reflexivity.
  - eexists. split; vm_compute; reflexivity.
  - eexists _, _. split; [vm_compute; reflexivity|].
    split; [vm_compute; reflexivity|].
    split; [vm_compute; reflexivity|].
    vm_compute. discriminate.
Qed.

(** C4, amended.  An account is created by [signup] with the token [T1];
    calls into the layer follow, none of which draws [T1] again; then
    [login] is made with the e-mail and the password of the account and
    draws a token [T2] that the registry does not hold; further calls
    follow that draw neither token.  Tokens are as [_generate_token] makes
    them, longer than 20 characters.  Then the login succeeds and returns
    [T2], [T2] differs from [T1], and [get_current_user] resolves both
    tokens to an identity whose id is the account id that [signup]
    returned. *)
Theorem login_after_signup `{Runtime} (d : LocalAuth.signup_draws)
    (e e' : string) (p : PyText.text) (n T2 : string) (cs cs' : list call)
    (w : world) (s1 : LocalAuth.session) (w1 : world) :
  LocalAuth.signup d e p n w = (Ok s1, w1) →
  normalize e' = normalize e →
  20 < PyStr.len (LocalAuth.draw_token d) → 20 < PyStr.len T2 →
  Forall (λ c, token_of c ≠ Some (LocalAuth.draw_token d)) cs →
  tokens (run cs w1) !! T2 = None →
  Forall (λ c, token_of c ≠ Some (LocalAuth.access_token s1)
               ∧ token_of c ≠ Some T2) cs' →
  ∃ s2 w2 i1 i2,
    LocalAuth.login T2 e' p (run cs w1) = (Ok s2, w2)
    ∧ LocalAuth.access_token s2 = T2
    ∧ LocalAuth.access_token s2 ≠ LocalAuth.access_token s1
    ∧ LocalAuth.ui_id (LocalAuth.user s2) = LocalAuth.ui_id (LocalAuth.user s1)
    ∧ (Auth.get_current_user (Some (LocalAuth.access_token s1)) (run cs' w2)).1 = Ok i1
    ∧ (Auth.get_current_user (Some (LocalAuth.access_token s2)) (run cs' w2)).1 = Ok i2
    ∧ Auth.id i1 = LocalAuth.ui_id (LocalAuth.user s1)
    ∧ Auth.id i2 = LocalAuth.ui_id (LocalAuth.user s1).
Proof.
  intros Hsignup Hnorm Hlen1 Hlen2 Hcs Hfresh Hcs'.
  destruct (signup_ok_inv _ _ _ _ _ _ _ Hsignup)
    as (Hne & HT1 & Hui & Htok1 & a & b & Ha & Hid & Hb & Hhash & Hsalt & _).
  rewrite HT1 in *. set (T1 := LocalAuth.draw_token d) in *.
  (* the state at the login *)
  destruct (account_kept_run cs w1 _ a Ha) as (a2 & Ha2 & Hid2 & Hhash2 & Hsalt2).
  pose proof (token_kept_run cs w1 T1 _ Htok1 Hcs) as Htok2.
  assert (HT : T2 ≠ T1) by (intros ->; congruence).
  rewrite login_eq, Hnorm, Ha2, Hb.
  rewrite bool_decide_eq_true_2 by congruence.
  set (w2 := TokenRegistry.register_local_token T2 (normalize e)
               (LocalAuth._ensure_data_dir (run cs w1))).
  assert (Ha3 : ODict.get (accounts w2) (normalize e) = Some a2).
  { subst w2. by rewrite accounts_register_token, ensure_data_dir_accounts. }
  assert (Htok3 : tokens w2 !! T1 = Some (normalize e)
                  ∧ tokens w2 !! T2 = Some (normalize e)).
  { subst w2. rewrite register_token_tokens, tokens_ensure_data_dir.
    rewrite lookup_insert_ne by done. by rewrite lookup_insert_eq. }
  destruct Htok3 as [Htok3 Htok3'].
  (* the state at the two resolutions *)
  destruct (account_kept_run cs' w2 _ a2 Ha3) as (a4 & Ha4 & Hid4 & _).
  assert (Hk1 : tokens (run cs' w2) !! T1 = Some (normalize e)).
  { apply token_kept_run; [done|]. eapply List.Forall_impl; [|exact Hcs']. by intros c [? ?]. }
  assert (Hk2 : tokens (run cs' w2) !! T2 = Some (normalize e)).
  { apply token_kept_run; [done|]. eapply List.Forall_impl; [|exact Hcs']. by intros c [? ?]. }
  assert (Hdemo : ∀ T, 20 < PyStr.len T → T ≠ "demo-token").
  { intros T HT' ->. vm_compute in HT'. lia. }
  eexists _, w2, _, _. split; [reflexivity|].
  cbn [LocalAuth.access_token LocalAuth.user LocalAuth.ui_id].
  split; [done|]. split; [done|]. split; [by rewrite Hid2, Hid, Hui|].
  rewrite !get_current_user_eq by auto.
  rewrite Hk1, Hk2, Ha4. rewrite bool_decide_eq_false_2 by done.
  cbn [fst Auth.id].
  split; [done|]. split; [done|]. by rewrite Hid4, Hid2, Hid, Hui.
Qed.

Lemma login_after_signup_witness :
  let w1 := (LocalAuth.signup (H := sample_runtime) (sample_draws "1")
               "new.user@gmail.com" (PyText.of_str "secret1") "New User"
               empty_world).2 in
  ∃ s2 w2 i1 i2,
    LocalAuth.login (H := sample_runtime) "tokL_Zk3vQ9xL2mN8pR4sT6uW0yB1cD5eF7gH9jK"
      " New.User@gmail.com" (PyText.of_str "secret1") w1 = (Ok s2, w2)
    ∧ LocalAuth.access_token s2 ≠ LocalAuth.draw_token (sample_draws "1")
    ∧ (Auth.get_current_user (Some (LocalAuth.draw_token (sample_draws "1"))) w2).1 = Ok i1
    ∧ (Auth.get_current_user (Some (LocalAuth.access_token s2)) w2).1 = Ok i2
    ∧ Auth.id i1 = Auth.id i2.
Proof.
  intros w1.
  destruct (@login_after_signup sample_runtime (sample_draws "1")
    "new.user@gmail.com" " New.User@gmail.com" (PyText.of_str "secret1")
    "New User"
    "tokL_Zk3vQ9xL2mN8pR4sT6uW0yB1cD5eF7gH9jK" [] []
    empty_world
    {| LocalAuth.access_token := LocalAuth.draw_token (sample_draws "1");
       LocalAuth.user :=
         {| LocalAuth.ui_id := LocalAuth.draw_user_id (sample_draws "1");
            LocalAuth.ui_email := "new.user@gmail.com";
            LocalAuth.ui_full_name := "New User";
            LocalAuth.ui_isNewAccount := true;
            LocalAuth.ui_isAdmin := None |};
       LocalAuth.message := Some "Account created successfully" |}
    w1)
    as (s2 & w2 & i1 & i2 & Hlogin & _ & Hne & _ & H1 & H2 & Hi1 & Hi2).
  - vm_compute. reflexivity.
  - vm_compute. reflexivity.
  - vm_compute. lia.
  - vm_compute. lia.
  - constructor.
  - vm_compute. reflexivity.
  - constructor.
  - exists s2, w2, i1, i2. split; [exact Hlogin|]. split; [exact Hne|].
    split; [exact H1|]. split; [exact H2|].
    exact (eq_trans Hi1 (eq_sym Hi2)).
Defined.

(** ** C7: the flag of a new account *)

(** C7 fails on the code.  No route calls [mark_account_active]:
    [create_income], like every call of the store, leaves [users.json] as it
    is.  After a signup and a first income the account owns a record, and
    both the stored account and the identity that [get_current_user]
    returns still say [is_new_account] true. *)
Theorem first_income_keeps_new_flag :
  (∀ (uuid now : string) (body : Models.IncomeCreate) (user : Auth.identity)
     (w : world),
     users_json (Incomes.create_income uuid now body user w).2 = users_json w)
  ∧ let T1 := LocalAuth.draw_token (sample_draws "1") in
    let who := sample_user (LocalAuth.draw_user_id (sample_draws "1")) in
    let w1 := (LocalAuth.signup (H := sample_runtime) (sample_draws "1")
                 "new.user@gmail.com" (PyText.of_str "secret1") "New User"
                 empty_world).2 in
    let resolved := Auth.get_current_user (Some T1) w1 in
    let created := Incomes.create_income "7b0e1c52-inc"
                     "2025-03-02T09:30:00.000000" sample_income who resolved.2 in
    resolved.1 = Ok who
    ∧ (∃ inc, created.1 = Ok inc)
    ∧ length (LocalStorage.get_incomes (Auth.id who) created.2) = 1
    ∧ acc_is_new_account <$> ODict.get (accounts created.2) "new.user@gmail.com"
      = Some (Some true)
    ∧ (Auth.get_current_user (Some T1) created.2).1 = Ok who
    ∧ Auth.is_new_account who = Some true.
Proof.
  split.
  - intros uuid now body user w.
    apply (store_call_auth (H := sample_runtime) (CreateIncome uuid now body user) w I).
  - cbv zeta. split; [vm_compute; reflexivity|].
    split; [eexists; reflexivity|].
    split; [vm_compute; reflexivity|].
    split; [vm_compute; reflexivity|].
    split; [vm_compute; reflexivity|reflexivity].
Qed.

(** ** C8: contributions to a goal *)

Section goal_facts.
Import Goals.

Lemma update_first_hit (test : record → res bool) (upd : record → res record)
    (before after : list record) (g g' : record) :
  Forall (λ x, test x = Ok false) before →
  test g = Ok true → upd g = Ok g' →
  update_first test upd (before ++ g :: after)
  = Ok (Some (g', before ++ g' :: after)).
Proof.
  intros Hbefore Hg Hupd.
  induction Hbefore as [|x before Hx _ IH]; simpl.
  - by rewrite Hg, Hupd.
  - by rewrite Hx, IH.
Qed.

Lemma contribute_spec (amount c t : Q) (g : record) :
  g !! "current_amount" = Some (VNum c) →
  g !! "target_amount" = Some (VNum t) →
  ∃ n, contribute amount g = Ok (<["current_amount" := VNum n]> g)
    ∧ (n = t ∨ n = (c + amount)%Q)
    ∧ (n == Qmin (c + amount) t)%Q.
Proof.
  intros Hc Ht. unfold contribute, getitem, py_min_is_second.
  rewrite Hc, Ht. simpl.
  destruct (Qlt_le_dec t (c + amount)) as [Hlt|Hle].
  - exists t. split; [done|]. split; [by left|].
    symmetry. apply Q.min_r. by apply Qlt_le_weak.
  - exists (c + amount)%Q. split; [done|]. split; [by right|].
    symmetry. by apply Q.min_l.
Qed.

End goal_facts.

(** C8.  Let the goals that [add_money] reads hold a goal with the given
    id, the first that it matches, whose amounts satisfy
    [0 <= current_amount <= target_amount], and let the request carry an
    amount above zero.  The goals are the stored goals of the account, where
    the match is on the id, or, for the demo account, the list in memory
    once it has been seeded, where the match is on the id and the owner.
    Then [add_money] returns that goal with [current_amount] set to
    [min(current_amount + amount, target_amount)] and nothing else changed,
    puts it in the place of the old one, and the new amount again lies
    between zero and the target. *)
Theorem add_money_clamps (uuid now : nat → string) (goal_id : string)
    (body : Models.AddMoneyRequest) (user : Auth.identity) (w : world)
    (before after : list record) (g : record) (c t : Q) :
  let demo := Auth.is_demo user in
  let goals_of (w : world) :=
    if demo then demo_goals w else LocalStorage.get_goals (Auth.id user) w in
  let w0 := if demo then Goals._seed_demo_goals uuid now w else w in
  goals_of w0 = before ++ g :: after →
  Forall (λ x : record,
            ∃ v, x !! "id" = Some v
              ∧ (eq_str v goal_id = false
                 ∨ (demo = true
                    ∧ ∃ u, x !! "user_id" = Some u
                        ∧ eq_str u (Auth.id user) = false))) before →
  g !! "id" = Some (VStr goal_id) →
  (demo = true → g !! "user_id" = Some (VStr (Auth.id user))) →
  g !! "current_amount" = Some (VNum c) →
  g !! "target_amount" = Some (VNum t) →
  (0 <= c)%Q → (c <= t)%Q →
  Models.AddMoneyRequest_valid body →
  ∃ n,
    let g' := <["current_amount" := VNum n]> g in
    let out := Goals.add_money uuid now goal_id body user w in
    out.1 = Ok g'
    ∧ goals_of out.2 = before ++ g' :: after
    ∧ (n == Qmin (c + Models.amount body) t)%Q
    ∧ (0 <= n)%Q ∧ (n <= t)%Q.
Proof.
  cbv zeta. intros Hgoals Hbefore Hid Howner Hc Ht H0c Hct Hpos.
  unfold Models.AddMoneyRequest_valid in Hpos.
  destruct (contribute_spec (Models.amount body) c t g Hc Ht)
    as (n & Hn & Hcases & Hmin).
  assert (Hrange : (0 <= n)%Q ∧ (n <= t)%Q).
  { rewrite Hmin. split; [apply Q.min_glb; lra|apply Q.le_min_r]. }
  exists n. unfold Goals.add_money.
  destruct (Auth.is_demo user) eqn:Hdemo; unfold_m; cbn [fst snd].
  - rewrite Hgoals.
    rewrite (update_first_hit _ _ before after g
               (<["current_amount" := VNum n]> g)).
    + simpl. done.
    + eapply List.Forall_impl; [|exact Hbefore].
      intros x (v & Hx & Hv).
      unfold Goals.id_and_owner_are, Goals.id_is, getitem. rewrite Hx.
      destruct Hv as [Hv|(_ & u & Hu & Hne)]; [by rewrite Hv|].
      destruct (eq_str v goal_id); [|done]. by rewrite Hu, Hne.
    + unfold Goals.id_and_owner_are, Goals.id_is, getitem.
      rewrite Hid, (Howner eq_refl). simpl.
      by rewrite !bool_decide_eq_true_2.
    + done.
  - rewrite Hgoals.
    rewrite (update_first_hit _ _ before after g
               (<["current_amount" := VNum n]> g)).
    + simpl. unfold LocalStorage.get_goals, LocalStorage.save_goals.
      rewrite load_save. done.
    + eapply List.Forall_impl; [|exact Hbefore].
      intros x (v & Hx & [Hv|(? & _)]); [|done].
      unfold Goals.id_is, getitem. by rewrite Hx, Hv.
    + unfold Goals.id_is, getitem. rewrite Hid. simpl.
      by rewrite bool_decide_eq_true_2.
    + done.
Qed.

Lemma add_money_clamps_witness :
  let w := LocalStorage.save_goals "u1" [sample_goal "g-1" 0 1000] empty_world in
  let out := Goals.add_money (λ _, "s") (λ _, "t") "g-1"
               {| Models.amount := 1500 |} (sample_user "u1") w in
  let ids (i : nat) := if Nat.eqb i 1 then "seed-1" else "seed-x" in
  let demo := Goals.add_money ids (λ _, "t") "seed-1"
                {| Models.amount := 50000 |} Auth.DEMO_USER empty_world in
  (∃ n, out.1 = Ok (<["current_amount" := VNum n]> (sample_goal "g-1" 0 1000))
     ∧ (n == 1000)%Q)
  ∧ ∃ g n, demo.1 = Ok g
      ∧ g !! "current_amount" = Some (VNum n) ∧ (n == 75000)%Q.
Proof.
  intros w out ids demo. split.
  - destruct (add_money_clamps (λ _, "s") (λ _, "t") "g-1"
      {| Models.amount := 1500 |} (sample_user "u1") w [] []
      (sample_goal "g-1" 0 1000) 0 1000) as (n & Hout & _ & Hn & _).
    + vm_compute. reflexivity.
    + constructor.
    + vm_compute. reflexivity.
    + intros Hd. discriminate Hd.
    + vm_compute. reflexivity.
    + vm_compute. reflexivity.
    + vm_compute. discriminate.
    + vm_compute. discriminate.
    + vm_compute. reflexivity.
    + exists n. split; [exact Hout|].
      exact (Qeq_trans _ _ _ Hn (eq_refl : (Qmin (0 + 1500) 1000 == 1000)%Q)).
  - pose (seeded := demo_goals (Goals._seed_demo_goals ids (λ _, "t")
                                  empty_world)).
    destruct (add_money_clamps ids (λ _, "t") "seed-1"
      {| Models.amount := 50000 |} Auth.DEMO_USER empty_world
      (take 1 seeded) (drop 2 seeded) (default ∅ (seeded !! 1%nat))
      32000 75000) as (n & Hout & _ & Hn & _).
    + vm_compute. reflexivity.
    + vm_compute. constructor; [|constructor].
      eexists. split; [reflexivity|]. left. reflexivity.
    + vm_compute. reflexivity.
    + intros _. vm_compute. reflexivity.
    + vm_compute. reflexivity.
    + vm_compute. reflexivity.
    + vm_compute. discriminate.
    + vm_compute. discriminate.
    + vm_compute. reflexivity.
    + eexists _, n. split; [exact Hout|].
      split; [apply lookup_insert_eq|].
      exact (Qeq_trans _ _ _ Hn
        (eq_refl : (Qmin (32000 + 50000) 75000 == 75000)%Q)).
Defined.

(** ** Collections that are missing or hold text that is not JSON *)

Section aggregation_facts.
Context `{Runtime}.
Import Admin.

Lemma load_unreadable (u t : string) (w : world) :
  unreadable u t w → LocalStorage._load_data u t w = [].
Proof. unfold LocalStorage._load_data. by intros [-> | ->]. Qed.

Lemma load_emptied (u t u' t' : string) (w : world) :
  unreadable u t w →
  LocalStorage._load_data u' t' (emptied u t w) = LocalStorage._load_data u' t' w.
Proof.
  intros Hu. unfold emptied.
  destruct (decide (LocalStorage._get_user_file u t
                    = LocalStorage._get_user_file u' t')) as [Heq|Hne].
  - unfold LocalStorage._load_data, LocalStorage._save_data. simpl.
    rewrite <- Heq, lookup_insert_eq. by destruct Hu as [-> | ->].
  - by apply load_save_other.
Qed.

Lemma fold_res_ext {A B} (f g : nat → A → B → res A) (i : nat) (acc : A)
    (xs : list B) :
  (∀ i acc x, f i acc x = g i acc x) →
  fold_res f i acc xs = fold_res g i acc xs.
Proof.
  intros Hfg. revert i acc. induction xs as [|x xs IH]; intros i acc; simpl.
  - done.
  - rewrite Hfg. destruct (g i acc x); [apply IH|done].
Qed.

(** The aggregation sees the state through [_load_data] alone. *)
Lemma dashboard_of_ext (clk : clock) (users : list user_row) (w w' : world) :
  (∀ u t, LocalStorage._load_data u t w' = LocalStorage._load_data u t w) →
  dashboard_of clk users w' = dashboard_of clk users w.
Proof.
  intros Hload. unfold dashboard_of.
  rewrite (fold_res_ext (dashboard_user clk w') (dashboard_user clk w)).
  - rewrite (fold_res_ext (trend_user w') (trend_user w)); [done|].
    intros i acc x. unfold trend_user, get_user_incomes, LocalStorage.get_incomes.
    by rewrite Hload.
  - intros i acc x.
    unfold dashboard_user, get_user_incomes, get_user_expenses, get_user_rules,
      LocalStorage.get_incomes, LocalStorage.get_expenses, LocalStorage.get_rules.
    by rewrite !Hload.
Qed.

Lemma get_admin_dashboard_eq (clk : clock) (user : Auth.identity) (w : world) :
  (get_admin_dashboard clk user w).1 =
  match get_admin_user user with
  | Raise e => Raise e
  | Ok _ =>
      match dashboard_of clk
              (map (λ '(email, user_data),
                 {| row_id := acc_id user_data;
                    row_email := email;
                    row_created_at := acc_created_at user_data |}) (accounts w))
              (LocalAuth._ensure_data_dir w) with
      | Ok d => Ok d
      | Raise e => Raise (HTTPException 500 ("Dashboard error: " +:+ exn_str e))
      end
  end.
Proof.
  unfold get_admin_dashboard. unfold_m.
  destruct (get_admin_user user); [|done].
  unfold get_all_users_data. rewrite load_users_eq.
  by destruct (dashboard_of _ _ _).
Qed.

(** An account without readable data adds nothing. *)
Lemma dashboard_account_empty (clk : clock) (i : nat) (acc : totals)
    (user_id : string) :
  dashboard_account clk i acc user_id [] [] []
  = Ok {| total_income := total_income acc + 0;
          total_expenses := total_expenses acc + 0;
          active_users_30d := active_users_30d acc;
          low_income_alerts := low_income_alerts acc;
          large_transactions := large_transactions acc;
          rule_usage := rule_usage acc |}.
Proof. done. Qed.

End aggregation_facts.

(** The two read failures that [_load_data] catches.  A collection file
    that is missing, or whose text [json.loads] rejects, is read as the
    empty list, without raising.  So the dashboard computed in a state
    where a file is in one of these two conditions is the dashboard of the
    state in which that file holds the empty list, error or not; and an
    account all of whose three collections are so goes through the loop
    without raising and leaves the totals, the count of active accounts, the
    alerts, the flagged transactions, the rule usage and the income trends
    as they were.  (A file that cannot be opened, or whose bytes cannot be
    decoded, is no state of this model: there [read_text] raises an error
    that [_load_data] does not catch.) *)
Lemma unreadable_is_empty `{Runtime} (clk : Admin.clock)
    (user_id data_type : string) (w : world) :
  unreadable user_id data_type w →
  LocalStorage._load_data user_id data_type w = []
  ∧ (∀ users,
       Admin.dashboard_of clk users (emptied user_id data_type w)
       = Admin.dashboard_of clk users w)
  ∧ (∀ admin,
       (Admin.get_admin_dashboard clk admin (emptied user_id data_type w)).1
       = (Admin.get_admin_dashboard clk admin w).1)
  ∧ (unreadable user_id "incomes" w → unreadable user_id "expenses" w →
     unreadable user_id "rules" w →
     ∀ (i : nat) (acc : Admin.totals) (trends : list Admin.income_trend)
       (row : Admin.user_row),
       Admin.row_id row = user_id →
       Admin.trend_user w i trends row = Ok trends
       ∧ ∃ acc', Admin.dashboard_user clk w i acc row = Ok acc'
           ∧ (Admin.total_income acc' == Admin.total_income acc)%Q
           ∧ (Admin.total_expenses acc' == Admin.total_expenses acc)%Q
           ∧ Admin.active_users_30d acc' = Admin.active_users_30d acc
           ∧ Admin.low_income_alerts acc' = Admin.low_income_alerts acc
           ∧ Admin.large_transactions acc' = Admin.large_transactions acc
           ∧ Admin.rule_usage acc' = Admin.rule_usage acc).
Proof.
  intros Hu. split; [by apply load_unreadable|].
  assert (Hext : ∀ users w',
    data_json w' = data_json (emptied user_id data_type w) →
    Admin.dashboard_of clk users w' = Admin.dashboard_of clk users w).
  { intros users w' Hd. apply dashboard_of_ext. intros u t.
    rewrite (load_data_ext u t _ w' Hd). by apply load_emptied. }
  split; [intros users; by apply Hext|]. split.
  - intros admin. rewrite !get_admin_dashboard_eq.
    destruct (Admin.get_admin_user admin); [|done].
    rewrite (accounts_ext w (emptied user_id data_type w)) by done.
    rewrite (Hext _ (LocalAuth._ensure_data_dir (emptied user_id data_type w)))
      by apply ensure_data_dir_data.
    rewrite (dashboard_of_ext clk _ w (LocalAuth._ensure_data_dir w)); [done|].
    intros u t. apply load_data_ext, ensure_data_dir_data.
  - intros Hi He Hr i acc trends row <-.
    unfold Admin.trend_user, Admin.dashboard_user, Admin.get_user_incomes,
      Admin.get_user_expenses, Admin.get_user_rules, LocalStorage.get_incomes,
      LocalStorage.get_expenses, LocalStorage.get_rules.
    rewrite !load_unreadable by done. split; [done|].
    rewrite dashboard_account_empty. eexists. split; [done|]. simpl.
    split; [apply Qplus_0_r|]. split; [apply Qplus_0_r|]. done.
Qed.

Lemma unreadable_is_empty_witness :
  let uid := LocalAuth.draw_user_id (sample_draws "1") in
  let w1 := (LocalAuth.signup (H := sample_runtime) (sample_draws "1")
               "new.user@gmail.com" (PyText.of_str "secret1") "New User"
               empty_world).2 in
  let w := set_data_json
             (<[LocalStorage._get_user_file uid "incomes" := Garbage]> (data_json w1)) w1 in
  let row := {| Admin.row_id := uid; Admin.row_email := "new.user@gmail.com";
                Admin.row_created_at := "2025-03-01T10:00:00.000000" |} in
  unreadable uid "incomes" w
  ∧ (Admin.get_admin_dashboard (H := sample_runtime) sample_clock Auth.DEMO_USER
       (emptied uid "incomes" w)).1
    = (Admin.get_admin_dashboard (H := sample_runtime) sample_clock Auth.DEMO_USER w).1
  ∧ Admin.trend_user (H := sample_runtime) w 0 [] row = Ok [].
Proof.
  intros uid w1 w row.
  assert (Hi : unreadable uid "incomes" w) by (right; vm_compute; reflexivity).
  assert (He : unreadable uid "expenses" w) by (left; vm_compute; reflexivity).
  assert (Hr : unreadable uid "rules" w) by (left; vm_compute; reflexivity).
  split; [exact Hi|].
  destruct (@unreadable_is_empty sample_runtime sample_clock uid "incomes" w Hi)
    as (_ & _ & Hdash & Hnone).
  split; [exact (Hdash Auth.DEMO_USER)|].
  exact (proj1 (Hnone Hi He Hr 0%nat Admin.totals0 [] row eq_refl)).
Defined.

(** * Further properties of the layer *)

(** ** The e-mail pattern *)

Section pattern_facts.
Import Re.

Lemma elem_of_all_ascii (c : ascii) : c ∈ all_ascii.
Proof.
  unfold all_ascii. apply list_elem_of_In, List.in_map_iff.
  exists (nat_of_ascii c). split; [apply ascii_nat_embedding|].
  apply List.in_seq. pose proof (nat_ascii_bounded c). lia.
Qed.

Lemma only_at_spec (p : ascii → bool) (c : ascii) :
  only_at p = true → c ≠ "@"%char → p c = false.
Proof.
  unfold only_at. rewrite List.forallb_forall. intros Hp Hc.
  specialize (Hp c (proj1 (list_elem_of_In _ _) (elem_of_all_ascii c))).
  destruct (p c); [|done]. simpl in Hp.
  by apply bool_decide_eq_true in Hp.
Qed.

Lemma needs_at_alt (r1 r2 : regex) :
  needs_at (alt r1 r2) = needs_at r1 && needs_at r2.
Proof.
  destruct r1, r2; simpl; rewrite ?andb_true_r; try done.
Qed.

Lemma needs_at_seq (r1 r2 : regex) :
  needs_at (seq r1 r2) = needs_at r1 || needs_at r2.
Proof.
  destruct r1, r2; simpl; rewrite ?orb_true_r, ?orb_false_r; try done.
Qed.

Lemma needs_at_not_nullable (r : regex) :
  needs_at r = true → nullable r = false.
Proof.
  induction r as [| |p|r1 IH1 r2 IH2|r1 IH1 r2 IH2|r IH]; simpl; try done.
  - intros [H1|H2]%orb_true_iff.
    + by rewrite IH1.
    + rewrite IH2 by done. apply andb_false_r.
  - intros [H1 H2]%andb_true_iff. by rewrite IH1, IH2.
Qed.

Lemma needs_at_deriv (c : ascii) (r : regex) :
  c ≠ "@"%char → needs_at r = true → needs_at (deriv c r) = true.
Proof.
  intros Hc.
  induction r as [| |p|r1 IH1 r2 IH2|r1 IH1 r2 IH2|r IH]; simpl; try done.
  - intros Hp. by rewrite (only_at_spec p c Hp Hc).
  - intros Hn. rewrite needs_at_alt, needs_at_seq.
    apply orb_true_iff in Hn as [H1|H2].
    + rewrite IH1 by done. rewrite (needs_at_not_nullable r1 H1). done.
    + rewrite H2, orb_true_r. simpl.
      destruct (nullable r1); [by apply IH2|done].
  - intros [H1 H2]%andb_true_iff.
    rewrite needs_at_alt. by rewrite IH1, IH2.
Qed.

(** A string that such an expression matches contains [@]. *)
Lemma fullmatch_needs_at (s : string) (r : regex) :
  needs_at r = true → fullmatch r s = true → "@"%char ∈ chars s.
Proof.
  revert r. induction s as [|c s IH]; intros r Hn; simpl.
  - by rewrite (needs_at_not_nullable r Hn).
  - intros Hm. destruct (decide (c = "@"%char)) as [->|Hc].
    + unfold chars. simpl. by left.
    + unfold chars. simpl. right. apply (IH (deriv c r)); [|done].
      by apply needs_at_deriv.
Qed.

Lemma split_go_nonempty (sep : ascii) (cur s : string) :
  PyStr.split_go sep cur s ≠ [].
Proof.
  revert cur. induction s as [|c s IH]; intros cur; simpl; [done|].
  case_bool_decide; [done|apply IH].
Qed.

(** Splitting at a character that occurs gives at least two parts. *)
Lemma split_go_two (sep : ascii) (cur s : string) :
  sep ∈ chars s → is_Some (PyStr.split_go sep cur s !! 1%nat).
Proof.
  revert cur. induction s as [|c s IH]; intros cur; unfold chars; simpl.
  - by intros ?%elem_of_nil.
  - intros Hin. case_bool_decide as Hc.
    + simpl. pose proof (split_go_nonempty sep "" s) as Hne.
      destruct (PyStr.split_go sep "" s); [done|eauto].
    + apply IH. apply elem_of_cons in Hin as [->|Hin]; done.
Qed.

(** What [validate_email] returns. *)
Lemma validate_email_result (email : string) :
  LocalAuth.validate_email email = Ok (true, "")
  ∨ LocalAuth.validate_email email = Ok (false, "Invalid email format")
  ∨ LocalAuth.validate_email email
    = Ok (false, "Please use a valid email provider (gmail.com, yahoo.com, outlook.com, etc.)").
Proof.
  unfold LocalAuth.validate_email. fold (normalize email).
  destruct (Re.match_anchored LocalAuth.email_pattern (normalize email)) eqn:Hm;
    simpl; [|by right; left].
  assert (Hat : "@"%char ∈ chars (normalize email)).
  { unfold Re.match_anchored in Hm.
    assert (Hn : needs_at (Re.Seq LocalAuth.email_pattern
                             (Re.Alt Re.Eps (Re.Class Re.newline))) = true)
      by (vm_compute; reflexivity).
    exact (fullmatch_needs_at _ _ Hn Hm). }
  destruct (split_go_two "@" "" (normalize email) Hat) as [domain Hd].
  unfold PyStr.split. rewrite Hd.
  repeat case_match; simpl in *; try done; auto.
Qed.

End pattern_facts.

(** ** Validation and signup *)

(** X1.  [validate_email] gives the same result for two e-mails that are
    equal after lower-casing and trimming. *)
Theorem validate_email_same_verdict (e1 e2 : string) :
  normalize e1 = normalize e2 →
  LocalAuth.validate_email e1 = LocalAuth.validate_email e2.
Proof.
  intros Hn. rewrite <- (validate_email_normalize e1), Hn.
  apply validate_email_normalize.
Qed.

Lemma validate_email_same_verdict_witness :
  LocalAuth.validate_email "  New.User@GMAIL.com " = LocalAuth.validate_email "new.user@gmail.com".
Proof.
  apply validate_email_same_verdict. vm_compute. reflexivity.
Defined.

(** X2.  [validate_email] never raises: the index [1] of the split at [@]
    is always there, because a string that matches the pattern contains
    [@].  It returns true with the empty message or false with one of two
    messages. *)
Theorem validate_email_never_raises (email : string) :
  (∀ e, LocalAuth.validate_email email ≠ Raise e)
  ∧ (LocalAuth.validate_email email = Ok (true, "")
     ∨ LocalAuth.validate_email email = Ok (false, "Invalid email format")
     ∨ LocalAuth.validate_email email
       = Ok (false, "Please use a valid email provider (gmail.com, yahoo.com, outlook.com, etc.)")).
Proof.
  pose proof (validate_email_result email) as Hr.
  split; [|done]. intros e He. rewrite He in Hr.
  destruct Hr as [Hr|[Hr|Hr]]; discriminate Hr.
Qed.

Section signup_facts.
Context `{Runtime}.

(** A [signup] that raises: the error and the state. *)
Lemma signup_raise_inv (d : LocalAuth.signup_draws) (e : string)
    (p : PyText.text) (n : string) (w : world) (err : exn) (w' : world) :
  LocalAuth.signup d e p n w = (Raise err, w') →
  ((∃ msg, err = ValueError msg ∧ msg ∈ signup_messages)
   ∨ (∃ start, err = UnicodeEncodeError p start
        ∧ PyText.encode p = inl start))
  ∧ (w' = w ∨ w' = LocalAuth._ensure_data_dir w).
Proof.
  rewrite signup_eq. unfold signup_messages.
  destruct (validate_email_result (normalize e)) as [-> | [-> | ->]].
  - repeat case_match; intros; simplify_eq; (split; [|by auto]);
      first [ right; by eexists
            | left; eexists; (split; [done|]);
              repeat first [apply list_elem_of_here
                           | apply list_elem_of_further] ].
  - intros; simplify_eq. split; [|by auto]. left. eexists. split; [done|].
    repeat first [apply list_elem_of_here | apply list_elem_of_further].
  - intros; simplify_eq. split; [|by auto]. left. eexists. split; [done|].
    repeat first [apply list_elem_of_here | apply list_elem_of_further].
Qed.

End signup_facts.

(** X3.  A [signup] that fails raises [ValueError] with one of five
    messages or, for a password that UTF-8 cannot encode, the
    [UnicodeEncodeError] of [password.encode()]; with a password that can be
    encoded only the five messages are left.  A failed [signup] stores
    nothing: the accounts, the tokens, the collections and the demo goals
    are as before (at most an absent [users.json] has been created
    empty). *)
Theorem signup_failure_changes_nothing `{Runtime} (d : LocalAuth.signup_draws)
    (e : string) (p : PyText.text) (n : string) (w : world) (err : exn) :
  (LocalAuth.signup d e p n w).1 = Raise err →
  ((∃ msg, err = ValueError msg ∧ msg ∈ signup_messages)
   ∨ (∃ start, err = UnicodeEncodeError p start
        ∧ PyText.encode p = inl start))
  ∧ (∀ bytes, PyText.encode p = inr bytes →
       ∃ msg, err = ValueError msg ∧ msg ∈ signup_messages)
  ∧ accounts (LocalAuth.signup d e p n w).2 = accounts w
  ∧ tokens (LocalAuth.signup d e p n w).2 = tokens w
  ∧ data_json (LocalAuth.signup d e p n w).2 = data_json w
  ∧ demo_goals (LocalAuth.signup d e p n w).2 = demo_goals w.
Proof.
  destruct (LocalAuth.signup d e p n w) as [r w'] eqn:Hs. simpl. intros ->.
  destruct (signup_raise_inv _ _ _ _ _ _ _ Hs) as [Herr Hw].
  split; [done|]. split.
  { intros bytes Hb. destruct Herr as [Hmsg|(start & _ & Hstart)]; [done|].
    rewrite Hb in Hstart. discriminate Hstart. }
  destruct Hw as [-> | ->]; [done|].
  rewrite ensure_data_dir_accounts, tokens_ensure_data_dir. by frame.
Qed.

Lemma signup_failure_changes_nothing_witness :
  tokens (LocalAuth.signup (H := sample_runtime) (sample_draws "1")
            "new.user@gmail.com" [55296; 97; 98; 99; 100; 101]%N "New User"
            empty_world).2
  = tokens empty_world.
Proof.
  destruct (@signup_failure_changes_nothing sample_runtime (sample_draws "1")
    "new.user@gmail.com" [55296; 97; 98; 99; 100; 101]%N "New User"
    empty_world (UnicodeEncodeError [55296; 97; 98; 99; 100; 101]%N 0))
    as (_ & _ & _ & Ht & _).
  - vm_compute. reflexivity.
  - exact Ht.
Defined.

(** X4.  The routes of [routes/auth.py] turn every failure of the local
    signup into the response 400 and every failure of the local login into
    the response 401.  The detail is one of the five messages of [signup],
    or "Invalid email or password" for [login], or, for a password that
    UTF-8 cannot encode, the text of the [UnicodeEncodeError], which
    [login] gives only when the e-mail has an account.  A success is passed
    on as it is. *)
Theorem auth_routes_errors `{Runtime} (d : LocalAuth.signup_draws)
    (t e : string) (p : PyText.text) (n : string) (w : world) :
  (∀ err, (AuthRoutes.signup d e p n w).1 = Raise err →
     ∃ detail, err = HTTPException 400 detail
       ∧ (detail ∈ signup_messages
          ∨ ∃ start, PyText.encode p = inl start
              ∧ detail = exn_str (UnicodeEncodeError p start)))
  ∧ (∀ s, (LocalAuth.signup d e p n w).1 = Ok s →
       AuthRoutes.signup d e p n w = LocalAuth.signup d e p n w)
  ∧ (∀ err, (AuthRoutes.login t e p w).1 = Raise err →
       ∃ detail, err = HTTPException 401 detail
         ∧ (detail = "Invalid email or password"
            ∨ ∃ start, PyText.encode p = inl start
                ∧ is_Some (ODict.get (accounts w) (normalize e))
                ∧ detail = exn_str (UnicodeEncodeError p start)))
  ∧ (∀ s, (LocalAuth.login t e p w).1 = Ok s →
       AuthRoutes.login t e p w = LocalAuth.login t e p w).
Proof.
  split; [|split; [|split]].
  - intros err. unfold AuthRoutes.signup.
    destruct (LocalAuth.signup d e p n w) as [[s|err0] w'] eqn:Hs; [done|].
    destruct (signup_raise_inv _ _ _ _ _ _ _ Hs)
      as [[(msg & -> & Hmsg)|(start & -> & Hstart)] _];
      simpl; intros [= <-]; (eexists; split; [done|]).
    + by left.
    + right. by exists start.
  - intros s. unfold AuthRoutes.signup.
    by destruct (LocalAuth.signup d e p n w) as [[s'|err0] w'].
  - intros err. unfold AuthRoutes.login. rewrite login_eq.
    destruct (ODict.get (accounts w) (normalize e)) as [a|] eqn:Ea.
    + destruct (PyText.encode p) as [start|bytes] eqn:Ep.
      * simpl. intros [= <-]. eexists. split; [done|]. right. eauto.
      * case_bool_decide; [done|]. simpl. intros [= <-]. eauto.
    + simpl. intros [= <-]. eauto.
  - intros s. unfold AuthRoutes.login.
    by destruct (LocalAuth.login t e p w) as [[s'|err0] w'].
Qed.

Lemma auth_routes_errors_witness :
  ∃ detail,
    (AuthRoutes.login (H := sample_runtime) "t" "nobody@gmail.com"
       (PyText.of_str "secret1") empty_world).1
    = Raise (HTTPException 401 detail)
    ∧ detail = "Invalid email or password".
Proof.
  exists "Invalid email or password".
  assert (Hr : (AuthRoutes.login (H := sample_runtime) "t" "nobody@gmail.com"
                  (PyText.of_str "secret1") empty_world).1
               = Raise (HTTPException 401 "Invalid email or password"))
    by (vm_compute; reflexivity).
  split; [exact Hr|].
  destruct (@auth_routes_errors sample_runtime (sample_draws "1")
    "t" "nobody@gmail.com" (PyText.of_str "secret1") "New User" empty_world)
    as (_ & _ & Hlogin & _).
  destruct (Hlogin _ Hr) as (detail & Hd & _).
  reflexivity.
Defined.

(** ** Accounts: lookup, activation, the administrator *)

Section account_facts.
Context `{Runtime}.

Lemma odict_set_set {A} (d : ODict.t A) (k : string) (v v' : A) :
  ODict.set (ODict.set d k v) k v' = ODict.set d k v'.
Proof.
  induction d as [|[k0 v0] d IH]; simpl.
  - by rewrite decide_True.
  - destruct (decide (k0 = k)) as [->|Hne]; simpl.
    + by rewrite decide_True.
    + rewrite decide_False by done. by rewrite IH.
Qed.

Lemma odict_set_same {A} (d : ODict.t A) (k : string) (v : A) :
  ODict.get d k = Some v → ODict.set d k v = d.
Proof.
  induction d as [|[k0 v0] d IH]; simpl; [done|].
  destruct (decide (k0 = k)) as [->|Hne].
  - by intros [= ->].
  - intros Hg. by rewrite IH.
Qed.

Lemma save_users_again (users users' : ODict.t account) (w : world) :
  LocalAuth._save_users users' (LocalAuth._save_users users w)
  = LocalAuth._save_users users' w.
Proof.
  unfold LocalAuth._save_users, LocalAuth._ensure_data_dir. simpl.
  by destruct (users_json w).
Qed.

Lemma save_users_same (w : world) :
  is_Some (users_json w) →
  (∃ users, users_json w = Some (Json users) ∧
     LocalAuth._save_users users w = w)
  ∨ users_json w = Some Garbage.
Proof.
  intros [[|users] Hu]; [by right|left].
  exists users. split; [done|].
  unfold LocalAuth._save_users, LocalAuth._ensure_data_dir. rewrite Hu.
  destruct w. simpl in *. by subst.
Qed.

Lemma accounts_Some_file (w : world) (k : string) (a : account) :
  ODict.get (accounts w) k = Some a →
  users_json w = Some (Json (accounts w)).
Proof.
  unfold accounts, LocalAuth._load_users, LocalAuth._ensure_data_dir.
  destruct (users_json w) as [[|users]|] eqn:E; simpl; rewrite ?E; simpl; done.
Qed.

Lemma save_accounts_unchanged (w : world) (k : string) (a : account) :
  ODict.get (accounts w) k = Some a →
  LocalAuth._save_users (accounts w) w = w.
Proof.
  intros Ha. pose proof (accounts_Some_file w k a Ha) as Hu.
  unfold LocalAuth._save_users, LocalAuth._ensure_data_dir. rewrite Hu.
  destruct w. simpl in *. by rewrite Hu.
Qed.

Lemma mark_account_active_eq (email : string) (w : world) :
  LocalAuth.mark_account_active email w
  = match ODict.get (accounts w) (normalize email) with
    | Some a =>
        LocalAuth._save_users
          (ODict.set (accounts w) (normalize email)
             (LocalAuth.set_is_new_account false a))
          (LocalAuth._ensure_data_dir w)
    | None => LocalAuth._ensure_data_dir w
    end.
Proof.
  unfold LocalAuth.mark_account_active. rewrite load_users_eq.
  by fold (normalize email).
Qed.

Lemma get_user_by_email_eq (email : string) (w : world) :
  LocalAuth.get_user_by_email email w
  = (match ODict.get (accounts w) (normalize email) with
     | Some user =>
         Some {| LocalAuth.ui_id := acc_id user;
                 LocalAuth.ui_email := acc_email user;
                 LocalAuth.ui_full_name := acc_full_name user;
                 LocalAuth.ui_isNewAccount :=
                   default false (acc_is_new_account user);
                 LocalAuth.ui_isAdmin := None |}
     | None => None
     end, LocalAuth._ensure_data_dir w).
Proof.
  unfold LocalAuth.get_user_by_email. rewrite load_users_eq.
  fold (normalize email). by destruct (ODict.get _ _).
Qed.

End account_facts.

(** X5.  After a successful [signup], [get_user_by_email] with the e-mail
    in any casing and padding returns exactly the user that [signup]
    returned and leaves the state as it is; for an e-mail without an
    account it returns [None]. *)
Theorem get_user_by_email_round_trip `{Runtime} (d : LocalAuth.signup_draws)
    (e e' : string) (p : PyText.text) (n : string) (w : world)
    (s1 : LocalAuth.session) (w1 : world) :
  LocalAuth.signup d e p n w = (Ok s1, w1) →
  normalize e' = normalize e →
  LocalAuth.get_user_by_email e' w1 = (Some (LocalAuth.user s1), w1)
  ∧ ∀ e2, ODict.get (accounts w1) (normalize e2) = None →
      (LocalAuth.get_user_by_email e2 w1).1 = None.
Proof.
  intros Hs Hn. split.
  - rewrite get_user_by_email_eq, Hn.
    rewrite signup_eq in Hs.
    destruct (LocalAuth.validate_email _) as [[[] ?]|?]; [|done..].
    destruct (decide (_ < 6)); [done|].
    destruct (_ || _); [done|].
    destruct (decide (is_Some _)); [done|].
    destruct (PyText.encode p); [done|].
    injection Hs as <- <-.
    rewrite save_users_accounts, odict_get_set_eq. simpl.
    by rewrite ensure_data_dir_present by (rewrite save_users_users; eauto).
  - intros e2 He2. by rewrite get_user_by_email_eq, He2.
Qed.

Lemma get_user_by_email_round_trip_witness :
  ∃ s1 w1,
    LocalAuth.signup (H := sample_runtime) (sample_draws "1")
      "new.user@gmail.com" (PyText.of_str "secret1") "New User"
      empty_world = (Ok s1, w1)
    ∧ LocalAuth.get_user_by_email " NEW.user@gmail.com" w1
      = (Some (LocalAuth.user s1), w1).
Proof.
  destruct (LocalAuth.signup (H := sample_runtime) (sample_draws "1")
    "new.user@gmail.com" (PyText.of_str "secret1") "New User"
    empty_world)
    as [[s1|err] w1] eqn:Hs.
  - exists s1, w1. split; [reflexivity|].
    refine (proj1 (@get_user_by_email_round_trip sample_runtime
      (sample_draws "1") "new.user@gmail.com" " NEW.user@gmail.com"
      (PyText.of_str "secret1") "New User" empty_world s1 w1 Hs _)).
    vm_compute. reflexivity.
  - vm_compute in Hs. discriminate Hs.
Defined.

(** X6.  [mark_account_active] on the e-mail of an account sets
    [is_new_account] to false and changes nothing else of that account, no
    other account, no token and no collection; a second call changes
    nothing; and a [login] that then succeeds reports the account as not
    new. *)
Theorem mark_account_active_effect `{Runtime} (e : string) (w : world)
    (a : account) :
  ODict.get (accounts w) (normalize e) = Some a →
  let w' := LocalAuth.mark_account_active e w in
  ODict.get (accounts w') (normalize e)
    = Some (LocalAuth.set_is_new_account false a)
  ∧ (∀ k, k ≠ normalize e → ODict.get (accounts w') k = ODict.get (accounts w) k)
  ∧ tokens w' = tokens w
  ∧ data_json w' = data_json w
  ∧ LocalAuth.mark_account_active e w' = w'
  ∧ (∀ t p s w2, LocalAuth.login t e p w' = (Ok s, w2) →
       LocalAuth.ui_isNewAccount (LocalAuth.user s) = false
       ∧ LocalAuth.ui_id (LocalAuth.user s) = acc_id a).
Proof.
  intros Ha w'. subst w'. rewrite mark_account_active_eq, Ha.
  set (a' := LocalAuth.set_is_new_account false a).
  set (w' := LocalAuth._save_users _ _).
  assert (Hacc : accounts w' = ODict.set (accounts w) (normalize e) a')
    by apply save_users_accounts.
  assert (Hget : ODict.get (accounts w') (normalize e) = Some a')
    by (rewrite Hacc; apply odict_get_set_eq).
  split; [done|]. split.
  { intros k Hk. rewrite Hacc. by apply odict_get_set_ne. }
  split; [subst w'; by rewrite tokens_save_users, tokens_ensure_data_dir|].
  split; [subst w'; by frame|]. split.
  - rewrite mark_account_active_eq, Hget.
    rewrite ensure_data_dir_present by (subst w'; rewrite save_users_users; eauto).
    replace (LocalAuth.set_is_new_account false a') with a' by done.
    rewrite odict_set_same by done. by eapply save_accounts_unchanged.
  - intros t p s w2. rewrite login_eq, Hget.
    destruct (PyText.encode p); [done|].
    case_bool_decide; [|done]. by intros [= <- <-].
Qed.

Lemma mark_account_active_effect_witness :
  let w := (LocalAuth.signup (H := sample_runtime) (sample_draws "1")
              "new.user@gmail.com" (PyText.of_str "secret1") "New User"
              empty_world).2 in
  acc_is_new_account <$>
    ODict.get (accounts (LocalAuth.mark_account_active "New.User@gmail.com" w))
      "new.user@gmail.com"
  = Some (Some false).
Proof.
  intros w.
  destruct (@mark_account_active_effect sample_runtime "New.User@gmail.com" w
    {| acc_id := "3f2a19c0d1e2f3a4b5c6d7e8f9a0b1c2d";
       acc_email := "new.user@gmail.com";
       acc_full_name := "New User";
       acc_password_hash := "1terces:a1b21c3d4e5f6a7b8c9d0e1f2a3b4c5d6";
       acc_password_salt := "a1b21c3d4e5f6a7b8c9d0e1f2a3b4c5d6";
       acc_created_at := "2025-03-01T10:00:00.000000";
       acc_is_new_account := Some true;
       acc_is_admin := None |}) as (Hget & _).
  - vm_compute. reflexivity.
  - change (normalize "New.User@gmail.com") with "new.user@gmail.com" in Hget.
    rewrite Hget. reflexivity.
Defined.

Section admin_account_facts.
Context `{Runtime}.

Lemma ensure_admin_user_eq (fresh_id fresh_salt now : string) (w : world) :
  LocalAuth.ensure_admin_user fresh_id fresh_salt now w
  = match ODict.get (accounts w) "admin@incomiq.com" with
    | None =>
        let a := {| acc_id := fresh_id;
                    acc_email := "admin@incomiq.com";
                    acc_full_name := "Admin User";
                    acc_password_hash :=
                      pbkdf2_hmac_sha256_hex "123456789" fresh_salt;
                    acc_password_salt := fresh_salt;
                    acc_created_at := now;
                    acc_is_new_account := Some false;
                    acc_is_admin := Some true |} in
        (Ok (Some a),
         LocalAuth._save_users (ODict.set (accounts w) "admin@incomiq.com" a)
           (LocalAuth._ensure_data_dir w))
    | Some a =>
        if default false (acc_is_admin a)
        then (Ok (Some a), LocalAuth._ensure_data_dir w)
        else (Ok (Some (LocalAuth.set_is_admin true a)),
              LocalAuth._save_users
                (ODict.set (accounts w) "admin@incomiq.com"
                   (LocalAuth.set_is_admin true a))
                (LocalAuth._ensure_data_dir w))
    end.
Proof.
  unfold LocalAuth.ensure_admin_user.
  rewrite load_users_eq, ensure_data_dir_accounts, ensure_data_dir_idem.
  destruct (ODict.get (accounts w) "admin@incomiq.com") as [a|] eqn:E.
  - destruct (default false (acc_is_admin a)); simpl.
    + done.
    + by rewrite odict_get_set_eq.
  - unfold LocalAuth._hash_password.
    replace (PyText.encode (PyText.of_str "123456789"))
      with (inr (A := nat) "123456789") by (vm_compute; reflexivity).
    simpl. by rewrite odict_get_set_eq.
Qed.

(** A registered token stays registered. *)
Lemma token_stays (c : call) (w : world) (t : string) :
  is_Some (tokens w !! t) → is_Some (tokens (run_call c w) !! t).
Proof.
  intros [e He].
  destruct (decide (token_of c = Some t)) as [Hc|Hc];
    [|exists e; by apply token_kept].
  destruct c; try discriminate Hc; simpl in *.
  - rewrite signup_eq.
    repeat case_match; simpl;
      rewrite ?tokens_save_users, ?register_token_tokens,
        ?tokens_ensure_data_dir;
      try (rewrite lookup_insert_is_Some; destruct (decide (LocalAuth.draw_token d = t)));
      eauto.
  - rewrite login_eq.
    repeat case_match; simpl;
      rewrite ?register_token_tokens, ?tokens_ensure_data_dir;
      try (rewrite lookup_insert_is_Some; destruct (decide (fresh_token = t)));
      eauto.
Qed.

Lemma account_stays_run (cs : list call) (w : world) (e : string) :
  is_Some (ODict.get (accounts w) e) →
  is_Some (ODict.get (accounts (run cs w)) e).
Proof.
  intros [a Ha]. destruct (account_kept_run cs w e a Ha) as (a' & Ha' & _).
  eauto.
Qed.

End admin_account_facts.

(** X7.  [ensure_admin_user] returns the account stored under
    admin@incomiq.com, which afterwards has [is_admin] true.  An account
    that was there keeps its id, password hash, salt and new-account flag;
    otherwise the account is created with the given id and salt and the
    hash of the built-in password.  No other account, no token and no
    collection changes, and a second call returns the same account and
    leaves the state as it is. *)
Theorem ensure_admin_user_effect `{Runtime} (fresh_id fresh_salt now : string)
    (w : world) :
  let out := LocalAuth.ensure_admin_user fresh_id fresh_salt now w in
  ∃ adm,
    out.1 = Ok (Some adm)
    ∧ ODict.get (accounts out.2) "admin@incomiq.com" = Some adm
    ∧ acc_is_admin adm = Some true
    ∧ (∀ a, ODict.get (accounts w) "admin@incomiq.com" = Some a →
         same_credentials a adm
         ∧ acc_is_new_account adm = acc_is_new_account a)
    ∧ (ODict.get (accounts w) "admin@incomiq.com" = None →
         acc_id adm = fresh_id
         ∧ acc_password_salt adm = fresh_salt
         ∧ acc_password_hash adm = pbkdf2_hmac_sha256_hex "123456789" fresh_salt
         ∧ acc_is_new_account adm = Some false)
    ∧ (∀ k, k ≠ "admin@incomiq.com" →
         ODict.get (accounts out.2) k = ODict.get (accounts w) k)
    ∧ tokens out.2 = tokens w
    ∧ data_json out.2 = data_json w
    ∧ ∀ id2 salt2 now2,
        LocalAuth.ensure_admin_user id2 salt2 now2 out.2
        = (Ok (Some adm), out.2).
Proof.
  cbv zeta. rewrite ensure_admin_user_eq.
  assert (Hagain : ∀ users adm, ODict.get users "admin@incomiq.com" = Some adm →
    acc_is_admin adm = Some true →
    ∀ id2 salt2 now2,
      LocalAuth.ensure_admin_user id2 salt2 now2
        (LocalAuth._save_users users (LocalAuth._ensure_data_dir w))
      = (Ok (Some adm),
         LocalAuth._save_users users (LocalAuth._ensure_data_dir w))).
  { intros users adm Hget Hadm id2 salt2 now2.
    rewrite ensure_admin_user_eq, save_users_accounts, Hget, Hadm. simpl.
    by rewrite ensure_data_dir_present by (rewrite save_users_users; eauto). }
  destruct (ODict.get (accounts w) "admin@incomiq.com") as [a|] eqn:E.
  - destruct (acc_is_admin a) as [[]|] eqn:Ea; simpl.
    + exists a. rewrite ensure_data_dir_accounts, tokens_ensure_data_dir.
      split_and!; try done.
      * by intros ? [= <-].
      * by frame.
      * intros id2 salt2 now2.
        rewrite ensure_admin_user_eq, ensure_data_dir_accounts, E, Ea. simpl.
        by rewrite ensure_data_dir_idem.
    + eexists. rewrite save_users_accounts, odict_get_set_eq,
        tokens_save_users, tokens_ensure_data_dir.
      split_and!; try done.
      * by intros ? [= <-].
      * intros k Hk. by rewrite odict_get_set_ne.
      * by frame.
      * apply Hagain; [apply odict_get_set_eq|done].
    + eexists. rewrite save_users_accounts, odict_get_set_eq,
        tokens_save_users, tokens_ensure_data_dir.
      split_and!; try done.
      * by intros ? [= <-].
      * intros k Hk. by rewrite odict_get_set_ne.
      * by frame.
      * apply Hagain; [apply odict_get_set_eq|done].
  - simpl. eexists. rewrite save_users_accounts, odict_get_set_eq,
      tokens_save_users, tokens_ensure_data_dir.
    split_and!; try done.
    + intros k Hk. by rewrite odict_get_set_ne.
    + by frame.
    + apply Hagain; [apply odict_get_set_eq|done].
Qed.

(** X8.  In a state without an account for admin@incomiq.com,
    [ensure_admin_user] creates one that [login] accepts with the built-in
    password 123456789, whatever the casing of the e-mail typed; the token
    of that login resolves to an identity with [is_admin] true, which
    passes [get_admin_user]. *)
Theorem admin_default_password `{Runtime} (fresh_id fresh_salt now t e : string)
    (w : world) :
  ODict.get (accounts w) "admin@incomiq.com" = None →
  normalize e = "admin@incomiq.com" →
  t ≠ "demo-token" → 20 < PyStr.len t →
  let w1 := (LocalAuth.ensure_admin_user fresh_id fresh_salt now w).2 in
  ∃ s w2 u w3,
    LocalAuth.login t e (PyText.of_str "123456789") w1 = (Ok s, w2)
    ∧ LocalAuth.access_token s = t
    ∧ LocalAuth.ui_id (LocalAuth.user s) = fresh_id
    ∧ LocalAuth.ui_isAdmin (LocalAuth.user s) = Some true
    ∧ Auth.get_current_user (Some t) w2 = (Ok u, w3)
    ∧ Auth.id u = fresh_id
    ∧ Admin.get_admin_user u = Ok u.
Proof.
  intros Hnone Hnorm Hdemo Hlen. cbv zeta.
  rewrite ensure_admin_user_eq, Hnone. cbv zeta. cbn [snd].
  rewrite login_eq, Hnorm, save_users_accounts, odict_get_set_eq.
  replace (PyText.encode (PyText.of_str "123456789"))
    with (inr (A := nat) "123456789") by (vm_compute; reflexivity).
  cbn [acc_password_salt acc_password_hash].
  rewrite bool_decide_eq_true_2 by done.
  eexists _, _, _, _. split; [reflexivity|].
  split; [done|]. split; [done|]. split; [done|].
  rewrite get_current_user_eq by done.
  rewrite register_token_tokens, lookup_insert_eq.
  rewrite bool_decide_eq_false_2 by done.
  rewrite accounts_register_token, ensure_data_dir_accounts,
    save_users_accounts, odict_get_set_eq.
  split; [reflexivity|]. split; [done|]. done.
Qed.

Lemma admin_default_password_witness :
  ∃ s w2,
    LocalAuth.login (H := sample_runtime)
      "tokA_Zk3vQ9xL2mN8pR4sT6uW0yB1cD5eF7gH9jK" " Admin@Incomiq.com"
      (PyText.of_str "123456789")
      (LocalAuth.ensure_admin_user (H := sample_runtime) "admin-1" "5a17"
         "2025-03-01T10:00:00.000000" empty_world).2
    = (Ok s, w2)
    ∧ LocalAuth.ui_isAdmin (LocalAuth.user s) = Some true.
Proof.
  destruct (@admin_default_password sample_runtime "admin-1" "5a17"
    "2025-03-01T10:00:00.000000" "tokA_Zk3vQ9xL2mN8pR4sT6uW0yB1cD5eF7gH9jK"
    " Admin@Incomiq.com" empty_world)
    as (s & w2 & u & w3 & Hl & _ & _ & Ha & _).
  - vm_compute. reflexivity.
  - vm_compute. reflexivity.
  - discriminate.
  - vm_compute. lia.
  - exists s, w2. split; [exact Hl|exact Ha].
Defined.

(** X9.  No call of the layer removes an account or a token, and none
    changes a stored password: after any sequence of calls an e-mail that
    had an account still has one, a registered token is still registered,
    and [login] accepts a password for an account exactly when it did
    before, with the same user id. *)
Theorem nothing_revoked `{Runtime} (cs : list call) (w : world)
    (e t : string) :
  (is_Some (ODict.get (accounts w) e) →
   is_Some (ODict.get (accounts (run cs w)) e))
  ∧ (is_Some (tokens w !! t) → is_Some (tokens (run cs w) !! t))
  ∧ (is_Some (ODict.get (accounts w) (normalize e)) →
     ∀ t1 t2 p,
       ((∃ s1, (LocalAuth.login t1 e p w).1 = Ok s1)
        ↔ (∃ s2, (LocalAuth.login t2 e p (run cs w)).1 = Ok s2))
       ∧ ∀ s1 s2,
           (LocalAuth.login t1 e p w).1 = Ok s1 →
           (LocalAuth.login t2 e p (run cs w)).1 = Ok s2 →
           LocalAuth.ui_id (LocalAuth.user s2)
           = LocalAuth.ui_id (LocalAuth.user s1)).
Proof.
  split; [apply account_stays_run|]. split.
  - revert w. induction cs as [|c cs IH]; intros w Ht; [done|].
    simpl. by apply IH, token_stays.
  - intros [a Ha] t1 t2 p.
    destruct (account_kept_run cs w _ a Ha) as (a' & Ha' & Hid & Hhash & Hsalt).
    rewrite !login_eq, Ha, Ha', Hhash, Hsalt.
    destruct (PyText.encode p) as [start|bytes]; simpl.
    { split; [|done]. split; by intros [? ?]. }
    case_bool_decide; simpl.
    + split; [split; eauto|]. by intros s1 s2 [= <-] [= <-].
    + split; [|done]. split; by intros [? ?].
Qed.

(** ** The resolver *)

Section resolver_facts.
Context `{Runtime}.

(** [get_current_user] for every credential. *)
Lemma get_current_user_cases (credentials : option string) (w : world) :
  Auth.get_current_user credentials w =
  match credentials with
  | None => (Raise (HTTPException 401 "Not authenticated"), w)
  | Some token =>
      if bool_decide (token = "demo-token") then (Ok Auth.DEMO_USER, w)
      else if decide (20 < PyStr.len token) then
        match tokens w !! token with
        | None => (Raise (HTTPException 401 "Invalid or expired token"), w)
        | Some email =>
            if bool_decide (email = "")
            then (Raise (HTTPException 401 "Invalid or expired token"), w)
            else
              match ODict.get (accounts w) email with
              | None => (Raise (HTTPException 401 "Invalid or expired token"),
                         LocalAuth._ensure_data_dir w)
              | Some a =>
                  (Ok {| Auth.id := acc_id a;
                         Auth.email := email;
                         Auth.full_name := acc_full_name a;
                         Auth.is_demo := false;
                         Auth.is_new_account :=
                           Some (default false (acc_is_new_account a));
                         Auth.is_admin :=
                           Some (default false (acc_is_admin a)) |},
                   LocalAuth._ensure_data_dir w)
              end
        end
      else (Raise (HTTPException 401 "Invalid token format"), w)
  end.
Proof.
  destruct credentials as [token|]; [|done].
  destruct (bool_decide (token = "demo-token")) eqn:Ed.
  - unfold Auth.get_current_user. by rewrite Ed.
  - apply bool_decide_eq_false in Ed.
    destruct (decide (20 < PyStr.len token)) as [Hl|Hl].
    + by apply get_current_user_eq.
    + unfold Auth.get_current_user.
      rewrite bool_decide_eq_false_2 by done. by rewrite decide_False by done.
Qed.

End resolver_facts.

(** X10.  When [get_current_user] returns an identity, the credential is
    either the demo token, and the identity is [DEMO_USER], or a token of
    more than 20 characters that the registry maps to the e-mail of an
    account, and the identity carries the id, name and flags of that
    account.  The call changes no account, token or collection. *)
Theorem resolver_sound `{Runtime} (credentials : option string) (w w' : world)
    (u : Auth.identity) :
  Auth.get_current_user credentials w = (Ok u, w') →
  accounts w' = accounts w ∧ tokens w' = tokens w ∧ data_json w' = data_json w
  ∧ ((credentials = Some "demo-token" ∧ u = Auth.DEMO_USER)
     ∨ ∃ t a, credentials = Some t ∧ t ≠ "demo-token" ∧ 20 < PyStr.len t
         ∧ tokens w !! t = Some (Auth.email u)
         ∧ ODict.get (accounts w) (Auth.email u) = Some a
         ∧ Auth.id u = acc_id a
         ∧ Auth.full_name u = acc_full_name a
         ∧ Auth.is_demo u = false
         ∧ Auth.is_admin u = Some (default false (acc_is_admin a))
         ∧ Auth.is_new_account u
           = Some (default false (acc_is_new_account a))).
Proof.
  rewrite get_current_user_cases.
  destruct credentials as [t|]; [|done].
  case_bool_decide as Hd.
  - intros [= <- <-]. split_and!; try done. left. by subst.
  - destruct (decide (20 < PyStr.len t)); [|done].
    destruct (tokens w !! t) as [e|] eqn:Et; [|done].
    case_bool_decide; [done|].
    destruct (ODict.get (accounts w) e) as [a|] eqn:Ea; [|done].
    intros [= <- <-].
    rewrite ensure_data_dir_accounts, tokens_ensure_data_dir.
    split_and!; try done; [by frame|].
    right. exists t, a. by split_and!.
Qed.

Lemma resolver_sound_witness :
  let w := (LocalAuth.signup (H := sample_runtime) (sample_draws "1")
              "new.user@gmail.com" (PyText.of_str "secret1") "New User"
              empty_world).2 in
  ∃ u w',
    Auth.get_current_user (Some (LocalAuth.draw_token (sample_draws "1"))) w
    = (Ok u, w')
    ∧ tokens w' = tokens w.
Proof.
  intros w.
  destruct (Auth.get_current_user
              (Some (LocalAuth.draw_token (sample_draws "1"))) w)
    as [[u|err] w'] eqn:Hr.
  - exists u, w'. split; [reflexivity|].
    exact (proj1 (proj2 (@resolver_sound sample_runtime _ w w' u Hr))).
  - vm_compute in Hr. discriminate Hr.
Defined.

(** X11.  Every error of [get_current_user] is an HTTP 401.  The detail is
    "Not authenticated" without a credential, "Invalid token format" for a
    token of at most 20 characters, whether the registry holds it or not,
    and "Invalid or expired token" for a longer one.  A rejected call
    changes no account, token or collection. *)
Theorem resolver_rejects `{Runtime} (credentials : option string) (w : world)
    (err : exn) :
  (Auth.get_current_user credentials w).1 = Raise err →
  let w' := (Auth.get_current_user credentials w).2 in
  (∃ detail, err = HTTPException 401 detail
     ∧ (credentials = None → detail = "Not authenticated")
     ∧ (∀ t, credentials = Some t → PyStr.len t ≤ 20 →
          detail = "Invalid token format")
     ∧ (∀ t, credentials = Some t → 20 < PyStr.len t →
          detail = "Invalid or expired token"
          ∧ ∀ e a, tokens w !! t = Some e → e ≠ "" →
              ODict.get (accounts w) e = Some a → False))
  ∧ accounts w' = accounts w ∧ tokens w' = tokens w
  ∧ data_json w' = data_json w.
Proof.
  cbv zeta. rewrite get_current_user_cases.
  destruct credentials as [t|].
  - case_bool_decide as Hd; [done|].
    destruct (decide (20 < PyStr.len t)) as [Hl|Hl].
    + destruct (tokens w !! t) as [e|] eqn:Et.
      * case_bool_decide as He.
        -- intros [= <-]. split; [|done]. eexists. split; [done|].
           split; [done|]. split; [intros ? [= <-]; lia|].
           intros ? [= <-] _. split; [done|]. intros; congruence.
        -- destruct (ODict.get (accounts w) e) as [a|] eqn:Ea; [done|].
           intros [= <-]. cbn [snd].
           rewrite ensure_data_dir_accounts, tokens_ensure_data_dir.
           split; [|split_and!; try done; by frame].
           eexists. split; [done|].
           split; [done|]. split; [intros ? [= <-]; lia|].
           intros ? [= <-] _. split; [done|]. intros; congruence.
      * intros [= <-]. split; [|done]. eexists. split; [done|].
        split; [done|]. split; [intros ? [= <-]; lia|].
        intros ? [= <-] _. split; [done|]. intros; congruence.
    + intros [= <-]. split; [|done]. eexists. split; [done|].
      split; [done|]. split; [done|]. intros ? [= <-]. lia.
  - intros [= <-]. split; [|done]. eexists. split; [done|].
    split; [done|]. split; intros; congruence.
Qed.

Lemma resolver_rejects_witness :
  let w := TokenRegistry.register_local_token "shorttoken"
             "new.user@gmail.com"
             (LocalAuth.signup (H := sample_runtime) (sample_draws "1")
                "new.user@gmail.com" (PyText.of_str "secret1") "New User"
                empty_world).2 in
  tokens w !! "shorttoken" = Some "new.user@gmail.com"
  ∧ ∃ err, (Auth.get_current_user (Some "shorttoken") w).1 = Raise err
           ∧ err = HTTPException 401 "Invalid token format".
Proof.
  intros w. split; [vm_compute; reflexivity|].
  destruct (Auth.get_current_user (Some "shorttoken") w).1 as [u|err] eqn:Hr.
  - vm_compute in Hr. discriminate Hr.
  - exists err. split; [reflexivity|].
    destruct (@resolver_rejects sample_runtime (Some "shorttoken") w err Hr)
      as [(detail & -> & _ & Hshort & _) _].
    rewrite (Hshort "shorttoken" eq_refl); [reflexivity|].
    vm_compute. lia.
Defined.

(** ** The document store: bulk appends, partitions, clearing *)

Ltac in_collections :=
  unfold collections;
  repeat first [apply list_elem_of_here | apply list_elem_of_further].

Section store_more_facts.
Import LocalStorage.

Lemma set_data_json_twice (m m' : gmap string (file (list record))) (w : world) :
  set_data_json m' (set_data_json m w) = set_data_json m' w.
Proof. done. Qed.

Lemma set_data_json_same (w : world) : set_data_json (data_json w) w = w.
Proof. by destruct w. Qed.

Lemma save_data_again (u t : string) (l l' : list record) (w : world) :
  _save_data u t l' (_save_data u t l w) = _save_data u t l' w.
Proof.
  unfold _save_data. simpl. rewrite set_data_json_twice.
  by rewrite insert_insert_eq.
Qed.

(** Appending one record at a time writes what one bulk append writes. *)
Lemma add_each_eq (t u : string) (l : list record) :
  ∀ (now : nat → string) (w : world), l ≠ [] →
  foldl (λ w p, (add_to t p.1 u p.2 w).2) w (imap (λ i r, (now i, r)) l)
  = _save_data u t
      (_load_data u t w ++ imap (λ i r, stamp u (now i) r) l) w.
Proof.
  induction l as [|r l IH]; intros now w Hne; [done|].
  cbn [imap foldl fst snd]. unfold add_to at 2. cbn [snd].
  destruct l as [|r' l]; [done|].
  change ((λ i r, (now i, r)) ∘ S) with (λ i (r : record), (now (S i), r)).
  rewrite (IH (λ i, now (S i))) by done.
  rewrite load_save, save_data_again, <- (assoc_L (++)). done.
Qed.

Lemma clear_user_data_eq (u : string) (w : world) :
  clear_user_data u w
  = set_data_json
      (delete (_get_user_file u "goals")
         (delete (_get_user_file u "rules")
            (delete (_get_user_file u "expenses")
               (delete (_get_user_file u "incomes") (data_json w))))) w.
Proof.
  assert (Hstep : ∀ f w,
    match data_json w !! f with
    | Some _ => set_data_json (delete f (data_json w)) w
    | None => w
    end = set_data_json (delete f (data_json w)) w).
  { intros f w0. destruct (data_json w0 !! f) eqn:E; [done|].
    rewrite delete_id by done. by rewrite set_data_json_same. }
  unfold clear_user_data. cbn [foldl]. rewrite !Hstep. done.
Qed.

Lemma load_data_lookup (u t : string) (w w' : world) :
  data_json w' !! _get_user_file u t = data_json w !! _get_user_file u t →
  _load_data u t w' = _load_data u t w.
Proof. unfold _load_data. by intros ->. Qed.

(** The record of [create_income] carries the id that was drawn. *)
Lemma stamp_keeps_id (u now : string) (r : record) :
  stamp u now r !! "id" = r !! "id".
Proof. by apply stamp_other. Qed.

Lemma filter_app_one (rid : string) (l : list record) (r : record) :
  r !! "id" = Some (VStr rid) →
  List.filter (id_differs rid) (l ++ [r]) = List.filter (id_differs rid) l.
Proof.
  intros Hr. rewrite List.filter_app. simpl.
  rewrite (proj2 (id_differs_false rid r) Hr). by rewrite app_nil_r.
Qed.

Lemma filter_fresh (rid : string) (l : list record) :
  Forall (λ r : record, r !! "id" ≠ Some (VStr rid)) l →
  List.filter (id_differs rid) l = l.
Proof.
  induction 1 as [|r l Hr _ IH]; simpl; [done|].
  destruct (id_differs rid r) eqn:E.
  - by rewrite IH.
  - by apply id_differs_false in E.
Qed.

End store_more_facts.

(** X12.  A bulk append leaves the state that appending the records one by
    one, each at its own time, leaves, and returns the number of records;
    with an empty list nothing is written. *)
Theorem bulk_is_repeated_add (data_type : string) (now : nat → string)
    (user_id : string) (new_items : list record) (w : world) :
  let out := LocalStorage.add_bulk_to data_type now user_id new_items w in
  out.1 = length new_items
  ∧ out.2
    = foldl (λ w p, (LocalStorage.add_to data_type p.1 user_id p.2 w).2) w
        (imap (λ i r, (now i, r)) new_items)
  ∧ (LocalStorage.add_bulk_to data_type now user_id [] w).2 = w.
Proof.
  cbv zeta. split; [|split; [|done]].
  - unfold LocalStorage.add_bulk_to. destruct new_items; [done|].
    cbn [fst]. by rewrite length_imap.
  - destruct new_items as [|r l]; [done|].
    by rewrite add_each_eq.
Qed.

(** X13.  The collections of different users, and the different
    collections of one user, are separate: an append, a bulk append, a
    deletion or a save on one of them changes the list of no other, and
    clearing the data of one user changes no list of another user. *)
Theorem partitions_isolated (t t' u u' now : string) (nows : nat → string)
    (r : record) (l : list record) (rid : string) (w : world) :
  t ∈ collections → t' ∈ collections → ¬ (u = u' ∧ t = t') →
  let unchanged (w' : world) :=
    LocalStorage._load_data u' t' w' = LocalStorage._load_data u' t' w in
  unchanged (LocalStorage.add_to t now u r w).2
  ∧ unchanged (LocalStorage.add_bulk_to t nows u l w).2
  ∧ unchanged (LocalStorage.delete_from t u rid w).2
  ∧ unchanged (LocalStorage._save_data u t l w)
  ∧ (u ≠ u' → unchanged (LocalStorage.clear_user_data u w)).
Proof.
  intros Ht Ht' Hne. cbv zeta.
  assert (Hsave : ∀ l0, LocalStorage._load_data u' t' (LocalStorage._save_data u t l0 w)
                        = LocalStorage._load_data u' t' w).
  { intros l0. rewrite load_after_save by done. by rewrite decide_False. }
  split; [apply Hsave|]. split.
  { unfold LocalStorage.add_bulk_to. destruct l; [done|]. apply Hsave. }
  split.
  { unfold LocalStorage.delete_from. case_decide; [apply Hsave|done]. }
  split; [apply Hsave|].
  intros Hu. rewrite clear_user_data_eq. apply load_data_lookup.
  unfold set_data_json; cbn [data_json].
  rewrite !lookup_delete_ne; [done|..];
    intros Heq; apply user_file_inj in Heq as [? ?]; try done;
    in_collections.
Qed.

Lemma partitions_isolated_witness :
  LocalStorage._load_data "u2" "incomes"
    (LocalStorage.add_to "incomes" "2025-03-01T10:00:00" "u1" ∅
       (LocalStorage._save_data "u2" "incomes" [∅] empty_world)).2
  = [∅].
Proof.
  refine (eq_trans (proj1 (partitions_isolated "incomes" "incomes" "u1" "u2"
    "2025-03-01T10:00:00" (λ _, "") ∅ [] ""
    (LocalStorage._save_data "u2" "incomes" [∅] empty_world) _ _ _)) _).
  - in_collections.
  - in_collections.
  - intros [Hu _]. discriminate Hu.
  - vm_compute. reflexivity.
Defined.

(** X14.  [clear_user_data] empties the four collections of the user and
    no collection of another user; it removes neither the account nor a
    token of the user, and clearing twice is clearing once. *)
Theorem clear_user_data_effect (u u' t' : string) (w : world) :
  u' ≠ u → t' ∈ collections →
  let w' := LocalStorage.clear_user_data u w in
  Forall (λ t, LocalStorage._load_data u t w' = []) collections
  ∧ LocalStorage._load_data u' t' w' = LocalStorage._load_data u' t' w
  ∧ users_json w' = users_json w ∧ tokens_json w' = tokens_json w
  ∧ LocalStorage.clear_user_data u w' = w'.
Proof.
  intros Hu Ht'. cbv zeta. rewrite !clear_user_data_eq. split.
  - unfold collections. repeat apply Forall_cons_2; [..|apply Forall_nil_2];
      unfold LocalStorage._load_data, set_data_json; cbn [data_json].
    + do 3 (rewrite lookup_delete_ne; [|
        intros Heq; apply user_file_inj in Heq as [? ?]; try done;
        in_collections]).
      by rewrite lookup_delete_eq.
    + do 2 (rewrite lookup_delete_ne; [|
        intros Heq; apply user_file_inj in Heq as [? ?]; try done;
        in_collections]).
      by rewrite lookup_delete_eq.
    + do 1 (rewrite lookup_delete_ne; [|
        intros Heq; apply user_file_inj in Heq as [? ?]; try done;
        in_collections]).
      by rewrite lookup_delete_eq.
    + by rewrite lookup_delete_eq.
  - split.
    { apply load_data_lookup. unfold set_data_json; cbn [data_json].
      rewrite !lookup_delete_ne; [done|..];
        intros Heq; apply user_file_inj in Heq as [? ?]; try done;
        in_collections. }
    split; [done|]. split; [done|].
    unfold set_data_json; cbn [data_json users_json tokens_json demo_goals].
    f_equal.
    rewrite (delete_id _ (LocalStorage._get_user_file u "incomes"))
      by (rewrite !lookup_delete_None; tauto).
    rewrite (delete_id _ (LocalStorage._get_user_file u "expenses"))
      by (rewrite !lookup_delete_None; tauto).
    rewrite (delete_id _ (LocalStorage._get_user_file u "rules"))
      by (rewrite !lookup_delete_None; tauto).
    by rewrite (delete_id _ (LocalStorage._get_user_file u "goals"))
      by (rewrite !lookup_delete_None; tauto).
Qed.

Lemma clear_user_data_effect_witness :
  let w := LocalStorage._save_data "u2" "goals" [∅]
             (LocalStorage._save_data "u1" "goals" [∅] empty_world) in
  LocalStorage._load_data "u1" "goals" (LocalStorage.clear_user_data "u1" w) = []
  ∧ LocalStorage._load_data "u2" "goals" (LocalStorage.clear_user_data "u1" w)
    = [∅].
Proof.
  intros w.
  destruct (clear_user_data_effect "u1" "u2" "goals" w) as (Hall & Hother & _).
  - discriminate.
  - in_collections.
  - split.
    + apply Forall_cons_1 in Hall as [_ Hall].
      apply Forall_cons_1 in Hall as [_ Hall].
      apply Forall_cons_1 in Hall as [_ Hall].
      by apply Forall_cons_1 in Hall as [Hall _].
    + rewrite Hother. vm_compute. reflexivity.
Defined.

(** ** Routes over the store *)

Section route_facts.

Lemma create_income_eq (uuid now : string) (body : Models.IncomeCreate)
    (user : Auth.identity) (w : world) :
  ∃ r, Incomes.create_income uuid now body user w
       = (Ok r, LocalStorage._save_data (Auth.id user) "incomes"
                  (LocalStorage.get_incomes (Auth.id user) w ++ [r]) w)
    ∧ r !! "id" = Some (VStr uuid)
    ∧ r !! "user_id" = Some (VStr (Auth.id user))
    ∧ r !! "created_at" = Some (VStr now).
Proof.
  unfold Incomes.create_income. unfold_m.
  unfold LocalStorage.add_income, LocalStorage.add_to. cbn [fst snd].
  eexists. split; [reflexivity|].
  split; [|split].
  - rewrite stamp_keeps_id. rewrite !lookup_insert_ne by done.
    rewrite lookup_union_r; [by rewrite lookup_insert_eq|].
    unfold Models.IncomeCreate_dump. by rewrite !lookup_insert_ne.
  - apply stamp_user_id.
  - rewrite stamp_created_at. by rewrite lookup_insert_eq.
Qed.

End route_facts.

(** X15.  An income created through the route with an id that no stored
    income of the user carries is removed again by the delete route with
    that id: the list of the user is then what it was before the two
    calls, and a further delete with the id answers 404 and changes
    nothing. *)
Theorem income_create_then_delete (uuid now : string)
    (body : Models.IncomeCreate) (user : Auth.identity) (w : world) :
  Forall (λ r : record, r !! "id" ≠ Some (VStr uuid))
    (LocalStorage.get_incomes (Auth.id user) w) →
  let created := Incomes.create_income uuid now body user w in
  let deleted := Incomes.delete_income uuid user created.2 in
  (∃ r, created.1 = Ok r ∧ r !! "id" = Some (VStr uuid)
        ∧ LocalStorage.get_incomes (Auth.id user) created.2
          = LocalStorage.get_incomes (Auth.id user) w ++ [r])
  ∧ deleted.1 = Ok ()
  ∧ LocalStorage.get_incomes (Auth.id user) deleted.2
    = LocalStorage.get_incomes (Auth.id user) w
  ∧ Incomes.delete_income uuid user deleted.2
    = (Raise (HTTPException 404 "Income not found"), deleted.2).
Proof.
  intros Hfresh. cbv zeta.
  destruct (create_income_eq uuid now body user w) as (r & -> & Hid & _).
  cbn [fst snd]. unfold LocalStorage.get_incomes in *.
  rewrite load_save. split; [by exists r|].
  unfold Incomes.delete_income. unfold_m.
  unfold LocalStorage.delete_income, LocalStorage.delete_from.
  rewrite load_save, filter_app_one, filter_fresh by done.
  rewrite length_app. simpl. rewrite decide_True by lia. simpl.
  rewrite save_data_again, load_save, filter_fresh by done.
  rewrite decide_False by lia. done.
Qed.

Lemma income_create_then_delete_witness :
  LocalStorage.get_incomes "u1"
    (Incomes.delete_income "i-1" (sample_user "u1")
       (Incomes.create_income "i-1" "2025-03-01T10:00:00" sample_income
          (sample_user "u1") empty_world).2).2
  = [].
Proof.
  refine (proj1 (proj2 (proj2 (income_create_then_delete "i-1"
    "2025-03-01T10:00:00" sample_income (sample_user "u1") empty_world _)))).
  vm_compute. constructor.
Defined.

(** ** Goals: contributions over time *)

Section contribution_facts.
Import Goals.

Lemma Qmin_accumulate (c a s t n1 n : Q) :
  (0 <= s)%Q → (n1 == Qmin (c + a) t)%Q → (n == Qmin (n1 + s) t)%Q →
  (n == Qmin (c + (a + s)) t)%Q.
Proof.
  intros Hs H1 H2.
  destruct (Q.min_spec (c + a) t) as [[? E1]|[? E1]];
    destruct (Q.min_spec (n1 + s) t) as [[? E2]|[? E2]];
    destruct (Q.min_spec (c + (a + s)) t) as [[? E3]|[? E3]];
    rewrite E1 in H1; rewrite E2 in H2; rewrite E3; lra.
Qed.

Lemma sum_nonneg (l : list Q) :
  Forall (λ a, 0 < a)%Q l → (0 <= fold_right Qplus 0 l)%Q.
Proof.
  induction 1 as [|a l Ha _ IH]; simpl; [lra|]. lra.
Qed.

Lemma id_is_differs (goal_id : string) (l : list record) :
  Forall (λ x : record, ∃ v, x !! "id" = Some v ∧ eq_str v goal_id = false)
    l →
  Forall (λ x, id_is goal_id x = Ok false) l.
Proof.
  apply List.Forall_impl. intros x (v & Hx & Hv).
  unfold id_is, getitem. by rewrite Hx, Hv.
Qed.

Lemma update_first_miss (test : record → res bool) (upd : record → res record)
    (l : list record) :
  Forall (λ x, test x = Ok false) l → update_first test upd l = Ok None.
Proof.
  induction 1 as [|x l Hx _ IH]; simpl; [done|]. by rewrite Hx, IH.
Qed.

Lemma update_first_raises (test : record → res bool) (upd : record → res record)
    (before after : list record) (g : record) (e : exn) :
  Forall (λ x, test x = Ok false) before → test g = Raise e →
  update_first test upd (before ++ g :: after) = Raise e.
Proof.
  intros Hb Hg. induction Hb as [|x l Hx _ IH]; simpl.
  - by rewrite Hg.
  - by rewrite Hx, IH.
Qed.

(** One contribution to the goal at the end of the list. *)
Lemma add_money_last (uuid now : nat → string) (goal_id : string) (a : Q)
    (user : Auth.identity) (w : world) (before : list record) (g0 : record)
    (c t : Q) :
  Auth.is_demo user = false →
  LocalStorage.get_goals (Auth.id user) w
    = before ++ [<["current_amount" := VNum c]> g0] →
  Forall (λ x : record, ∃ v, x !! "id" = Some v ∧ eq_str v goal_id = false)
    before →
  g0 !! "id" = Some (VStr goal_id) →
  g0 !! "target_amount" = Some (VNum t) →
  ∃ n, LocalStorage.get_goals (Auth.id user)
         (add_money uuid now goal_id {| Models.amount := a |} user w).2
       = before ++ [<["current_amount" := VNum n]> g0]
    ∧ (n == Qmin (c + a) t)%Q.
Proof.
  intros Hdemo Hgoals Hbefore Hid Ht.
  set (g := <["current_amount" := VNum c]> g0).
  destruct (contribute_spec a c t g) as (n & Hn & _ & Hmin).
  { subst g. by rewrite lookup_insert_eq. }
  { subst g. by rewrite lookup_insert_ne. }
  exists n. split; [|done].
  unfold add_money. rewrite Hdemo. unfold_m. rewrite Hgoals.
  rewrite (update_first_hit _ _ before [] g (<["current_amount" := VNum n]> g)).
  - simpl. unfold LocalStorage.get_goals, LocalStorage.save_goals.
    rewrite load_save. subst g. by rewrite insert_insert_eq.
  - by apply id_is_differs.
  - unfold id_is, getitem. subst g. rewrite lookup_insert_ne by done.
    rewrite Hid. simpl. by rewrite bool_decide_eq_true_2.
  - done.
Qed.

Lemma add_money_repeated (uuid now : nat → string) (goal_id : string)
    (user : Auth.identity) (before : list record) (g0 : record) (t : Q)
    (amounts : list Q) :
  Auth.is_demo user = false →
  Forall (λ x : record, ∃ v, x !! "id" = Some v ∧ eq_str v goal_id = false)
    before →
  g0 !! "id" = Some (VStr goal_id) →
  g0 !! "target_amount" = Some (VNum t) →
  Forall (λ a, 0 < a)%Q amounts →
  ∀ (c : Q) (w : world),
    (c <= t)%Q →
    LocalStorage.get_goals (Auth.id user) w
      = before ++ [<["current_amount" := VNum c]> g0] →
    ∃ n, LocalStorage.get_goals (Auth.id user)
           (foldl (λ w a, (add_money uuid now goal_id
                             {| Models.amount := a |} user w).2) w amounts)
         = before ++ [<["current_amount" := VNum n]> g0]
      ∧ (n == Qmin (c + fold_right Qplus 0 amounts) t)%Q.
Proof.
  intros Hdemo Hbefore Hid Ht Hpos.
  induction Hpos as [|a amounts Ha Hpos IH]; intros c w Hct Hgoals.
  - exists c. split; [done|]. simpl. rewrite Q.min_l; lra.
  - destruct (add_money_last uuid now goal_id a user w before g0 c t)
      as (n1 & Hg1 & Hn1); try done.
    assert (Hle : (n1 <= t)%Q) by (rewrite Hn1; apply Q.le_min_r).
    destruct (IH n1 _ Hle Hg1) as (n & Hg & Hn).
    exists n. split; [done|]. simpl.
    eapply Qmin_accumulate; [by apply sum_nonneg|done..].
Qed.

End contribution_facts.

(** X16.  A goal is created for an account with an id that none of its
    goals carries and a target above zero, and contributions above zero
    follow.  Then the list of goals is the list from before followed by
    the created goal, whose [current_amount] is
    [min(sum of the contributions, target_amount)]: the amounts add up and
    stop at the target. *)
Theorem goal_contributions_add_up (gid now : string)
    (seed_uuid seed_now : nat → string) (body : Models.GoalCreate)
    (user : Auth.identity) (amounts : list Q) (w : world) :
  Auth.is_demo user = false →
  Forall (λ x : record, ∃ v, x !! "id" = Some v ∧ eq_str v gid = false)
    (LocalStorage.get_goals (Auth.id user) w) →
  (0 < Models.gc_target_amount body)%Q →
  Forall (λ a, 0 < a)%Q amounts →
  let created := Goals.create_goal gid now seed_uuid seed_now body user w in
  let final :=
    foldl (λ w a, (Goals.add_money seed_uuid seed_now gid
                     {| Models.amount := a |} user w).2) created.2 amounts in
  ∃ g n,
    created.1 = Ok g
    ∧ g !! "current_amount" = Some (VNum 0)
    ∧ LocalStorage.get_goals (Auth.id user) final
      = LocalStorage.get_goals (Auth.id user) w
        ++ [<["current_amount" := VNum n]> g]
    ∧ (n == Qmin (fold_right Qplus 0 amounts) (Models.gc_target_amount body))%Q.
Proof.
  intros Hdemo Hfresh Htarget Hpos. cbv zeta.
  unfold Goals.create_goal. rewrite Hdemo. unfold_m. cbn [fst snd].
  set (g := <["id" := VStr gid]> _).
  assert (Hcur : g !! "current_amount" = Some (VNum 0)) by by simplify_map_eq.
  assert (Hid : g !! "id" = Some (VStr gid)) by by simplify_map_eq.
  assert (Ht : g !! "target_amount"
               = Some (VNum (Models.gc_target_amount body)))
    by by simplify_map_eq.
  set (w1 := LocalStorage.save_goals (Auth.id user)
               (LocalStorage.get_goals (Auth.id user) w ++ [g]) w).
  assert (Hw1 : LocalStorage.get_goals (Auth.id user) w1
                = LocalStorage.get_goals (Auth.id user) w
                  ++ [<["current_amount" := VNum 0]> g]).
  { subst w1. unfold LocalStorage.get_goals, LocalStorage.save_goals.
    rewrite load_save. by rewrite insert_id. }
  assert (H0t : (0 <= Models.gc_target_amount body)%Q) by lra.
  destruct (add_money_repeated seed_uuid seed_now gid user
    (LocalStorage.get_goals (Auth.id user) w) g
    (Models.gc_target_amount body) amounts Hdemo Hfresh Hid Ht Hpos
    0%Q w1 H0t Hw1) as (n & Hg & Hn).
  exists g, n. split; [done|]. split; [done|]. split; [done|].
  rewrite Hn. by rewrite Qplus_0_l.
Qed.

Lemma goal_contributions_add_up_witness :
  ∃ g n,
    LocalStorage.get_goals "u1"
      (foldl (λ w a, (Goals.add_money (λ _, "s") (λ _, "t") "g-1"
                        {| Models.amount := a |} (sample_user "u1") w).2)
         (Goals.create_goal "g-1" "2025-03-01T10:00:00" (λ _, "s") (λ _, "t")
            {| Models.gc_name := "Laptop"; Models.gc_target_amount := 1000;
               Models.gc_target_date := "2025-09-30";
               Models.gc_icon := "laptop";
               Models.gc_monthly_contribution := 100 |}
            (sample_user "u1") empty_world).2
         [400; 400; 400]%Q)
    = [<["current_amount" := VNum n]> g]
    ∧ (n == 1000)%Q.
Proof.
  destruct (goal_contributions_add_up "g-1" "2025-03-01T10:00:00"
    (λ _, "s") (λ _, "t")
    {| Models.gc_name := "Laptop"; Models.gc_target_amount := 1000;
       Models.gc_target_date := "2025-09-30"; Models.gc_icon := "laptop";
       Models.gc_monthly_contribution := 100 |}
    (sample_user "u1") [400; 400; 400]%Q empty_world)
    as (g & n & _ & _ & Hl & Hn).
  - reflexivity.
  - vm_compute. constructor.
  - vm_compute. reflexivity.
  - repeat constructor.
  - exists g, n. split; [exact Hl|].
    exact (Qeq_trans _ _ _ Hn
      (eq_refl : (Qmin (fold_right Qplus 0 [400; 400; 400]) 1000 == 1000)%Q)).
Defined.

(** X17.  For an account that is not the demo account, an [add_money]
    that raises writes nothing.  When every goal of the account has an id
    other than the one asked for, the error is the 404 "Goal not found";
    when a goal without an id comes before any match, it is the
    [KeyError] of the lookup. *)
Theorem add_money_failure (uuid now : nat → string) (goal_id : string)
    (body : Models.AddMoneyRequest) (user : Auth.identity) (w : world) :
  Auth.is_demo user = false →
  let out := Goals.add_money uuid now goal_id body user w in
  let differs (x : record) :=
    ∃ v, x !! "id" = Some v ∧ eq_str v goal_id = false in
  (∀ e, out.1 = Raise e → out.2 = w)
  ∧ (Forall differs (LocalStorage.get_goals (Auth.id user) w) →
     out = (Raise (HTTPException 404 "Goal not found"), w))
  ∧ (∀ before g after,
       LocalStorage.get_goals (Auth.id user) w = before ++ g :: after →
       Forall differs before → g !! "id" = None →
       out = (Raise (KeyError "id"), w)).
Proof.
  intros Hdemo. cbv zeta. unfold Goals.add_money. rewrite Hdemo. unfold_m.
  split; [|split].
  - intros e.
    destruct (Goals.update_first _ _ _) as [[[g goals]|]|e']; simpl; done.
  - intros Hall. rewrite update_first_miss; [done|]. by apply id_is_differs.
  - intros before g after -> Hbefore Hg.
    rewrite (update_first_raises _ _ before after g (KeyError "id")); [done|..].
    + by apply id_is_differs.
    + unfold Goals.id_is, getitem. by rewrite Hg.
Qed.

Lemma add_money_failure_witness :
  Goals.add_money (λ _, "s") (λ _, "t") "g-2" {| Models.amount := 5 |}
    (sample_user "u1")
    (LocalStorage.save_goals "u1" [sample_goal "g-1" 0 1000] empty_world)
  = (Raise (HTTPException 404 "Goal not found"),
     LocalStorage.save_goals "u1" [sample_goal "g-1" 0 1000] empty_world).
Proof.
  refine (proj1 (proj2 (add_money_failure (λ _, "s") (λ _, "t") "g-2"
    {| Models.amount := 5 |} (sample_user "u1")
    (LocalStorage.save_goals "u1" [sample_goal "g-1" 0 1000] empty_world)
    eq_refl)) _).
  vm_compute. repeat constructor. eexists. split; reflexivity.
Defined.

(** ** Savings rules *)

Section rule_facts.

Lemma filter_res_keeps (rule_id : string) (l : list record) :
  Forall (λ x : record, ∃ v, x !! "id" = Some v ∧ eq_str v rule_id = false) l →
  Admin.filter_res (Rules.id_is_not rule_id) l = Ok l.
Proof.
  induction 1 as [|x l (v & Hx & Hv) _ IH]; simpl; [done|].
  unfold Rules.id_is_not at 1, getitem. by rewrite Hx, Hv, IH.
Qed.

Lemma filter_res_drops_last (rule_id : string) (l : list record) (r : record) :
  Forall (λ x : record, ∃ v, x !! "id" = Some v ∧ eq_str v rule_id = false) l →
  r !! "id" = Some (VStr rule_id) →
  Admin.filter_res (Rules.id_is_not rule_id) (l ++ [r]) = Ok l.
Proof.
  intros Hl Hr. induction Hl as [|x l (v & Hx & Hv) _ IH]; simpl.
  - unfold Rules.id_is_not, getitem. rewrite Hr. simpl.
    by rewrite bool_decide_eq_true_2.
  - unfold Rules.id_is_not at 1, getitem. by rewrite Hx, Hv, IH.
Qed.

Lemma toggle_rule_last (rule_id : string) (user : Auth.identity) (w : world)
    (before : list record) (r : record) :
  LocalStorage.get_rules (Auth.id user) w = before ++ [r] →
  Forall (λ x : record, ∃ v, x !! "id" = Some v ∧ eq_str v rule_id = false)
    before →
  r !! "id" = Some (VStr rule_id) →
  let r' := <["is_active" :=
              VBool (negb (Rules.truthy
                             (default (VBool true) (r !! "is_active"))))]> r in
  Rules.toggle_rule rule_id user w
  = (Ok r', LocalStorage.save_rules (Auth.id user) (before ++ [r']) w).
Proof.
  intros Hrules Hbefore Hid. cbv zeta.
  unfold Rules.toggle_rule. unfold_m. rewrite Hrules.
  erewrite (update_first_hit _ _ before [] r); [done|..].
  - by apply id_is_differs.
  - unfold Goals.id_is, getitem. rewrite Hid. simpl.
    by rewrite bool_decide_eq_true_2.
  - done.
Qed.

Lemma scan_rules_app (l1 l2 : list record) (usage : list (value * nat)) :
  Admin.scan_rules (l1 ++ l2) usage
  = match Admin.scan_rules l1 usage with
    | Ok u => Admin.scan_rules l2 u
    | Raise e => Raise e
    end.
Proof.
  revert usage. induction l1 as [|r l1 IH]; intros usage; simpl; [done|].
  destruct (Admin.rule_type r) as [ty|e]; [|done].
  destruct (Admin.hashable ty); [apply IH|done].
Qed.

End rule_facts.

(** X18.  A rule is created for an account with an id that none of its
    rules carries.  It is stored last and active; [toggle_rule] makes it
    inactive and a second [toggle_rule] active again, which restores the
    list; [delete_rule] then removes it and gives back the list from
    before the creation, after which both [delete_rule] and [toggle_rule]
    answer 404 "Rule not found" and change nothing. *)
Theorem rule_lifecycle (uuid now : string) (body : Models.SavingsRuleCreate)
    (user : Auth.identity) (w : world) :
  Forall (λ x : record, ∃ v, x !! "id" = Some v ∧ eq_str v uuid = false)
    (LocalStorage.get_rules (Auth.id user) w) →
  let rules_of := LocalStorage.get_rules (Auth.id user) in
  ∃ r w1 w2 w3 w4,
    Rules.create_rule uuid now body user w = (Ok r, w1)
    ∧ rules_of w1 = rules_of w ++ [r]
    ∧ r !! "is_active" = Some (VBool true)
    ∧ Rules.toggle_rule uuid user w1
      = (Ok (<["is_active" := VBool false]> r), w2)
    ∧ rules_of w2 = rules_of w ++ [<["is_active" := VBool false]> r]
    ∧ Rules.toggle_rule uuid user w2 = (Ok r, w3)
    ∧ rules_of w3 = rules_of w1
    ∧ Rules.delete_rule uuid user w3 = (Ok (), w4)
    ∧ rules_of w4 = rules_of w
    ∧ Rules.delete_rule uuid user w4
      = (Raise (HTTPException 404 "Rule not found"), w4)
    ∧ Rules.toggle_rule uuid user w4
      = (Raise (HTTPException 404 "Rule not found"), w4).
Proof.
  intros Hfresh. cbv zeta.
  unfold Rules.create_rule. unfold_m. cbn [fst snd].
  set (r := <["id" := VStr uuid]> _).
  assert (Hid : r !! "id" = Some (VStr uuid)) by by simplify_map_eq.
  assert (Hact : r !! "is_active" = Some (VBool true)) by by simplify_map_eq.
  set (old := LocalStorage.get_rules (Auth.id user) w) in *.
  set (w1 := LocalStorage.save_rules (Auth.id user) (old ++ [r]) w).
  set (r' := <["is_active" := VBool false]> r).
  assert (Hid' : r' !! "id" = Some (VStr uuid))
    by (subst r'; by rewrite lookup_insert_ne).
  assert (Hload : ∀ l w0, LocalStorage.get_rules (Auth.id user)
                            (LocalStorage.save_rules (Auth.id user) l w0) = l).
  { intros l w0. apply load_save. }
  assert (Hback : <["is_active" := VBool true]> r' = r).
  { subst r'. rewrite insert_insert_eq. by apply insert_id. }
  exists r, w1,
    (LocalStorage.save_rules (Auth.id user) (old ++ [r']) w1),
    (LocalStorage.save_rules (Auth.id user) (old ++ [r])
       (LocalStorage.save_rules (Auth.id user) (old ++ [r']) w1)),
    (LocalStorage.save_rules (Auth.id user) old
       (LocalStorage.save_rules (Auth.id user) (old ++ [r])
          (LocalStorage.save_rules (Auth.id user) (old ++ [r']) w1))).
  split; [done|]. split; [apply Hload|]. split; [done|].
  split.
  { rewrite (toggle_rule_last uuid user w1 old r); [|apply Hload|done|done].
    by rewrite Hact. }
  split; [apply Hload|]. split.
  { rewrite (toggle_rule_last uuid user _ old r'); [|apply Hload|done|done].
    replace (r' !! "is_active") with (Some (VBool false))
      by (subst r'; by rewrite lookup_insert_eq).
    simpl. by rewrite Hback. }
  split; [subst w1; by rewrite !Hload|]. split.
  { unfold Rules.delete_rule. unfold_m. rewrite Hload.
    rewrite filter_res_drops_last by done. simpl.
    rewrite decide_False; [done|]. rewrite length_app. simpl. lia. }
  split; [apply Hload|]. split.
  - unfold Rules.delete_rule. unfold_m. rewrite Hload.
    rewrite filter_res_keeps by done. simpl. by rewrite decide_True.
  - unfold Rules.toggle_rule. unfold_m. rewrite Hload.
    rewrite update_first_miss; [done|]. by apply id_is_differs.
Qed.

Lemma rule_lifecycle_witness :
  ∃ r w1,
    Rules.create_rule "r-1" "2025-03-01T10:00:00"
      {| Models.sr_name := "Save a fifth";
         Models.sr_condition :=
           {| Models.rc_field := "income_amount";
              Models.rc_operator := "greater_than"; Models.rc_value := 500 |};
         Models.sr_action :=
           {| Models.ra_type := "percentage"; Models.ra_value := 20;
              Models.ra_destination := "Emergency Fund" |};
         Models.sr_safety :=
           {| Models.rs_min_balance := 0; Models.rs_min_income := 0 |} |}
      (sample_user "u1") empty_world = (Ok r, w1)
    ∧ r !! "is_active" = Some (VBool true).
Proof.
  destruct (rule_lifecycle "r-1" "2025-03-01T10:00:00"
    {| Models.sr_name := "Save a fifth";
       Models.sr_condition :=
         {| Models.rc_field := "income_amount";
            Models.rc_operator := "greater_than"; Models.rc_value := 500 |};
       Models.sr_action :=
         {| Models.ra_type := "percentage"; Models.ra_value := 20;
            Models.ra_destination := "Emergency Fund" |};
       Models.sr_safety :=
         {| Models.rs_min_balance := 0; Models.rs_min_income := 0 |} |}
    (sample_user "u1") empty_world)
    as (r & w1 & _ & _ & _ & Hc & _ & Ha & _).
  - vm_compute. constructor.
  - exists r, w1. split; [exact Hc|exact Ha].
Defined.

(** X19.  [create_rule] stores the condition of the request under the key
    ["conditions"], and the dashboard reads the type of a rule from the
    key ["condition"]: a rule made by [create_rule] is counted under
    "unknown" in the rule usage, whatever field its condition names. *)
Theorem created_rule_counts_as_unknown (uuid now : string)
    (body : Models.SavingsRuleCreate) (user : Auth.identity) (w : world) :
  let out := Rules.create_rule uuid now body user w in
  ∃ r,
    out.1 = Ok r
    ∧ LocalStorage.get_rules (Auth.id user) out.2
      = LocalStorage.get_rules (Auth.id user) w ++ [r]
    ∧ r !! "conditions"
      = Some (VList [VDict (Models.RuleConditionModel_dump
                              (Models.sr_condition body))])
    ∧ Models.RuleConditionModel_dump (Models.sr_condition body) !! "field"
      = Some (VStr (Models.rc_field (Models.sr_condition body)))
    ∧ Admin.rule_type r = Ok (VStr "unknown")
    ∧ ∀ usage u,
        Admin.scan_rules (Admin.get_user_rules (Auth.id user) w) usage = Ok u →
        Admin.scan_rules (Admin.get_user_rules (Auth.id user) out.2) usage
        = Ok (Admin.bump u (VStr "unknown")).
Proof.
  cbv zeta. unfold Rules.create_rule. unfold_m. cbn [fst snd].
  set (r := <["id" := VStr uuid]> _).
  assert (Hty : Admin.rule_type r = Ok (VStr "unknown")).
  { unfold Admin.rule_type. subst r. by simplify_map_eq. }
  exists r. split; [done|].
  unfold Admin.get_user_rules, LocalStorage.get_rules, LocalStorage.save_rules.
  rewrite load_save. split; [done|].
  split; [subst r; by simplify_map_eq|].
  split; [unfold Models.RuleConditionModel_dump; by simplify_map_eq|].
  split; [done|].
  intros usage u Hu. rewrite scan_rules_app, Hu. simpl. by rewrite Hty.
Qed.

(** ** The administrator's dashboard *)

Section dashboard_facts.
Context `{Runtime}.
Import Admin.

Lemma get_admin_dashboard_world (clk : clock) (user : Auth.identity)
    (w : world) :
  (get_admin_dashboard clk user w).2
  = match get_admin_user user with
    | Raise _ => w
    | Ok _ => LocalAuth._ensure_data_dir w
    end.
Proof.
  unfold get_admin_dashboard. unfold_m.
  destruct (get_admin_user user); [|done].
  unfold get_all_users_data. rewrite load_users_eq.
  by destruct (dashboard_of _ _ _).
Qed.

Lemma fold_res_invariant {A B} (P : nat → A → Prop)
    (f : nat → A → B → res A) :
  (∀ i n acc x acc', f i acc x = Ok acc' → P n acc → P (S n) acc') →
  ∀ xs i n acc r,
    fold_res f i acc xs = Ok r → P n acc → P (n + length xs) r.
Proof.
  intros Hstep. induction xs as [|x xs IH]; intros i n acc r; simpl.
  - intros [= <-] HP. by rewrite Nat.add_0_r.
  - destruct (f i acc x) as [acc'|e] eqn:E; [|done].
    intros Hr HP. rewrite <- Nat.add_succ_comm.
    eapply IH; [done|]. by eapply Hstep.
Qed.

Lemma scan_large_big (anon_id : string) (expenses : list record) :
  ∀ found r,
    scan_large anon_id expenses found = Ok r →
    Forall (λ t, (50000 < lt_amount t)%Q) found →
    Forall (λ t, (50000 < lt_amount t)%Q) r.
Proof.
  induction expenses as [|exp rest IH]; intros found r; simpl.
  - by intros [= <-].
  - destruct (py_float _) as [amount|e]; [|done].
    destruct (Qlt_le_dec 50000 amount) as [Hbig|_]; [|apply IH].
    destruct (slice_to 50 _) as [description|e]; [|done].
    intros Hr Hfound. eapply IH; [done|].
    apply Forall_app_2; [done|]. by apply Forall_singleton.
Qed.

(** What the loop over the accounts keeps true of its variables. *)
Lemma dashboard_account_keeps (clk : clock) (i n : nat) (acc acc' : totals)
    (user_id : string) (incomes expenses rules : list record) :
  dashboard_account clk i acc user_id incomes expenses rules = Ok acc' →
  (active_users_30d acc ≤ n
   ∧ Forall (λ t, (50000 < lt_amount t)%Q) (large_transactions acc)
   ∧ Forall (λ a, lia_severity a ∈ ["high"; "medium"]
                  ∧ lia_period a = "Last 3 months")
       (low_income_alerts acc)) →
  active_users_30d acc' ≤ S n
  ∧ Forall (λ t, (50000 < lt_amount t)%Q) (large_transactions acc')
  ∧ Forall (λ a, lia_severity a ∈ ["high"; "medium"]
                 ∧ lia_period a = "Last 3 months")
      (low_income_alerts acc').
Proof.
  intros Hacc (Hn & Hbig & Hsev). unfold dashboard_account in Hacc.
  destruct (sum_amounts incomes) as [ti|?]; [|done].
  destruct (sum_amounts expenses) as [te|?]; [|done].
  destruct (match any_res _ incomes with
            | Ok true => Ok true | Ok false => _ | Raise e => Raise e end)
    as [recent|?]; [|done].
  destruct (filter_res _ incomes) as [recent_incomes|?]; [|done].
  destruct (match recent_incomes with [] => _ | _ => _ end)
    as [alerts|?] eqn:Ealerts; [|done].
  destruct (scan_large _ expenses _) as [large|?] eqn:Elarge; [|done].
  destruct (scan_rules rules _) as [usage|?]; [|done].
  injection Hacc as <-. cbn [active_users_30d large_transactions low_income_alerts].
  split; [destruct recent; lia|].
  split; [by eapply scan_large_big|].
  destruct recent_incomes as [|r0 rs]; [by injection Ealerts as <-|].
  destruct (sum_amounts (r0 :: rs)) as [s|?]; [|done].
  destruct (Qlt_le_dec (s / 3) 15000); [|by injection Ealerts as <-].
  injection Ealerts as <-. apply Forall_app_2; [done|].
  apply Forall_singleton. cbn [lia_severity lia_period]. split; [|done].
  destruct (Qlt_le_dec (s / 3) 10000);
    repeat first [apply list_elem_of_here | apply list_elem_of_further].
Qed.

Lemma trend_user_grows (w : world) (i n : nat)
    (trends trends' : list income_trend) (user : user_row) :
  trend_user w i trends user = Ok trends' →
  length trends ≤ n → length trends' ≤ S n.
Proof.
  unfold trend_user. destruct (monthly _ _) as [[|m ms]|?]; [| |done].
  - intros [= <-]. lia.
  - intros [= <-]. rewrite length_app. simpl. lia.
Qed.

End dashboard_facts.

(** X20.  [get_admin_dashboard] only reads: whatever it returns, the
    accounts, the tokens, the collections and the demo goals are as
    before.  It answers 403 "Admin access required", with the state
    untouched, exactly for an identity that has neither the admin flag nor
    the demo flag nor one of the two e-mails of [ADMIN_EMAILS]; every
    other error is a 500 whose detail begins with "Dashboard error: ". *)
Theorem dashboard_access `{Runtime} (clk : Admin.clock) (user : Auth.identity)
    (w : world) :
  let out := Admin.get_admin_dashboard clk user w in
  let refused := HTTPException 403 "Admin access required" in
  (accounts out.2 = accounts w ∧ tokens out.2 = tokens w
   ∧ data_json out.2 = data_json w ∧ demo_goals out.2 = demo_goals w)
  ∧ (out.1 = Raise refused
     ↔ default false (Auth.is_admin user) = false
       ∧ Auth.is_demo user = false
       ∧ Auth.email user ≠ "admin@incomiq.com"
       ∧ Auth.email user ≠ "rahul@demo.com")
  ∧ (out.1 = Raise refused → out.2 = w)
  ∧ (∀ e, out.1 = Raise e →
       e = refused
       ∨ ∃ e', e = HTTPException 500 ("Dashboard error: " +:+ exn_str e')).
Proof.
  cbv zeta. rewrite get_admin_dashboard_world, get_admin_dashboard_eq.
  unfold Admin.get_admin_user, Admin.ADMIN_EMAILS.
  destruct (default false (Auth.is_admin user)) eqn:Ea; simpl.
  { split; [rewrite ensure_data_dir_accounts, tokens_ensure_data_dir; by frame|].
    destruct (Admin.dashboard_of _ _ _) as [d|e0].
    - split; [split; [done|by intros [? _]]|]. split; [done|]. done.
    - split; [split; [done|by intros [? _]]|]. split; [done|].
      intros e [= <-]. right. by exists e0. }
  destruct (Auth.is_demo user) eqn:Ed; simpl.
  { split; [rewrite ensure_data_dir_accounts, tokens_ensure_data_dir; by frame|].
    destruct (Admin.dashboard_of _ _ _) as [d|e0].
    - split; [split; [done|by intros (_ & ? & _)]|]. split; [done|]. done.
    - split; [split; [done|by intros (_ & ? & _)]|]. split; [done|].
      intros e [= <-]. right. by exists e0. }
  case_bool_decide as Hm; simpl.
  - split; [rewrite ensure_data_dir_accounts, tokens_ensure_data_dir; by frame|].
    assert (Hno : ¬ (false = false ∧ false = false
                     ∧ Auth.email user ≠ "admin@incomiq.com"
                     ∧ Auth.email user ≠ "rahul@demo.com")).
    { intros (_ & _ & H1 & H2).
      apply elem_of_cons in Hm as [Hm|Hm]; [done|].
      apply elem_of_cons in Hm as [Hm|Hm]; [done|].
      by apply elem_of_nil in Hm. }
    destruct (Admin.dashboard_of _ _ _) as [d|e0].
    + split; [split; [done|by intros ?]|]. split; [done|]. done.
    + split; [split; [done|by intros ?]|]. split; [done|].
      intros e [= <-]. right. by exists e0.
  - split; [done|]. split.
    + split; [intros _|done]. split; [done|]. split; [done|].
      split; intros Heq; apply Hm; rewrite Heq;
        repeat first [apply list_elem_of_here | apply list_elem_of_further].
    + split; [done|]. intros e [= <-]. by left.
Qed.

(** X21.  A dashboard that [get_admin_dashboard] returns counts every
    account in [total_users] and at most that many as active, lists at
    most 10 low-income alerts, 20 large transactions and 10 income trends,
    flags only expenses above 50000, gives every alert the severity
    "high" or "medium", and carries the time stamp of the clock. *)
Theorem dashboard_bounds `{Runtime} (clk : Admin.clock) (user : Auth.identity)
    (w : world) (d : Admin.dashboard) :
  (Admin.get_admin_dashboard clk user w).1 = Ok d →
  Admin.s_total_users (Admin.d_summary d) = length (accounts w)
  ∧ Admin.s_active_users_30d (Admin.d_summary d) ≤ length (accounts w)
  ∧ length (Admin.d_low_income_alerts d) ≤ 10
  ∧ length (Admin.d_large_transactions d) ≤ 20
  ∧ length (Admin.d_income_trends d) ≤ 10
  ∧ Forall (λ t, (50000 < Admin.lt_amount t)%Q) (Admin.d_large_transactions d)
  ∧ Forall (λ a, Admin.lia_severity a ∈ ["high"; "medium"]
                 ∧ Admin.lia_period a = "Last 3 months")
      (Admin.d_low_income_alerts d)
  ∧ Admin.d_timestamp d = Admin.timestamp clk.
Proof.
  rewrite get_admin_dashboard_eq.
  destruct (Admin.get_admin_user user); [|done].
  set (users := map _ (accounts w)).
  assert (Hlen : length users = length (accounts w))
    by (subst users; apply length_map).
  unfold Admin.dashboard_of.
  destruct (Admin.fold_res (Admin.dashboard_user clk _) 0 Admin.totals0 users)
    as [t|?] eqn:Et; [|done].
  destruct (Admin.fold_res (Admin.trend_user _) 0 [] (take 10 users))
    as [trends|?] eqn:Etr; [|done].
  intros [= <-]. cbn.
  pose proof (fold_res_invariant
    (λ n acc, Admin.active_users_30d acc ≤ n
       ∧ Forall (λ t, (50000 < Admin.lt_amount t)%Q) (Admin.large_transactions acc)
       ∧ Forall (λ a, Admin.lia_severity a ∈ ["high"; "medium"]
                      ∧ Admin.lia_period a = "Last 3 months")
           (Admin.low_income_alerts acc))
    (Admin.dashboard_user clk (LocalAuth._ensure_data_dir w))
    (λ i n acc x acc' Hf, dashboard_account_keeps clk i n acc acc' _ _ _ _ Hf)
    users 0 0 Admin.totals0 t Et) as (Hact & Hbig & Hsev).
  { split; [done|]. split; constructor. }
  pose proof (fold_res_invariant (λ n trs, length trs ≤ n)
    (Admin.trend_user (LocalAuth._ensure_data_dir w))
    (λ i n acc x acc' Hf, trend_user_grows _ i n acc acc' x Hf)
    (take 10 users) 0 0 [] trends Etr (le_n 0)) as Htr.
  rewrite length_take in Htr. simpl in Hact.
  split; [done|]. split; [lia|].
  split; [rewrite length_take; lia|]. split; [rewrite length_take; lia|].
  split; [lia|].
  split; [by apply Forall_take|]. split; [by apply Forall_take|]. done.
Qed.

Lemma dashboard_bounds_witness :
  let w := (LocalAuth.signup (H := sample_runtime) (sample_draws "1")
              "new.user@gmail.com" (PyText.of_str "secret1") "New User"
              empty_world).2 in
  ∃ d,
    (Admin.get_admin_dashboard (H := sample_runtime) sample_clock
       Auth.DEMO_USER w).1 = Ok d
    ∧ Admin.s_total_users (Admin.d_summary d) = 1.
Proof.
  intros w.
  destruct (Admin.get_admin_dashboard (H := sample_runtime) sample_clock
              Auth.DEMO_USER w).1 as [d|e] eqn:Hd.
  - exists d. split; [reflexivity|].
    rewrite (proj1 (@dashboard_bounds sample_runtime sample_clock
                      Auth.DEMO_USER w d Hd)).
    vm_compute. reflexivity.
  - vm_compute in Hd. discriminate Hd.
Defined.

(** ** Anonymous labels *)

Section label_facts.

Lemma digit_inj (x y : Z) :
  (0 ≤ x < 10)%Z → (0 ≤ y < 10)%Z → Admin.digit x = Admin.digit y → x = y.
Proof.
  intros Hx Hy Heq. unfold Admin.digit in Heq.
  apply (f_equal N_of_ascii) in Heq.
  rewrite !N_ascii_embedding in Heq by lia. lia.
Qed.

Lemma digit_is_decimal (x : Z) :
  (0 ≤ x < 10)%Z → (48 ≤ N_of_ascii (Admin.digit x) ≤ 57)%N.
Proof.
  intros Hx. unfold Admin.digit. rewrite N_ascii_embedding by lia. lia.
Qed.

End label_facts.

(** X22.  [anonymize_user_id] returns "USER_" followed by four decimal
    digits, the residue of the hash of the id modulo 10000 padded with
    zeros; two ids get the same label exactly when their hashes agree
    modulo 10000. *)
Theorem anonymize_user_id_format `{Runtime} (u1 u2 : string) :
  (∃ d1 d2 d3 d4 : ascii,
     Admin.anonymize_user_id u1
     = String "U" (String "S" (String "E" (String "R" (String "_"
         (String d1 (String d2 (String d3 (String d4 EmptyString))))))))
     ∧ Forall (λ d, (48 ≤ N_of_ascii d ≤ 57)%N) [d1; d2; d3; d4]
     ∧ (1000 * (Z.of_N (N_of_ascii d1) - 48)
        + 100 * (Z.of_N (N_of_ascii d2) - 48)
        + 10 * (Z.of_N (N_of_ascii d3) - 48)
        + (Z.of_N (N_of_ascii d4) - 48)
        = py_hash u1 mod 10000)%Z)
  ∧ (Admin.anonymize_user_id u1 = Admin.anonymize_user_id u2
     ↔ (py_hash u1 mod 10000 = py_hash u2 mod 10000)%Z).
Proof.
  unfold Admin.anonymize_user_id. cbv zeta.
  pose proof (Z.mod_pos_bound (py_hash u1) 10000 eq_refl) as H1.
  pose proof (Z.mod_pos_bound (py_hash u2) 10000 eq_refl) as H2.
  set (n := (py_hash u1 mod 10000)%Z) in *.
  set (m := (py_hash u2 mod 10000)%Z) in *.
  assert (Hd : ∀ k : Z, (0 ≤ k < 10000)%Z →
    (0 ≤ k / 1000 < 10 ∧ 0 ≤ k / 100 mod 10 < 10
     ∧ 0 ≤ k / 10 mod 10 < 10 ∧ 0 ≤ k mod 10 < 10)%Z
    ∧ (k = 1000 * (k / 1000) + 100 * (k / 100 mod 10)
           + 10 * (k / 10 mod 10) + k mod 10)%Z).
  { intros k Hk.
    pose proof (Z.div_mod k 10 ltac:(lia)).
    pose proof (Z.div_mod (k / 10) 10 ltac:(lia)).
    pose proof (Z.div_mod (k / 100) 10 ltac:(lia)).
    pose proof (Z.mod_pos_bound k 10 eq_refl).
    pose proof (Z.mod_pos_bound (k / 10) 10 eq_refl).
    pose proof (Z.mod_pos_bound (k / 100) 10 eq_refl).
    assert (k / 100 = k / 10 / 10)%Z by (rewrite Z.div_div by lia; done).
    assert (k / 1000 = k / 100 / 10)%Z by (rewrite Z.div_div by lia; done).
    lia. }
  destruct (Hd n H1) as ((Ha1 & Hb1 & Hc1 & He1) & Hn).
  destruct (Hd m H2) as ((Ha2 & Hb2 & Hc2 & He2) & Hm).
  split.
  - eexists _, _, _, _. split; [reflexivity|]. split.
    + repeat apply Forall_cons_2; try apply Forall_nil_2;
        by apply digit_is_decimal.
    + unfold Admin.digit. rewrite !N_ascii_embedding by lia. lia.
  - split.
    + simpl. intros Heq. injection Heq as Ea Eb Ec Ee.
      apply digit_inj in Ea, Eb, Ec, Ee; try done. lia.
    + intros Heq. by rewrite Heq.
Qed.

(** ** Categories of uploaded rows *)

Section category_facts.
Import Transactions.

Lemma first_key_in_val (mapping : list (string * string)) (raw v : string) :
  first_key_in mapping raw = Some v → v ∈ map snd mapping.
Proof.
  induction mapping as [|[key val] rest IH]; simpl; [done|].
  destruct (PyStr.contains raw key).
  - intros [= <-]. apply list_elem_of_here.
  - intros Hv. apply list_elem_of_further. by apply IH.
Qed.

End category_facts.

Ltac each_member H :=
  repeat (apply elem_of_cons in H as [->|H]); [..|by apply elem_of_nil in H].

Ltac in_list :=
  repeat first [apply list_elem_of_here | apply list_elem_of_further].

Lemma normalize_income_result (r c : string) :
  c = match Transactions.first_key_in Transactions.income_mapping r with
      | Some val => val
      | None =>
          if bool_decide (r ∈ Models.IncomeCategory_values) then r else "other"
      end →
  c ∈ Models.IncomeCategory_values ∧ c ≠ "rideshare"
  ∧ Transactions.normalize_income_category c = c.
Proof.
  intros ->.
  destruct (Transactions.first_key_in Transactions.income_mapping r)
    as [v|] eqn:E.
  - apply first_key_in_val in E. cbn in E.
    each_member E;
      (split; [unfold Models.IncomeCategory_values; cbn; in_list|]);
      (split; [discriminate|]); vm_compute; reflexivity.
  - case_bool_decide as Hr.
    + unfold Models.IncomeCategory_values in Hr. cbn in Hr.
      each_member Hr; try (vm_compute in E; discriminate E);
        (split; [unfold Models.IncomeCategory_values; cbn; in_list|]);
        (split; [discriminate|]); vm_compute; reflexivity.
    + (split; [unfold Models.IncomeCategory_values; cbn; in_list|]);
      (split; [discriminate|]); vm_compute; reflexivity.
Qed.

(** X23.  [normalize_income_category] returns, for every string, a value
    of [IncomeCategory]; it never returns "rideshare", which it turns into
    "delivery"; and it returns its own results unchanged. *)
Theorem normalize_income_category_range (raw : string) :
  let c := Transactions.normalize_income_category raw in
  c ∈ Models.IncomeCategory_values
  ∧ c ≠ "rideshare"
  ∧ Transactions.normalize_income_category "rideshare" = "delivery"
  ∧ Transactions.normalize_income_category c = c.
Proof.
  cbv zeta.
  destruct (normalize_income_result (PyStr.strip (PyStr.lower raw))
              (Transactions.normalize_income_category raw) eq_refl)
    as (Hin & Hne & Hidem).
  split; [done|]. split; [done|]. split; [|done].
  vm_compute. reflexivity.
Qed.

Lemma normalize_expense_result (r c : string) :
  c = match Transactions.first_key_in Transactions.expense_mapping r with
      | Some val => val
      | None =>
          if bool_decide (r ∈ Models.ExpenseCategory_values) then r else "other"
      end →
  c ∈ Models.ExpenseCategory_values ∧ c ≠ "rent"
  ∧ Transactions.normalize_expense_category c = c.
Proof.
  intros ->.
  destruct (Transactions.first_key_in Transactions.expense_mapping r)
    as [v|] eqn:E.
  - apply first_key_in_val in E. cbn in E.
    each_member E;
      (split; [unfold Models.ExpenseCategory_values; cbn; in_list|]);
      (split; [discriminate|]); vm_compute; reflexivity.
  - case_bool_decide as Hr.
    + unfold Models.ExpenseCategory_values in Hr. cbn in Hr.
      each_member Hr; try (vm_compute in E; discriminate E);
        (split; [unfold Models.ExpenseCategory_values; cbn; in_list|]);
        (split; [discriminate|]); vm_compute; reflexivity.
    + (split; [unfold Models.ExpenseCategory_values; cbn; in_list|]);
      (split; [discriminate|]); vm_compute; reflexivity.
Qed.

(** X24.  [normalize_expense_category] returns, for every string, a value
    of [ExpenseCategory]; it never returns "rent", which it turns into
    "bills"; and it returns its own results unchanged. *)
Theorem normalize_expense_category_range (raw : string) :
  let c := Transactions.normalize_expense_category raw in
  c ∈ Models.ExpenseCategory_values
  ∧ c ≠ "rent"
  ∧ Transactions.normalize_expense_category "rent" = "bills"
  ∧ Transactions.normalize_expense_category c = c.
Proof.
  cbv zeta.
  destruct (normalize_expense_result (PyStr.strip (PyStr.lower raw))
              (Transactions.normalize_expense_category raw) eq_refl)
    as (Hin & Hne & Hidem).
  split; [done|]. split; [done|]. split; [|done].
  vm_compute. reflexivity.
Qed.

(** ** The demo session *)

(** X25.  The session that [demo_login] hands out needs no account: in
    every state, whatever the registry holds, its token resolves to the
    demo identity without a write, and that identity passes
    [get_admin_user], so the dashboard never answers it with 403. *)
Theorem demo_session_is_admin `{Runtime} (clk : Admin.clock) (w : world) :
  let s := AuthRoutes.demo_login in
  Auth.get_current_user (Some (AuthRoutes.demo_access_token s)) w
  = (Ok (AuthRoutes.demo_user s), w)
  ∧ Admin.get_admin_user (AuthRoutes.demo_user s) = Ok (AuthRoutes.demo_user s)
  ∧ ∀ e, (Admin.get_admin_dashboard clk (AuthRoutes.demo_user s) w).1 = Raise e →
      ∃ e', e = HTTPException 500 ("Dashboard error: " +:+ exn_str e').
Proof.
  cbv zeta. split; [by rewrite get_current_user_cases|]. split; [done|].
  intros e. rewrite get_admin_dashboard_eq.
  change (Admin.get_admin_user (AuthRoutes.demo_user AuthRoutes.demo_login))
    with (Ok (A := Auth.identity) Auth.DEMO_USER).
  cbv beta iota.
  destruct (Admin.dashboard_of _ _ _) as [d|e0]; [done|].
  intros [= <-]. by exists e0.
Qed.

(** ** Goals: creating and deleting *)

Section goal_delete_facts.

Lemma filter_res_owner_keeps (goal_id user_id : string) (l : list record) :
  Forall (λ x : record, ∃ v, x !! "id" = Some v ∧ eq_str v goal_id = false) l →
  Admin.filter_res (GoalsDelete.not_id_and_owner goal_id user_id) l = Ok l.
Proof.
  induction 1 as [|x l (v & Hx & Hv) _ IH]; simpl; [done|].
  unfold GoalsDelete.not_id_and_owner at 1, Goals.id_and_owner_are,
    Goals.id_is, getitem.
  by rewrite Hx, Hv, IH.
Qed.

Lemma filter_res_owner_drops_last (goal_id user_id : string)
    (l : list record) (r : record) :
  Forall (λ x : record, ∃ v, x !! "id" = Some v ∧ eq_str v goal_id = false) l →
  r !! "id" = Some (VStr goal_id) → r !! "user_id" = Some (VStr user_id) →
  Admin.filter_res (GoalsDelete.not_id_and_owner goal_id user_id) (l ++ [r])
  = Ok l.
Proof.
  intros Hl Hr Hu. induction Hl as [|x l (v & Hx & Hv) _ IH]; simpl.
  - unfold GoalsDelete.not_id_and_owner, Goals.id_and_owner_are,
      Goals.id_is, getitem.
    rewrite Hr, Hu. simpl. by rewrite !bool_decide_eq_true_2.
  - unfold GoalsDelete.not_id_and_owner at 1, Goals.id_and_owner_are,
      Goals.id_is, getitem.
    by rewrite Hx, Hv, IH.
Qed.

Lemma seed_demo_goals_seeded (uuid now : nat → string) (w : world) :
  demo_goals w ≠ [] → Goals._seed_demo_goals uuid now w = w.
Proof. unfold Goals._seed_demo_goals. by destruct (demo_goals w). Qed.

End goal_delete_facts.

(** X26.  A goal created with an id that no goal of the list carries is
    removed again by [delete_goal] with that id, which gives back the list
    from before the creation; a further [delete_goal] answers 404 "Goal
    not found".  The list is the stored collection of the account, or, for
    the demo account, the list in memory once it has been seeded. *)
Theorem goal_create_then_delete (gid now : string)
    (seed_uuid seed_now : nat → string) (body : Models.GoalCreate)
    (user : Auth.identity) (w : world) :
  let goals_of (w : world) :=
    if Auth.is_demo user then demo_goals w
    else LocalStorage.get_goals (Auth.id user) w in
  let w0 :=
    if Auth.is_demo user then Goals._seed_demo_goals seed_uuid seed_now w
    else w in
  Forall (λ x : record, ∃ v, x !! "id" = Some v ∧ eq_str v gid = false)
    (goals_of w0) →
  ∃ g w1 w2,
    Goals.create_goal gid now seed_uuid seed_now body user w = (Ok g, w1)
    ∧ goals_of w1 = goals_of w0 ++ [g]
    ∧ GoalsDelete.delete_goal seed_uuid seed_now gid user w1 = (Ok (), w2)
    ∧ goals_of w2 = goals_of w0
    ∧ (GoalsDelete.delete_goal seed_uuid seed_now gid user w2).1
      = Raise (HTTPException 404 "Goal not found")
    ∧ goals_of (GoalsDelete.delete_goal seed_uuid seed_now gid user w2).2
      = goals_of w0.
Proof.
  cbv zeta. unfold Goals.create_goal, GoalsDelete.delete_goal.
  set (g := <["id" := VStr gid]> _).
  assert (Hid : g !! "id" = Some (VStr gid)) by by simplify_map_eq.
  assert (Hu : g !! "user_id" = Some (VStr (Auth.id user)))
    by by simplify_map_eq.
  destruct (Auth.is_demo user) eqn:Hdemo; intros Hfresh; unfold_m.
  - set (w0 := Goals._seed_demo_goals seed_uuid seed_now w) in *.
    cbn [fst snd].
    set (w1 := set_demo_goals (demo_goals w0 ++ [g]) w0).
    assert (Hw1 : Goals._seed_demo_goals seed_uuid seed_now w1 = w1).
    { apply seed_demo_goals_seeded. subst w1. simpl.
      by destruct (demo_goals w0). }
    eexists g, w1, _. split; [done|]. split; [done|].
    rewrite Hw1. cbn [fst snd].
    replace (demo_goals w1) with (demo_goals w0 ++ [g]) by done.
    rewrite filter_res_owner_drops_last by done. cbn [fst snd].
    rewrite decide_False by (rewrite length_app; simpl; lia).
    split; [reflexivity|]. split; [done|].
    set (w2 := set_demo_goals (demo_goals w0) w1).
    assert (Hd2 : demo_goals w2 = demo_goals w0) by done.
    destruct (demo_goals w0) as [|g0 gs] eqn:E0.
    + (* nothing was seeded: the list in memory is empty again *)
      exfalso. subst w0. unfold Goals._seed_demo_goals in E0.
      destruct (demo_goals w) eqn:Ew; [discriminate E0|].
      rewrite Ew in E0. discriminate E0.
    + assert (Hw2 : Goals._seed_demo_goals seed_uuid seed_now w2 = w2).
      { apply seed_demo_goals_seeded. by rewrite Hd2. }
      rewrite Hw2. cbn [fst snd]. rewrite Hd2.
      rewrite filter_res_owner_keeps by done. cbn [fst snd].
      by rewrite decide_True.
  - cbn [fst snd].
    unfold LocalStorage.get_goals, LocalStorage.save_goals in *.
    eexists g, _, _. split; [reflexivity|].
    rewrite !load_save. split; [done|].
    rewrite filter_res_drops_last by done. cbn [fst snd].
    rewrite decide_False by (rewrite length_app; simpl; lia).
    split; [reflexivity|]. rewrite ?load_save. split; [done|].
    rewrite filter_res_keeps by done. cbn [fst snd].
    rewrite decide_True by done. cbn [fst snd]. by rewrite load_save.
Qed.

Lemma goal_create_then_delete_witness :
  LocalStorage.get_goals "u1"
    (GoalsDelete.delete_goal (λ _, "s") (λ _, "t") "g-1" (sample_user "u1")
       (Goals.create_goal "g-1" "2025-03-01T10:00:00" (λ _, "s") (λ _, "t")
          {| Models.gc_name := "Laptop"; Models.gc_target_amount := 1000;
             Models.gc_target_date := "2025-09-30";
             Models.gc_icon := "laptop";
             Models.gc_monthly_contribution := 100 |}
          (sample_user "u1") empty_world).2).2
  = [].
Proof.
  destruct (goal_create_then_delete "g-1" "2025-03-01T10:00:00"
    (λ _, "s") (λ _, "t")
    {| Models.gc_name := "Laptop"; Models.gc_target_amount := 1000;
       Models.gc_target_date := "2025-09-30"; Models.gc_icon := "laptop";
       Models.gc_monthly_contribution := 100 |}
    (sample_user "u1") empty_world) as (g & w1 & w2 & Hc & _ & Hd & Hl & _).
  - vm_compute. constructor.
  - rewrite Hc. cbn [snd]. rewrite Hd. cbn [snd]. exact Hl.
Defined.
